(** * Service layer of the TencentCloud provider: SQL Server and CKafka

  A shallow embedding of [tencentcloud/service_tencentcloud_sqlserver.go]
  (the [SqlserverService] methods and the [CkafkaService] methods that
  follow them in the same source file), and the properties of its
  pagination loops, status polls, composite identifiers and error paths.

  Conventions of the embedding.
  - A Go method [func (me *S) F(ctx, a, b) (r, errRet error)] becomes a
    computation [F a b : M (r * option error)]; [nil] errors are [None].
  - The remote control plane is a state [Srv] threaded through every SDK
    call; the order of rate-limiter acquisitions and SDK calls is kept
    in a trace.
  - [log.Printf] and the deferred logging closures have no effect on
    results and are left out; [ctx] only carries the log id.
  - Pointer fields that the source dereferences are plain values; a
    response pointer that the source tests against [nil] is an [option],
    and dereferencing it when it is [nil] is a panic.
  - A [for] loop without condition is a recursive function on a fuel
    argument; running out of fuel is an outcome of its own, and the
    properties say how much fuel is enough.
  - A variable that a closure assigns, or that a request field points to
    (the [offset] of a scan), is passed explicitly to whoever reads it.
  - The variable of a [range] loop whose address is appended to a request
    is a cell: the request holds the address and reads the cell when it
    is sent. *)

From Stdlib Require Import ZArith List String Ascii Bool Lia.
Import ListNotations.
Local Open Scope string_scope.
Local Open Scope Z_scope.

(** ** Go prelude *)

Module Go.

(** [int64] and [uint64] arithmetic wraps around. *)
Definition wrap_int64 (z : Z) : Z := (z + 2 ^ 63) mod 2 ^ 64 - 2 ^ 63.
Definition wrap_uint64 (z : Z) : Z := z mod 2 ^ 64.

(** [int(x)] on a 64-bit target. *)
Definition int (z : Z) : Z := wrap_int64 z.

(** [len(s)] of a slice, as a Go [int]. *)
Definition len {A} (l : list A) : Z := Z.of_nat (List.length l).

(** [strings.HasPrefix(s, prefix)]. *)
Definition HasPrefix (s prefix : string) : bool := String.prefix prefix s.

(** [strings.Contains(s, substr)]. *)
Fixpoint Contains (s substr : string) : bool :=
  HasPrefix s substr ||
  match s with
  | EmptyString => false
  | String _ s' => Contains s' substr
  end.

(** [explode]: one string per character (byte-wise; composite ids are
    ASCII). *)
Fixpoint explode (s : string) : list string :=
  match s with
  | EmptyString => []
  | String c s' => String c EmptyString :: explode s'
  end.

(** The scan of [genSplit] for a non-empty separator: [cur] is the piece
    read since the last separator, [skip] the number of characters of a
    matched separator still to drop. *)
Fixpoint splitFrom (sep : string) (skip : nat) (cur : string) (s : string)
  : list string :=
  match s with
  | EmptyString => [cur]
  | String c s' =>
      match skip with
      | S k => splitFrom sep k cur s'
      | O =>
          if HasPrefix s sep
          then cur :: splitFrom sep (String.length sep - 1) EmptyString s'
          else splitFrom sep 0 (cur ++ String c EmptyString) s'
      end
  end.

(** [strings.Split(s, sep)]. *)
Definition Split (s sep : string) : list string :=
  match sep with
  | EmptyString => explode s
  | _ => splitFrom sep 0 EmptyString s
  end.

(** [strings.Join(elems, sep)]. *)
Definition Join (elems : list string) (sep : string) : string :=
  String.concat sep elems.

(** Go [error] values, by the way the source builds and inspects them,
    and the arguments of the format verbs of [fmt.Errorf]: a string, an
    integer, [err.Error()] of another error, and [request.ToJsonString()]
    of the request of an action. *)
Inductive error : Type :=
| SDKError (Code Message RequestId : string)
    (* a TencentCloudSDKError of the SDK's errors package *)
| Errorf (format : string) (args : list arg)
    (* fmt.Errorf(format, args...) *)
| WithStack (e : error)
    (* errors.WithStack(e) *)
| OtherError (msg : string)
    (* any other concrete error type, e.g. a network error *)
with arg : Type :=
| AStr (s : string)
| AInt (z : Z)
| AErr (e : error)
| AJson (action : string).

(** [ee, ok := err.(T)] for [T] the SDK error type, with [ee.Code]. *)
Definition asSDKError (err : error) : string * bool :=
  match err with
  | SDKError Code _ _ => (Code, true)
  | _ => (EmptyString, false)
  end.

(** The items of [l] from [offset] on, at most [limit] of them: what a
    list action serves for one request. *)
Definition page {A} (l : list A) (offset limit : Z) : list A :=
  firstn (Z.to_nat limit) (skipn (Z.to_nat offset) l).

(** The elements of a slice that may be [nil]. *)
Definition elems {A} (s : option (list A)) : list A :=
  match s with
  | Some l => l
  | None => []
  end.

(** [m[key]] with its [ok] flag, for a [map[string]interface{}] whose
    values are strings. *)
Fixpoint lookup (m : list (string * string)) (key : string) : option string :=
  match m with
  | [] => None
  | (k, v) :: m' => if String.eqb k key then Some v else lookup m' key
  end.

(** [s != ""]. *)
Definition nonEmpty (s : string) : bool := negb (String.eqb s EmptyString).

(** The string variables whose address is taken: a pointer is the
    address of a cell, and the cells hold what the variables hold. *)
Definition Addr : Type := nat.
Definition Cells : Type := Addr -> string.

(** [*p = x]. *)
Definition assign (cells : Cells) (p : Addr) (x : string) : Cells :=
  fun q => if Nat.eqb p q then x else cells q.

(** [resource.RetryError] with its two constructors. *)
Record RetryError : Type := { Err : error; Retryable : bool }.

Definition RetryableError (err : error) : RetryError :=
  {| Err := err; Retryable := true |}.
Definition NonRetryableError (err : error) : RetryError :=
  {| Err := err; Retryable := false |}.

(** The result of an SDK call [(response, err)]: the response pointer
    and, under it, the pointer [response.Response] to the payload. *)
Definition reply (P : Type) : Type := (option (option P) * option error)%type.

(** [response == nil || response.Response == nil] is [payload r = None]. *)
Definition payload {P} (response : option (option P)) : option P :=
  match response with
  | Some (Some p) => Some p
  | _ => None
  end.

End Go.
Import Go.

(** ** SDK models

  Requests keep the fields the service layer sets, payloads the fields
  it reads. *)

Module sqlserver.

Record DBInstance : Type :=
  { DBInstance_InstanceId : string; DBInstance_Status : Z }.

Record Backup : Type := { Backup_Id : Z; Backup_FileName : string }.

Record DBPrivilege : Type :=
  { DBPrivilege_DBName : string; DBPrivilege_Privilege : string }.

Record AccountDetail : Type :=
  { AccountDetail_Name : string;
    AccountDetail_Status : Z;
    AccountDetail_Dbs : list DBPrivilege }.

Record AccountPrivilege : Type :=
  { AccountPrivilege_UserName : string;
    AccountPrivilege_Privilege : string }.

Record DBDetail : Type :=
  { DBDetail_Name : string;
    DBDetail_Status : Z;
    DBDetail_Accounts : list AccountPrivilege }.

Record InstanceDBDetail : Type :=
  { InstanceDBDetail_InstanceId : string; DBDetails : list DBDetail }.

Record DealInfo : Type :=
  { DealName : string; InstanceIdSet : list string; FlowId : Z }.

Record DescribeDBInstancesRequest : Type :=
  { DescribeDBInstances_InstanceIdSet : list string;
    DescribeDBInstances_ProjectId : option Z;
    DescribeDBInstances_SubnetId : option string;
    DescribeDBInstances_VpcId : option string;
    DescribeDBInstances_Offset : Z;
    DescribeDBInstances_Limit : Z }.

(** [Response.DBInstances], a slice of pointers. *)
Definition DescribeDBInstancesResponse : Type := list (option DBInstance).

Record DescribeBackupsRequest : Type :=
  { DescribeBackups_InstanceId : string;
    DescribeBackups_StartTime : string;
    DescribeBackups_EndTime : string;
    DescribeBackups_Offset : Z;
    DescribeBackups_Limit : Z }.

(** [Response.Backups]. *)
Definition DescribeBackupsResponse : Type := list Backup.

Record DescribeAccountsRequest : Type :=
  { DescribeAccounts_InstanceId : string;
    DescribeAccounts_Offset : Z;
    DescribeAccounts_Limit : Z }.

(** [Response.Accounts]. *)
Definition DescribeAccountsResponse : Type := list AccountDetail.

Record DescribeDBsRequest : Type :=
  { DescribeDBs_InstanceIdSet : list string;
    DescribeDBs_Offset : Z;
    DescribeDBs_Limit : Z }.

(** [Response.DBInstances]: one entry of DB details per instance. *)
Definition DescribeDBsResponse : Type := list InstanceDBDetail.

Record DescribeFlowStatusRequest : Type :=
  { DescribeFlowStatus_FlowId : Z }.

Record DescribeFlowStatusResponse : Type :=
  { Status : Z; RequestId : string }.

Record DescribeOrdersRequest : Type :=
  { DescribeOrders_DealNames : list string }.

(** [Response.Deals]. *)
Definition DescribeOrdersResponse : Type := list DealInfo.

Record CreateDBInstancesRequest : Type :=
  { CreateDBInstances_DBVersion : string;
    CreateDBInstances_InstanceChargeType : string;
    CreateDBInstances_Memory : Z;
    CreateDBInstances_Storage : Z;
    CreateDBInstances_SubnetId : string;
    CreateDBInstances_VpcId : string;
    CreateDBInstances_HAType : string;
    CreateDBInstances_MultiZones : bool;
    CreateDBInstances_AutoRenewFlag : Z;
    CreateDBInstances_ProjectId : option Z;
    CreateDBInstances_Weekly : list Z;
    CreateDBInstances_StartTime : option string;
    CreateDBInstances_Span : option Z;
    CreateDBInstances_SecurityGroupList : list string;
    CreateDBInstances_GoodsNum : Z;
    CreateDBInstances_Zone : string }.

(** [Response.DealNames]. *)
Definition CreateDBInstancesResponse : Type := list string.

Record CreateReadOnlyDBInstancesRequest : Type :=
  { CreateReadOnly_InstanceId : string;
    CreateReadOnly_InstanceChargeType : string;
    CreateReadOnly_Memory : Z;
    CreateReadOnly_Storage : Z;
    CreateReadOnly_SubnetId : string;
    CreateReadOnly_VpcId : string;
    CreateReadOnly_GoodsNum : Z;
    CreateReadOnly_ReadOnlyGroupType : Z;
    CreateReadOnly_ReadOnlyGroupId : option string;
    CreateReadOnly_ReadOnlyGroupForcedUpgrade : option Z;
    CreateReadOnly_Zone : string;
    CreateReadOnly_SecurityGroupList : list string }.

(** [Response.DealNames]. *)
Definition CreateReadOnlyDBInstancesResponse : Type := list string.

Record DeleteAccountRequest : Type :=
  { DeleteAccount_UserNames : list string;
    DeleteAccount_InstanceId : string }.

(** [Response.FlowId]. *)
Definition DeleteAccountResponse : Type := Z.

Record ModifyAccountPrivilegeRequest : Type :=
  { ModifyAccountPrivilege_InstanceId : string;
    ModifyAccountPrivilege_UserName : string;
    ModifyAccountPrivilege_DBName : string;
    ModifyAccountPrivilege_Privilege : string }.

(** [Response.FlowId]. *)
Definition ModifyAccountPrivilegeResponse : Type := Z.

End sqlserver.

Module ckafka.

Record JgwOperateResponse : Type := { ReturnCode : string }.

Record User : Type := { User_Name : string }.

(** [Users] is a slice that the source also tests against [nil]. *)
Record UserResponse : Type := { Users : option (list User) }.

Record Acl : Type :=
  { PermissionType : Z; Principal : string; Operation : Z; Host : string }.

Record AclResponse : Type := { AclList : list Acl }.

Record InstanceAttributesResponse : Type :=
  { InstanceAttributes_InstanceId : string }.

Record TopicAttributesResponse : Type :=
  { TopicAttributes_TopicId : string }.

Record CreateUserRequest : Type :=
  { CreateUser_InstanceId : string;
    CreateUser_Name : string;
    CreateUser_Password : string }.

(** [Response.Result]. *)
Definition CreateUserResponse : Type := option JgwOperateResponse.

Record DescribeUserRequest : Type :=
  { DescribeUser_InstanceId : string;
    DescribeUser_SearchWord : option string;
    DescribeUser_Limit : option Z;
    DescribeUser_Offset : option Z }.

(** [Response.Result]. *)
Definition DescribeUserResponse : Type := option UserResponse.

Record DescribeACLRequest : Type :=
  { DescribeACL_InstanceId : string;
    DescribeACL_ResourceType : Z;
    DescribeACL_ResourceName : string;
    DescribeACL_SearchWord : option string;
    DescribeACL_Limit : Z;
    DescribeACL_Offset : Z }.

(** [Response.Result]. *)
Definition DescribeACLResponse : Type := option AclResponse.

Record DescribeInstanceAttributesRequest : Type :=
  { DescribeInstanceAttributes_InstanceId : string }.

(** [Response.Result]. *)
Definition DescribeInstanceAttributesResponse : Type :=
  option InstanceAttributesResponse.

Record DescribeTopicAttributesRequest : Type :=
  { DescribeTopicAttributes_InstanceId : string;
    DescribeTopicAttributes_TopicName : string }.

(** [Response.Result]. *)
Definition DescribeTopicAttributesResponse : Type :=
  option TopicAttributesResponse.

End ckafka.

(** The types of the other actions of the two SDK packages that the
    service layer calls, under the version names of the packages. *)

Module v20180328.

Record ZoneInfo : Type := { Zone : string; ZoneName : string }.

Record SpecInfo : Type := { SpecId : Z; MachineType : string }.

Record SecurityGroup : Type := { SecurityGroupId : string }.

Record ReadOnlyGroup : Type :=
  { ReadOnlyGroup_Id : string; ReadOnlyGroup_Name : string }.

Record AccountCreateInfo : Type :=
  { AccountCreateInfo_UserName : string;
    AccountCreateInfo_Password : string;
    AccountCreateInfo_IsAdmin : bool;
    AccountCreateInfo_Remark : string }.

Record DBCreateInfo : Type :=
  { DBCreateInfo_DBName : string;
    DBCreateInfo_Charset : string;
    DBCreateInfo_Remark : string }.

(** [DescribeZones] has no request field; [Response.ZoneSet]. *)
Definition DescribeZonesRequest : Type := unit.
Definition DescribeZonesResponse : Type := list ZoneInfo.

Record DescribeProductConfigRequest : Type :=
  { DescribeProductConfig_Zone : string }.

(** [Response.SpecInfoList]. *)
Definition DescribeProductConfigResponse : Type := list SpecInfo.

Record ModifyDBInstanceNameRequest : Type :=
  { ModifyDBInstanceName_InstanceId : string;
    ModifyDBInstanceName_InstanceName : string }.

Record ModifyDBInstanceProjectRequest : Type :=
  { ModifyDBInstanceProject_InstanceIdSet : list string;
    ModifyDBInstanceProject_ProjectId : Z }.

Record UpgradeDBInstanceRequest : Type :=
  { UpgradeDBInstance_InstanceId : string;
    UpgradeDBInstance_Memory : Z;
    UpgradeDBInstance_Storage : Z }.

(** The request of [DisassociateSecurityGroups] and of
    [AssociateSecurityGroups]. *)
Record SecurityGroupsRequest : Type :=
  { SecurityGroups_InstanceIdSet : list string;
    SecurityGroups_SecurityGroupId : string }.

Record ModifyMaintenanceSpanRequest : Type :=
  { ModifyMaintenanceSpan_InstanceId : string;
    ModifyMaintenanceSpan_Weekly : list Z;
    ModifyMaintenanceSpan_StartTime : option string;
    ModifyMaintenanceSpan_Span : option Z }.

Record TerminateDBInstanceRequest : Type :=
  { TerminateDBInstance_InstanceIdSet : list string }.

Record DeleteDBInstanceRequest : Type :=
  { DeleteDBInstance_InstanceId : string }.

(** The payload of an action whose response the service layer drops. *)
Definition Dropped : Type := unit.

Record DescribeMaintenanceSpanRequest : Type :=
  { DescribeMaintenanceSpan_InstanceId : string }.

Record DescribeMaintenanceSpanResponse : Type :=
  { Weekly : list Z; StartTime : string; Span : Z }.

Record DescribeDBSecurityGroupsRequest : Type :=
  { DescribeDBSecurityGroups_InstanceId : string }.

(** [Response.SecurityGroupSet]. *)
Definition DescribeDBSecurityGroupsResponse : Type := list SecurityGroup.

Record DescribeReadOnlyGroupListRequest : Type :=
  { DescribeReadOnlyGroupList_InstanceId : string }.

(** [Response.ReadOnlyGroupSet]. *)
Definition DescribeReadOnlyGroupListResponse : Type := list ReadOnlyGroup.

Record DescribeReadOnlyGroupByReadOnlyInstanceRequest : Type :=
  { DescribeReadOnlyGroupByReadOnlyInstance_InstanceId : string }.

Record DescribeReadOnlyGroupByReadOnlyInstanceResponse : Type :=
  { ReadOnlyGroupId : string; MasterInstanceId : string }.

Record CreateAccountRequest : Type :=
  { CreateAccount_InstanceId : string;
    CreateAccount_Accounts : list AccountCreateInfo }.

(** [Response.FlowId]. *)
Definition CreateAccountResponse : Type := Z.

Record ModifyAccountRemarkRequest : Type :=
  { ModifyAccountRemark_InstanceId : string;
    ModifyAccountRemark_UserName : string;
    ModifyAccountRemark_Remark : string }.

Record ResetAccountPasswordRequest : Type :=
  { ResetAccountPassword_InstanceId : string;
    ResetAccountPassword_UserName : string;
    ResetAccountPassword_Password : string }.

Record CreateDBRequest : Type :=
  { CreateDB_InstanceId : string; CreateDB_DBs : list DBCreateInfo }.

(** [Response.FlowId]. *)
Definition CreateDBResponse : Type := Z.

Record ModifyDBRemarkRequest : Type :=
  { ModifyDBRemark_InstanceId : string;
    ModifyDBRemark_Name : string;
    ModifyDBRemark_Remark : string }.

Record DeleteDBRequest : Type :=
  { DeleteDB_InstanceId : string; DeleteDB_Names : list string }.

(** [Response.FlowId]. *)
Definition DeleteDBResponse : Type := Z.

End v20180328.

Module v20190819.

Record ModifyPasswordRequest : Type :=
  { ModifyPassword_InstanceId : string;
    ModifyPassword_Name : string;
    ModifyPassword_Password : string;
    ModifyPassword_PasswordNew : string }.

Record DeleteUserRequest : Type :=
  { DeleteUser_InstanceId : string; DeleteUser_Name : string }.

(** The request of [CreateAcl] and of [DeleteAcl]. *)
Record AclRequest : Type :=
  { Acl_InstanceId : string;
    Acl_ResourceType : Z;
    Acl_ResourceName : string;
    Acl_Operation : Z;
    Acl_PermissionType : Z;
    Acl_Host : string;
    Acl_Principal : string }.

(** [Response.Result] of the four actions. *)
Definition OperateResponse : Type := option ckafka.JgwOperateResponse.

End v20190819.

(** ** The package environment and the remote control plane *)

(** Constants, tables and helpers of package [tencentcloud] that the
    service file uses and that are declared in other files of the
    package. Tables are total lookups: a Go map yields the zero value at
    a missing key. *)
Class Package : Type :=
  { FILED_SP : string;
    BASIC_NETWORK : Z;
    SQLSERVER_DEFAULT_OFFSET : Z;
    SQLSERVER_DEFAULT_LIMIT : Z;
    SQLSERVER_TASK_RUNNING : Z;
    SQLSERVER_TASK_FAIL : Z;
    SQLSERVER_DB_DELETING : Z;
    CKAFKA_DESCRIBE_LIMIT : Z;
    CKAFKA_ACL_RESOURCE_TYPE : string -> Z;
    CKAFKA_PERMISSION_TYPE_TO_STRING : Z -> string;
    CKAFKA_ACL_OPERATION_TO_STRING : Z -> string;
    CKAFKA_ACL_PRINCIPAL_STR : string;
    readRetryTimeout : Z;
    writeRetryTimeout : Z;
    retryError : error -> RetryError;
    (* getLogId(ctx) *)
    logId : string }.

(** The remote side: a server state, one transition per SDK action, and
    the number of further tries that [resource.Retry] fits before a given
    timeout expires. *)
Class Cloud : Type :=
  { Srv : Type;
    retries : Z -> nat;
    sqlserver_DescribeDBInstances :
      sqlserver.DescribeDBInstancesRequest -> Srv ->
      reply sqlserver.DescribeDBInstancesResponse * Srv;
    sqlserver_DescribeBackups :
      sqlserver.DescribeBackupsRequest -> Srv ->
      reply sqlserver.DescribeBackupsResponse * Srv;
    sqlserver_DescribeAccounts :
      sqlserver.DescribeAccountsRequest -> Srv ->
      reply sqlserver.DescribeAccountsResponse * Srv;
    sqlserver_DescribeDBs :
      sqlserver.DescribeDBsRequest -> Srv ->
      reply sqlserver.DescribeDBsResponse * Srv;
    sqlserver_DescribeFlowStatus :
      sqlserver.DescribeFlowStatusRequest -> Srv ->
      reply sqlserver.DescribeFlowStatusResponse * Srv;
    sqlserver_DescribeOrders :
      sqlserver.DescribeOrdersRequest -> Srv ->
      reply sqlserver.DescribeOrdersResponse * Srv;
    sqlserver_CreateDBInstances :
      sqlserver.CreateDBInstancesRequest -> Srv ->
      reply sqlserver.CreateDBInstancesResponse * Srv;
    sqlserver_CreateReadOnlyDBInstances :
      sqlserver.CreateReadOnlyDBInstancesRequest -> Srv ->
      reply sqlserver.CreateReadOnlyDBInstancesResponse * Srv;
    sqlserver_DeleteAccount :
      sqlserver.DeleteAccountRequest -> Srv ->
      reply sqlserver.DeleteAccountResponse * Srv;
    sqlserver_ModifyAccountPrivilege :
      sqlserver.ModifyAccountPrivilegeRequest -> Srv ->
      reply sqlserver.ModifyAccountPrivilegeResponse * Srv;
    ckafka_CreateUser :
      ckafka.CreateUserRequest -> Srv ->
      reply ckafka.CreateUserResponse * Srv;
    ckafka_DescribeUser :
      ckafka.DescribeUserRequest -> Srv ->
      reply ckafka.DescribeUserResponse * Srv;
    ckafka_DescribeACL :
      ckafka.DescribeACLRequest -> Srv ->
      reply ckafka.DescribeACLResponse * Srv;
    ckafka_DescribeInstanceAttributes :
      ckafka.DescribeInstanceAttributesRequest -> Srv ->
      reply ckafka.DescribeInstanceAttributesResponse * Srv;
    ckafka_DescribeTopicAttributes :
      ckafka.DescribeTopicAttributesRequest -> Srv ->
      reply ckafka.DescribeTopicAttributesResponse * Srv }.

(** The two tables of the package that only [CreateAcl] and [DeleteAcl]
    read. *)
Class AclTables : Type :=
  { CKAFKA_ACL_OPERATION : string -> Z;
    CKAFKA_PERMISSION_TYPE : string -> Z }.

(** The other actions of the remote side, on the same server state. *)
Class MoreCloud `{Cloud} : Type :=
  { sqlserver_DescribeZones :
      v20180328.DescribeZonesRequest -> Srv ->
      reply v20180328.DescribeZonesResponse * Srv;
    sqlserver_DescribeProductConfig :
      v20180328.DescribeProductConfigRequest -> Srv ->
      reply v20180328.DescribeProductConfigResponse * Srv;
    sqlserver_ModifyDBInstanceName :
      v20180328.ModifyDBInstanceNameRequest -> Srv ->
      reply v20180328.Dropped * Srv;
    sqlserver_ModifyDBInstanceProject :
      v20180328.ModifyDBInstanceProjectRequest -> Srv ->
      reply v20180328.Dropped * Srv;
    sqlserver_UpgradeDBInstance :
      v20180328.UpgradeDBInstanceRequest -> Srv ->
      reply v20180328.Dropped * Srv;
    sqlserver_DisassociateSecurityGroups :
      v20180328.SecurityGroupsRequest -> Srv ->
      reply v20180328.Dropped * Srv;
    sqlserver_AssociateSecurityGroups :
      v20180328.SecurityGroupsRequest -> Srv ->
      reply v20180328.Dropped * Srv;
    sqlserver_ModifyMaintenanceSpan :
      v20180328.ModifyMaintenanceSpanRequest -> Srv ->
      reply v20180328.Dropped * Srv;
    sqlserver_TerminateDBInstance :
      v20180328.TerminateDBInstanceRequest -> Srv ->
      reply v20180328.Dropped * Srv;
    sqlserver_DeleteDBInstance :
      v20180328.DeleteDBInstanceRequest -> Srv ->
      reply v20180328.Dropped * Srv;
    sqlserver_DescribeMaintenanceSpan :
      v20180328.DescribeMaintenanceSpanRequest -> Srv ->
      reply v20180328.DescribeMaintenanceSpanResponse * Srv;
    sqlserver_DescribeDBSecurityGroups :
      v20180328.DescribeDBSecurityGroupsRequest -> Srv ->
      reply v20180328.DescribeDBSecurityGroupsResponse * Srv;
    sqlserver_DescribeReadOnlyGroupList :
      v20180328.DescribeReadOnlyGroupListRequest -> Srv ->
      reply v20180328.DescribeReadOnlyGroupListResponse * Srv;
    sqlserver_DescribeReadOnlyGroupByReadOnlyInstance :
      v20180328.DescribeReadOnlyGroupByReadOnlyInstanceRequest -> Srv ->
      reply v20180328.DescribeReadOnlyGroupByReadOnlyInstanceResponse * Srv;
    sqlserver_CreateAccount :
      v20180328.CreateAccountRequest -> Srv ->
      reply v20180328.CreateAccountResponse * Srv;
    sqlserver_ModifyAccountRemark :
      v20180328.ModifyAccountRemarkRequest -> Srv ->
      reply v20180328.Dropped * Srv;
    sqlserver_ResetAccountPassword :
      v20180328.ResetAccountPasswordRequest -> Srv ->
      reply v20180328.Dropped * Srv;
    sqlserver_CreateDB :
      v20180328.CreateDBRequest -> Srv ->
      reply v20180328.CreateDBResponse * Srv;
    sqlserver_ModifyDBRemark :
      v20180328.ModifyDBRemarkRequest -> Srv ->
      reply v20180328.Dropped * Srv;
    sqlserver_DeleteDB :
      v20180328.DeleteDBRequest -> Srv ->
      reply v20180328.DeleteDBResponse * Srv;
    ckafka_ModifyPassword :
      v20190819.ModifyPasswordRequest -> Srv ->
      reply v20190819.OperateResponse * Srv;
    ckafka_DeleteUser :
      v20190819.DeleteUserRequest -> Srv ->
      reply v20190819.OperateResponse * Srv;
    ckafka_CreateAcl :
      v20190819.AclRequest -> Srv -> reply v20190819.OperateResponse * Srv;
    ckafka_DeleteAcl :
      v20190819.AclRequest -> Srv -> reply v20190819.OperateResponse * Srv }.

(** ** Effects *)

(** What a run does that others can observe, in order. *)
Inductive event : Type :=
| RateLimitCheck (action : string)   (* ratelimit.Check(action) *)
| RemoteCall (action : string).      (* a request sent by the SDK client *)

Record World `{Cloud} : Type := { server : Srv; trace : list event }.

(** A run ends with a value, with a Go panic (a nil dereference, an index
    out of range), or is cut when an unbounded [for] loop exhausts the
    fuel given to it. *)
Inductive res (A : Type) : Type :=
| Ret (a : A)
| Panic
| OutOfFuel.
Arguments Ret {A} a.
Arguments Panic {A}.
Arguments OutOfFuel {A}.

Definition M `{Cloud} (A : Type) : Type := World -> res A * World.

Definition ret `{Cloud} {A} (a : A) : M A := fun w => (Ret a, w).

Definition bind `{Cloud} {A B} (c : M A) (k : A -> M B) : M B :=
  fun w =>
    match c w with
    | (Ret a, w') => k a w'
    | (Panic, w') => (Panic, w')
    | (OutOfFuel, w') => (OutOfFuel, w')
    end.

Definition panic `{Cloud} {A} : M A := fun w => (Panic, w).
Definition outOfFuel `{Cloud} {A} : M A := fun w => (OutOfFuel, w).

Notation "x <- c ;; k" := (bind c (fun x => k))
  (at level 61, c at next level, right associativity).
Notation "' pat <- c ;; k" := (bind c (fun x => match x with pat => k end))
  (at level 61, pat pattern, c at next level, right associativity).

Definition emit `{Cloud} (e : event) : M unit :=
  fun w => (Ret tt, {| server := server w; trace := trace w ++ [e] |}).

(** [ratelimit.Check(action)]. *)
Definition Check `{Cloud} (action : string) : M unit :=
  emit (RateLimitCheck action).

(** [me.client.UseXxxClient().Action(request)]. *)
Definition call `{Cloud} {Req P} (action : string)
    (rpc : Req -> Srv -> reply P * Srv) (request : Req) : M (reply P) :=
  fun w =>
    let (r, s) := rpc request (server w) in
    (Ret r, {| server := s; trace := trace w ++ [RemoteCall action] |}).

(** [resource.Retry(timeout, f)]: [f] is tried again while it reports a
    retryable error and the timeout allows; at the deadline the last
    retryable error is returned. [v] holds the variables of the caller
    that the closure [f] assigns. *)
Fixpoint RetryN `{Cloud} {V} (n : nat)
    (f : V -> M (option RetryError * V)) (v : V) : M (option error * V) :=
  ' (rerr, v) <- f v ;;
  match rerr with
  | None => ret (None, v)
  | Some re =>
      if Retryable re then
        match n with
        | O => ret (Some (Err re), v)
        | S n' => RetryN n' f v
        end
      else ret (Some (Err re), v)
  end.

Definition Retry `{Cloud} {V} (timeout : Z)
    (f : V -> M (option RetryError * V)) (v : V) : M (option error * V) :=
  RetryN (retries timeout) f v.

(** ** SqlserverService *)

Module SqlserverService.
Import sqlserver.

Section Methods.
Context `{Package} `{Cloud}.

(** The request of [DescribeSqlserverInstances]; [request.Offset] and
    [request.Limit] point to the locals [offset] and [limit]. *)
Definition DescribeSqlserverInstances_request
    (instanceId : string) (projectId : Z) (vpcId subnetId : string)
    (netType : Z) (limit offset : Z) : DescribeDBInstancesRequest :=
  let InstanceIdSet := if nonEmpty instanceId then [instanceId] else [] in
  let ProjectId :=
    if negb (projectId =? -1) then Some (wrap_uint64 projectId) else None in
  let SubnetId :=
    if nonEmpty subnetId && negb (netType =? BASIC_NETWORK)
    then Some subnetId else None in
  let VpcId :=
    if nonEmpty vpcId && negb (netType =? BASIC_NETWORK)
    then Some vpcId else None in
  let VpcId :=
    if netType =? BASIC_NETWORK then Some EmptyString else VpcId in
  let SubnetId :=
    if netType =? BASIC_NETWORK then Some EmptyString else SubnetId in
  {| DescribeDBInstances_InstanceIdSet := InstanceIdSet;
     DescribeDBInstances_ProjectId := ProjectId;
     DescribeDBInstances_SubnetId := SubnetId;
     DescribeDBInstances_VpcId := VpcId;
     DescribeDBInstances_Offset := offset;
     DescribeDBInstances_Limit := limit |}.

(** The [for] loop of [DescribeSqlserverInstances]. *)
Fixpoint DescribeSqlserverInstances_loop (fuel : nat)
    (request : Z -> DescribeDBInstancesRequest) (limit offset : Z)
    (instanceList : list (option DBInstance))
  : M (list (option DBInstance) * option error) :=
  match fuel with
  | O => outOfFuel
  | S fuel =>
      _ <- Check "DescribeDBInstances" ;;
      ' (response, err) <-
        call "DescribeDBInstances" sqlserver_DescribeDBInstances
             (request offset) ;;
      match err with
      | Some err => ret (instanceList, Some err)
      | None =>
          match payload response with
          | None =>
              ret (instanceList,
                   Some (Errorf "TencentCloud SDK return nil response, %s"
                                [AStr "DescribeDBInstances"]))
          | Some DBInstances =>
              let instanceList := (instanceList ++ DBInstances)%list in
              if len DBInstances <? int limit
              then ret (instanceList, None)
              else DescribeSqlserverInstances_loop fuel request limit
                     (wrap_int64 (offset + limit)) instanceList
          end
      end
  end.

Definition DescribeSqlserverInstances (fuel : nat)
    (instanceId : string) (projectId : Z) (vpcId subnetId : string)
    (netType : Z) : M (list (option DBInstance) * option error) :=
  let limit := 20 in
  DescribeSqlserverInstances_loop fuel
    (DescribeSqlserverInstances_request
       instanceId projectId vpcId subnetId netType limit)
    limit 0 [].

Definition DescribeSqlserverInstanceById (fuel : nat) (instanceId : string)
  : M (option DBInstance * bool * option error) :=
  ' (instanceList, err) <-
    DescribeSqlserverInstances fuel instanceId (-1)
      EmptyString EmptyString 1 ;;
  match err with
  | Some err => ret (None, false, Some err)
  | None =>
      match instanceList with
      | [] => ret (None, false, None)
      | instance :: _ =>
          let errRet :=
            if 1 <? len instanceList
            then Some (Errorf "[DescribeDBInstanceById]SDK returns more than one instance with instanceId %s"
                              [AStr instanceId])
            else None in
          let has :=
            match instance with
            | Some i =>
                negb (DBInstance_Status i =? 8) &&
                negb (DBInstance_Status i =? 4) &&
                negb (DBInstance_Status i =? 6)
            | None => false
            end in
          ret (instance, has, errRet)
      end
  end.

(** The [for] loop of [DescribeSqlserverBackups]. *)
Fixpoint DescribeSqlserverBackups_loop (fuel : nat)
    (request : Z -> DescribeBackupsRequest) (limit offset : Z)
    (backupList : list Backup) : M (list Backup * option error) :=
  match fuel with
  | O => outOfFuel
  | S fuel =>
      _ <- Check "DescribeBackups" ;;
      ' (response, err) <-
        call "DescribeBackups" sqlserver_DescribeBackups (request offset) ;;
      match err with
      | Some err => ret (backupList, Some err)
      | None =>
          match payload response with
          | None =>
              ret (backupList,
                   Some (Errorf "TencentCloud SDK return nil response, %s"
                                [AStr "DescribeBackups"]))
          | Some Backups =>
              let backupList := (backupList ++ Backups)%list in
              if len Backups <? int limit
              then ret (backupList, None)
              else DescribeSqlserverBackups_loop fuel request limit
                     (wrap_int64 (offset + limit)) backupList
          end
      end
  end.

Definition DescribeSqlserverBackups (fuel : nat)
    (instanceId startTime endTime : string)
  : M (list Backup * option error) :=
  let limit := 20 in
  DescribeSqlserverBackups_loop fuel
    (fun offset =>
       {| DescribeBackups_InstanceId := instanceId;
          DescribeBackups_StartTime := startTime;
          DescribeBackups_EndTime := endTime;
          DescribeBackups_Offset := offset;
          DescribeBackups_Limit := limit |})
    limit 0 [].

(** The [for] loop of [DescribeSqlserverAccounts]; [offset] and [limit]
    are [uint64] here. *)
Fixpoint DescribeSqlserverAccounts_loop (fuel : nat)
    (request : Z -> DescribeAccountsRequest) (limit offset : Z)
    (accounts : list AccountDetail)
  : M (list AccountDetail * option error) :=
  match fuel with
  | O => outOfFuel
  | S fuel =>
      _ <- Check "DescribeAccounts" ;;
      ' (response, err) <-
        call "DescribeAccounts" sqlserver_DescribeAccounts
             (request offset) ;;
      match err with
      | Some err =>
          let '(Code, ok) := asSDKError err in
          if negb ok ||
             negb (String.eqb Code "ResourceNotFound.InstanceNotFound")
          then ret (accounts, Some err)
          else ret (accounts, None)
      | None =>
          match payload response with
          | None =>
              ret (accounts,
                   Some (Errorf "TencentCloud SDK return nil response, %s"
                                [AStr "DescribeAccounts"]))
          | Some Accounts =>
              let accounts := (accounts ++ Accounts)%list in
              if len Accounts <? int limit
              then ret (accounts, None)
              else DescribeSqlserverAccounts_loop fuel request limit
                     (wrap_uint64 (offset + limit)) accounts
          end
      end
  end.

Definition DescribeSqlserverAccounts (fuel : nat) (instanceId : string)
  : M (list AccountDetail * option error) :=
  let limit := 20 in
  DescribeSqlserverAccounts_loop fuel
    (fun offset =>
       {| DescribeAccounts_InstanceId := instanceId;
          DescribeAccounts_Offset := offset;
          DescribeAccounts_Limit := limit |})
    limit 0 [].

Definition DescribeSqlserverAccountById (fuel : nat)
    (instanceId userName : string)
  : M (option AccountDetail * bool * option error) :=
  ' (accountList, err) <- DescribeSqlserverAccounts fuel instanceId ;;
  match err with
  | Some err => ret (None, false, Some err)
  | None =>
      if len accountList =? 0 then ret (None, false, None)
      else
        match find (fun v => String.eqb (AccountDetail_Name v) userName)
                   accountList with
        | Some v => ret (Some v, true, None)
        | None => ret (None, false, None)
        end
  end.

(** The closure that [WaitForTaskFinish] gives to [resource.Retry]. *)
Definition WaitForTaskFinish_func (request : DescribeFlowStatusRequest)
  : unit -> M (option RetryError * unit) :=
  fun _ =>
    ' (taskResponse, err) <-
      call "DescribeFlowStatus" sqlserver_DescribeFlowStatus request ;;
    _ <- Check "DescribeFlowStatus" ;;
    match err with
    | Some err => ret (Some (NonRetryableError (WithStack err)), tt)
    | None =>
        match payload taskResponse with
        | None => panic
        | Some Response =>
            if Status Response =? SQLSERVER_TASK_RUNNING then
              ret (Some (RetryableError (WithStack
                     (Errorf "SQLSERVER task status is %d(task running), requestId is %s"
                             [AInt (Status Response);
                              AStr (RequestId Response)]))), tt)
            else if Status Response =? SQLSERVER_TASK_FAIL then
              ret (Some (NonRetryableError (WithStack
                     (Errorf "SQLSERVER task status is %d(failed), requestId is %s"
                             [AInt (Status Response);
                              AStr (RequestId Response)]))), tt)
            else ret (None, tt)
        end
    end.

Definition WaitForTaskFinish (flowId : Z) : M (option error) :=
  let request := {| DescribeFlowStatus_FlowId := flowId |} in
  ' (errRet, _) <-
    Retry (4 * writeRetryTimeout) (WaitForTaskFinish_func request) tt ;;
  ret errRet.

Definition GetInfoFromDeal (dealId : string) : M (string * option error) :=
  let request := {| DescribeOrders_DealNames := [dealId] |} in
  _ <- Check "DescribeOrders" ;;
  ' (response, err) <-
    call "DescribeOrders" sqlserver_DescribeOrders request ;;
  match err with
  | Some err => ret (EmptyString, Some err)
  | None =>
      match payload response with
      | None =>
          ret (EmptyString,
               Some (Errorf "TencentCloud SDK returns nil response, %s"
                            [AStr "DescribeOrders"]))
      | Some Deals =>
          if len Deals =? 0 then
            ret (EmptyString,
                 Some (Errorf "TencentCloud SDK returns empty deal" []))
          else if 1 <? len Deals then
            ret (EmptyString,
                 Some (Errorf "TencentCloud SDK returns more than one deal" []))
          else
            match Deals with
            | [] => panic
            | deal :: _ =>
                match InstanceIdSet deal with
                | [] => panic
                | instanceId :: _ =>
                    let flowId := FlowId deal in
                    err <- WaitForTaskFinish flowId ;;
                    ret (instanceId, err)
                end
            end
      end
  end.

(** [for _, v := range securityGroups { list = append(list, &v) }].
    The module declares go 1.13: the loop has one variable [v], at the
    address [v] here, to which each round assigns its element before the
    address is appended. *)
Fixpoint rangeAppend (v : Addr) (securityGroups : list string)
    (cells : Cells) (pointers : list Addr) : Cells * list Addr :=
  match securityGroups with
  | [] => (cells, pointers)
  | g :: rest => rangeAppend v rest (assign cells v g) (pointers ++ [v])
  end.

(** [request.SecurityGroupList] as the request is sent: the pointers
    appended by the loop, read in the cells as the loop left them. *)
Definition securityGroupPointers (securityGroups : list string)
  : list string :=
  let '(cells, pointers) :=
    rangeAppend 0%nat securityGroups (fun _ => EmptyString) [] in
  map cells pointers.

(** The request that [CreateSqlserverInstance] builds. *)
Definition CreateSqlserverInstance_request
    (dbVersion chargeType : string) (memory autoRenewFlag projectId : Z)
    (subnetId vpcId zone : string) (storage : Z) (weekSet : list Z)
    (startTime : string) (timeSpan : Z) (multiZones : bool)
    (haType : string) (securityGroups : list string)
  : CreateDBInstancesRequest :=
  {| CreateDBInstances_DBVersion := dbVersion;
     CreateDBInstances_InstanceChargeType := chargeType;
     CreateDBInstances_Memory := memory;
     CreateDBInstances_Storage := storage;
     CreateDBInstances_SubnetId := subnetId;
     CreateDBInstances_VpcId := vpcId;
     CreateDBInstances_HAType := haType;
     CreateDBInstances_MultiZones := multiZones;
     CreateDBInstances_AutoRenewFlag := autoRenewFlag;
     CreateDBInstances_ProjectId :=
       if negb (projectId =? 0) then Some projectId else None;
     CreateDBInstances_Weekly :=
       if 0 <? len weekSet then weekSet else [];
     CreateDBInstances_StartTime :=
       if nonEmpty startTime then Some startTime else None;
     CreateDBInstances_Span :=
       if negb (timeSpan =? 0) then Some timeSpan else None;
     CreateDBInstances_SecurityGroupList :=
       securityGroupPointers securityGroups;
     CreateDBInstances_GoodsNum := 1;
     CreateDBInstances_Zone := zone |}.

Definition CreateSqlserverInstance
    (dbVersion chargeType : string) (memory autoRenewFlag projectId : Z)
    (subnetId vpcId zone : string) (storage : Z) (weekSet : list Z)
    (startTime : string) (timeSpan : Z) (multiZones : bool)
    (haType : string) (securityGroups : list string)
  : M (string * option error) :=
  let request :=
    CreateSqlserverInstance_request dbVersion chargeType memory
      autoRenewFlag projectId subnetId vpcId zone storage weekSet startTime
      timeSpan multiZones haType securityGroups in
  _ <- Check "CreateDBInstances" ;;
  ' (response, err) <-
    call "CreateDBInstances" sqlserver_CreateDBInstances request ;;
  match err with
  | Some err => ret (EmptyString, Some err)
  | None =>
      match payload response with
      | None =>
          ret (EmptyString,
               Some (Errorf "TencentCloud SDK return nil response, %s"
                            [AStr "CreateDBInstances"]))
      | Some DealNames =>
          if len DealNames =? 0 then
            ret (EmptyString,
                 Some (Errorf "TencentCloud SDK returns empty SQL Server ID" []))
          else if 1 <? len DealNames then
            ret (EmptyString,
                 Some (Errorf "TencentCloud SDK returns more than one SQL Server ID" []))
          else
            match DealNames with
            | [] => panic
            | dealId :: _ =>
                ' (instanceId, err) <- GetInfoFromDeal dealId ;;
                ret (instanceId, err)
            end
      end
  end.

(** The request that [CreateSqlserverReadonlyInstance] builds. *)
Definition CreateSqlserverReadonlyInstance_request
    (masterInstanceId subnetId vpcId chargeType : string) (memory : Z)
    (zone : string) (storage readonlyGroupType : Z)
    (readonlyGroupId : string) (forceUpgrade : bool)
    (securityGroups : list string) : CreateReadOnlyDBInstancesRequest :=
  {| CreateReadOnly_InstanceId := masterInstanceId;
     CreateReadOnly_InstanceChargeType := chargeType;
     CreateReadOnly_Memory := memory;
     CreateReadOnly_Storage := storage;
     CreateReadOnly_SubnetId := subnetId;
     CreateReadOnly_VpcId := vpcId;
     CreateReadOnly_GoodsNum := 1;
     CreateReadOnly_ReadOnlyGroupType := readonlyGroupType;
     CreateReadOnly_ReadOnlyGroupId :=
       if nonEmpty readonlyGroupId then Some readonlyGroupId else None;
     CreateReadOnly_ReadOnlyGroupForcedUpgrade :=
       if forceUpgrade then Some 1 else None;
     CreateReadOnly_Zone := zone;
     CreateReadOnly_SecurityGroupList :=
       securityGroupPointers securityGroups |}.

Definition CreateSqlserverReadonlyInstance
    (masterInstanceId subnetId vpcId chargeType : string) (memory : Z)
    (zone : string) (storage readonlyGroupType : Z)
    (readonlyGroupId : string) (forceUpgrade : bool)
    (securityGroups : list string) : M (string * option error) :=
  let request :=
    CreateSqlserverReadonlyInstance_request masterInstanceId subnetId vpcId
      chargeType memory zone storage readonlyGroupType readonlyGroupId
      forceUpgrade securityGroups in
  _ <- Check "CreateReadOnlyDBInstances" ;;
  ' (response, err) <-
    call "CreateReadOnlyDBInstances" sqlserver_CreateReadOnlyDBInstances request ;;
  match err with
  | Some err => ret (EmptyString, Some err)
  | None =>
      match payload response with
      | None =>
          ret (EmptyString,
               Some (Errorf "TencentCloud SDK return nil response, %s"
                            [AStr "CreateReadOnlyDBInstances"]))
      | Some DealNames =>
          if len DealNames =? 0 then
            ret (EmptyString,
                 Some (Errorf "TencentCloud SDK returns empty SQL Server ID" []))
          else if 1 <? len DealNames then
            ret (EmptyString,
                 Some (Errorf "TencentCloud SDK returns more than one SQL Server ID" []))
          else
            match DealNames with
            | [] => panic
            | dealId :: _ =>
                ' (instanceId, err) <- GetInfoFromDeal dealId ;;
                ret (instanceId, err)
            end
      end
  end.

(** The [for] loop of [DescribeDBsOfInstance]; [response] is declared
    in the loop body and assigned by the closure given to
    [resource.Retry]. *)
Fixpoint DescribeDBsOfInstance_loop (fuel : nat)
    (request : Z -> DescribeDBsRequest) (limit offset : Z)
    (instanceDBList : list DBDetail) : M (list DBDetail * option error) :=
  match fuel with
  | O => outOfFuel
  | S fuel =>
      ' (err, response) <-
        Retry readRetryTimeout
          (fun response : option (option DescribeDBsResponse) =>
             _ <- Check "DescribeDBs" ;;
             ' (result, e) <-
               call "DescribeDBs" sqlserver_DescribeDBs (request offset) ;;
             match e with
             | Some e => ret (Some (retryError e), response)
             | None => ret (None, result)
             end)
          None ;;
      match err with
      | Some err => ret (instanceDBList, Some err)
      | None =>
          match payload response with
          | None =>
              ret (instanceDBList,
                   Some (Errorf "TencentCloud SDK returns nil response for api[%s]"
                                [AStr "DescribeDBs"]))
          | Some DBInstances =>
              if len DBInstances =? 0 then ret (instanceDBList, None)
              else if 1 <? len DBInstances then
                ret (instanceDBList,
                     Some (Errorf "[CRITAL]%s api[%s] returned multiple DB lists for one instance"
                                  [AStr logId; AStr "DescribeDBs"]))
              else
                match DBInstances with
                | [] => panic
                | first :: _ =>
                    let instanceDBList :=
                      (instanceDBList ++ DBDetails first)%list in
                    if len DBInstances <? int limit
                    then ret (instanceDBList, None)
                    else DescribeDBsOfInstance_loop fuel request limit
                           (wrap_uint64 (offset + limit)) instanceDBList
                end
          end
      end
  end.

Definition DescribeDBsOfInstance (fuel : nat) (instanceId : string)
  : M (list DBDetail * option error) :=
  let limit := SQLSERVER_DEFAULT_LIMIT in
  DescribeDBsOfInstance_loop fuel
    (fun offset =>
       {| DescribeDBs_InstanceIdSet :=
            if nonEmpty instanceId then [instanceId] else [];
          DescribeDBs_Offset := offset;
          DescribeDBs_Limit := limit |})
    limit SQLSERVER_DEFAULT_OFFSET [].

Definition DescribeDBDetailsById (fuel : nat) (dbId : string)
  : M (option DBDetail * bool * option error) :=
  let idItem := Split dbId FILED_SP in
  if len idItem <? 2 then
    ret (None, false,
         Some (Errorf "broken ID of SQLServer DB %s" [AStr dbId]))
  else
    let instanceId := nth 0 idItem EmptyString in
    let dbName := nth 1 idItem EmptyString in
    ' (instanceDBList, err) <- DescribeDBsOfInstance fuel instanceId ;;
    match err with
    | Some err => ret (None, false, Some err)
    | None =>
        if len instanceDBList =? 0 then ret (None, false, None)
        else
          match find (fun dbDetail =>
                        String.eqb (DBDetail_Name dbDetail) dbName)
                     instanceDBList with
          | Some dbDetail =>
              ret (Some dbDetail,
                   negb (DBDetail_Status dbDetail =? SQLSERVER_DB_DELETING),
                   None)
          | None => ret (None, false, None)
          end
    end.

Definition DeleteSqlserverAccount (fuel : nat)
    (instanceId userName : string) : M (option error) :=
  let request :=
    {| DeleteAccount_UserNames := [userName];
       DeleteAccount_InstanceId := instanceId |} in
  _ <- Check "DeleteAccount" ;;
  ' (_, err) <- call "DeleteAccount" sqlserver_DeleteAccount request ;;
  match err with
  | Some err =>
      let '(Code, ok) := asSDKError err in
      if negb ok ||
         negb (String.eqb Code "ResourceNotFound.InstanceNotFound")
      then ret (Some err)
      else ret None
  | None =>
      ' (errRet, _) <-
        Retry readRetryTimeout
          (fun _ : unit =>
             ' (instance, has, err) <-
               DescribeSqlserverAccountById fuel instanceId userName ;;
             match err with
             | Some err =>
                 ret (Some (NonRetryableError (WithStack err)), tt)
             | None =>
                 if negb has then ret (None, tt)
                 else
                   match instance with
                   | None => panic
                   | Some instance =>
                       if int (AccountDetail_Status instance) =? -1 then
                         ret (Some (RetryableError
                                (Errorf "deleting , SQL Server instance ID %s, name %s, status %d.... "
                                        [AStr instanceId; AStr userName;
                                         AInt (AccountDetail_Status instance)])),
                              tt)
                       else
                         ret (Some (NonRetryableError
                                (Errorf "invalid, SQL Server instance ID %s, name %s, status %d..."
                                        [AStr instanceId; AStr userName;
                                         AInt (AccountDetail_Status instance)])),
                              tt)
                   end
             end)
          tt ;;
      ret errRet
  end.

Definition ModifyAccountDBAttachment (fuel : nat)
    (instanceId accountName dbName privilege : string) : M (option error) :=
  let request :=
    {| ModifyAccountPrivilege_InstanceId := instanceId;
       ModifyAccountPrivilege_UserName := accountName;
       ModifyAccountPrivilege_DBName := dbName;
       ModifyAccountPrivilege_Privilege := privilege |} in
  ' (_, has, err) <-
    DescribeSqlserverAccountById fuel instanceId accountName ;;
  match err with
  | Some err => ret (Some err)
  | None =>
      if negb has then
        ret (Some (Errorf "SQL Server account %s , instance ID %s is not exist"
                          [AStr accountName; AStr instanceId]))
      else
        ' (_, has, err) <-
          DescribeDBDetailsById fuel (instanceId ++ FILED_SP ++ dbName) ;;
        match err with
        | Some err => ret (Some err)
        | None =>
            if negb has then
              ret (Some (Errorf "SQL Server DB %s , instance ID %s is not exist"
                                [AStr dbName; AStr instanceId]))
            else
              _ <- Check "ModifyAccountPrivilege" ;;
              ' (response, err) <-
                call "ModifyAccountPrivilege"
                     sqlserver_ModifyAccountPrivilege request ;;
              match payload response with
              | None =>
                  ret (Some (Errorf "TencentCloud SDK return nil response, %s"
                                    [AStr "ModifyAccountPrivilege"]))
              | Some FlowId =>
                  match err with
                  | Some err => ret (Some err)
                  | None =>
                      let flowId := wrap_int64 FlowId in
                      err <- WaitForTaskFinish flowId ;;
                      ret err
                  end
              end
        end
  end.

(** *** The other methods of [SqlserverService] *)

Import v20180328.
Context {more : MoreCloud}.

Definition DescribeZones : M (list ZoneInfo * option error) :=
  ' (err, response) <-
    Retry readRetryTimeout
      (fun response : option (option DescribeZonesResponse) =>
         _ <- Check "DescribeZones" ;;
         ' (result, e) <- call "DescribeZones" sqlserver_DescribeZones tt ;;
         match e with
         | Some e => ret (Some (retryError e), response)
         | None => ret (None, result)
         end)
      None ;;
  match err with
  | Some err => ret ([], Some err)
  | None =>
      match payload response with
      | Some ZoneSet => ret (ZoneSet, None)
      | None => ret ([], None)
      end
  end.

Definition DescribeProductConfig (zone : string)
  : M (list SpecInfo * option error) :=
  let request := {| DescribeProductConfig_Zone := zone |} in
  ' (err, response) <-
    Retry readRetryTimeout
      (fun response : option (option DescribeProductConfigResponse) =>
         _ <- Check "DescribeProductConfig" ;;
         ' (result, e) <-
           call "DescribeProductConfig" sqlserver_DescribeProductConfig
                request ;;
         match e with
         | Some e => ret (Some (retryError e), response)
         | None => ret (None, result)
         end)
      None ;;
  match err with
  | Some err => ret ([], Some err)
  | None =>
      match payload response with
      | Some SpecInfoList => ret (SpecInfoList, None)
      | None => ret ([], None)
      end
  end.

Definition ModifySqlserverInstanceName (instanceId name : string)
  : M (option error) :=
  let request :=
    {| ModifyDBInstanceName_InstanceId := instanceId;
       ModifyDBInstanceName_InstanceName := name |} in
  _ <- Check "ModifyDBInstanceName" ;;
  ' (_, err) <-
    call "ModifyDBInstanceName" sqlserver_ModifyDBInstanceName request ;;
  ret err.

Definition ModifySqlserverInstanceProjectId (instanceId : string)
    (projectId : Z) : M (option error) :=
  let request :=
    {| ModifyDBInstanceProject_InstanceIdSet := [instanceId];
       ModifyDBInstanceProject_ProjectId := projectId |} in
  _ <- Check "ModifyDBInstanceProject" ;;
  ' (_, err) <-
    call "ModifyDBInstanceProject" sqlserver_ModifyDBInstanceProject
         request ;;
  ret err.

Definition UpgradeSqlserverInstance (fuel : nat) (instanceId : string)
    (memory storage : Z) : M (option error) :=
  let request :=
    {| UpgradeDBInstance_InstanceId := instanceId;
       UpgradeDBInstance_Memory := memory;
       UpgradeDBInstance_Storage := storage |} in
  _ <- Check "UpgradeDBInstance" ;;
  ' (_, err) <-
    call "UpgradeDBInstance" sqlserver_UpgradeDBInstance request ;;
  match err with
  | Some err => ret (Some err)
  | None =>
      ' (errRet, _) <-
        Retry readRetryTimeout
          (fun _ : unit =>
             ' (instance, has, err) <-
               DescribeSqlserverInstanceById fuel instanceId ;;
             match err with
             | Some err => ret (Some (NonRetryableError (WithStack err)), tt)
             | None =>
                 if negb has then
                   ret (Some (NonRetryableError
                          (Errorf "cannot find SQL Server instance %s"
                                  [AStr instanceId])), tt)
                 else
                   match instance with
                   | None => panic
                   | Some instance =>
                       if int (DBInstance_Status instance) =? 9 then
                         ret (Some (RetryableError
                                (Errorf "expanding , SQL Server instance ID %s, status %d.... "
                                        [AStr instanceId;
                                         AInt (DBInstance_Status instance)])),
                              tt)
                       else ret (None, tt)
                   end
             end)
          tt ;;
      ret errRet
  end.

Definition RemoveSecurityGroup (instanceId securityGroupId : string)
  : M (option error) :=
  let request :=
    {| SecurityGroups_InstanceIdSet := [instanceId];
       SecurityGroups_SecurityGroupId := securityGroupId |} in
  _ <- Check "DisassociateSecurityGroups" ;;
  ' (_, err) <-
    call "DisassociateSecurityGroups" sqlserver_DisassociateSecurityGroups
         request ;;
  ret err.

(** [time.Sleep(10 * time.Second)] after the call only delays the
    return. *)
Definition AddSecurityGroup (instanceId securityGroupId : string)
  : M (option error) :=
  let request :=
    {| SecurityGroups_InstanceIdSet := [instanceId];
       SecurityGroups_SecurityGroupId := securityGroupId |} in
  _ <- Check "AssociateSecurityGroups" ;;
  ' (_, err) <-
    call "AssociateSecurityGroups" sqlserver_AssociateSecurityGroups
         request ;;
  ret err.

Definition ModifySqlserverInstanceMaintenanceSpan (instanceId : string)
    (weekSet : list Z) (startTime : string) (timeSpan : Z)
  : M (option error) :=
  let request :=
    {| ModifyMaintenanceSpan_InstanceId := instanceId;
       ModifyMaintenanceSpan_Weekly :=
         if 0 <? len weekSet then weekSet else [];
       ModifyMaintenanceSpan_StartTime :=
         if nonEmpty startTime then Some startTime else None;
       ModifyMaintenanceSpan_Span :=
         if negb (timeSpan =? 0) then Some (wrap_uint64 timeSpan)
         else None |} in
  _ <- Check "ModifyMaintenanceSpan" ;;
  ' (_, err) <-
    call "ModifyMaintenanceSpan" sqlserver_ModifyMaintenanceSpan request ;;
  ret err.

Definition TerminateSqlserverInstance (instanceId : string)
  : M (option error) :=
  let request := {| TerminateDBInstance_InstanceIdSet := [instanceId] |} in
  _ <- Check "TerminateDBInstance" ;;
  ' (_, err) <-
    call "TerminateDBInstance" sqlserver_TerminateDBInstance request ;;
  ret err.

Definition DeleteSqlserverInstance (instanceId : string)
  : M (option error) :=
  let request := {| DeleteDBInstance_InstanceId := instanceId |} in
  _ <- Check "DeleteDBInstance" ;;
  ' (_, err) <-
    call "DeleteDBInstance" sqlserver_DeleteDBInstance request ;;
  ret err.

Definition DescribeMaintenanceSpan (instanceId : string)
  : M (list Z * string * Z * option error) :=
  let request := {| DescribeMaintenanceSpan_InstanceId := instanceId |} in
  _ <- Check "DescribeMaintenanceSpan" ;;
  ' (response, err) <-
    call "DescribeMaintenanceSpan" sqlserver_DescribeMaintenanceSpan
         request ;;
  match err with
  | Some err => ret ([], EmptyString, 0, Some err)
  | None =>
      match payload response with
      | None =>
          ret ([], EmptyString, 0,
               Some (Errorf "TencentCloud SDK return nil response, %s"
                            [AStr "DescribeMaintenanceSpan"]))
      | Some Response =>
          ret (map int (Weekly Response), StartTime Response,
               int (Span Response), None)
      end
  end.

Definition DescribeInstanceSecurityGroups (instanceId : string)
  : M (list string * option error) :=
  let request := {| DescribeDBSecurityGroups_InstanceId := instanceId |} in
  _ <- Check "DescribeDBSecurityGroups" ;;
  ' (response, err) <-
    call "DescribeDBSecurityGroups" sqlserver_DescribeDBSecurityGroups
         request ;;
  match err with
  | Some err => ret ([], Some err)
  | None =>
      match payload response with
      | None =>
          ret ([],
               Some (Errorf "TencentCloud SDK return nil response, %s"
                            [AStr "DescribeDBSecurityGroups"]))
      | Some SecurityGroupSet =>
          ret (map SecurityGroupId SecurityGroupSet, None)
      end
  end.

Definition DescribeReadonlyGroupList (instanceId : string)
  : M (list ReadOnlyGroup * option error) :=
  let request := {| DescribeReadOnlyGroupList_InstanceId := instanceId |} in
  _ <- Check "DescribeReadOnlyGroupList" ;;
  ' (response, err) <-
    call "DescribeReadOnlyGroupList" sqlserver_DescribeReadOnlyGroupList
         request ;;
  match err with
  | Some err => ret ([], Some err)
  | None =>
      match payload response with
      | None =>
          ret ([],
               Some (Errorf "TencentCloud SDK return nil response, %s"
                            [AStr "DescribeReadOnlyGroupList"]))
      | Some ReadOnlyGroupSet => ret (ReadOnlyGroupSet, None)
      end
  end.

Definition DescribeReadonlyGroupListByReadonlyInstanceId
    (instanceId : string) : M (string * string * option error) :=
  let request :=
    {| DescribeReadOnlyGroupByReadOnlyInstance_InstanceId := instanceId |} in
  _ <- Check "DescribeReadOnlyGroupByReadOnlyInstance" ;;
  ' (response, err) <-
    call "DescribeReadOnlyGroupByReadOnlyInstance"
         sqlserver_DescribeReadOnlyGroupByReadOnlyInstance request ;;
  match err with
  | Some err => ret (EmptyString, EmptyString, Some err)
  | None =>
      match payload response with
      | None =>
          ret (EmptyString, EmptyString,
               Some (Errorf "TencentCloud SDK return nil response, %s"
                            [AStr "DescribeReadOnlyGroupByReadOnlyInstance"]))
      | Some Response =>
          ret (ReadOnlyGroupId Response, MasterInstanceId Response, None)
      end
  end.

Definition CreateSqlserverAccount
    (instanceId userName password remark : string) (isAdmin : bool)
  : M (option error) :=
  let account :=
    {| AccountCreateInfo_UserName := userName;
       AccountCreateInfo_Password := password;
       AccountCreateInfo_IsAdmin := isAdmin;
       AccountCreateInfo_Remark := remark |} in
  let request :=
    {| CreateAccount_InstanceId := instanceId;
       CreateAccount_Accounts := [account] |} in
  _ <- Check "CreateAccount" ;;
  ' (response, err) <-
    call "CreateAccount" sqlserver_CreateAccount request ;;
  match err with
  | Some err => ret (Some err)
  | None =>
      match payload response with
      | None =>
          ret (Some (Errorf "TencentCloud SDK return nil response, %s"
                            [AStr "CreateAccount"]))
      | Some FlowId =>
          let flowId := FlowId in
          err <- WaitForTaskFinish flowId ;;
          ret err
      end
  end.

Definition ModifySqlserverAccountRemark
    (instanceId userName remark : string) : M (option error) :=
  let request :=
    {| ModifyAccountRemark_InstanceId := instanceId;
       ModifyAccountRemark_UserName := userName;
       ModifyAccountRemark_Remark := remark |} in
  _ <- Check "ModifyAccountRemark" ;;
  ' (_, err) <-
    call "ModifyAccountRemark" sqlserver_ModifyAccountRemark request ;;
  ret err.

Definition ResetSqlserverAccountPassword (fuel : nat)
    (instanceId userName password : string) : M (option error) :=
  let request :=
    {| ResetAccountPassword_InstanceId := instanceId;
       ResetAccountPassword_UserName := userName;
       ResetAccountPassword_Password := password |} in
  _ <- Check "ResetAccountPassword" ;;
  ' (_, err) <-
    call "ResetAccountPassword" sqlserver_ResetAccountPassword request ;;
  match err with
  | Some err => ret (Some err)
  | None =>
      ' (errRet, _) <-
        Retry readRetryTimeout
          (fun _ : unit =>
             ' (instance, has, err) <-
               DescribeSqlserverAccountById fuel instanceId userName ;;
             match err with
             | Some err => ret (Some (NonRetryableError (WithStack err)), tt)
             | None =>
                 if negb has then
                   ret (Some (NonRetryableError
                          (Errorf "cannot find SQL Server account %s%s%s"
                                  [AStr instanceId; AStr FILED_SP;
                                   AStr userName])), tt)
                 else
                   match instance with
                   | None => panic
                   | Some instance =>
                       if int (AccountDetail_Status instance) =? 4 then
                         ret (Some (RetryableError
                                (Errorf "resetting , SQL Server instance ID %s, name %s, status %d.... "
                                        [AStr instanceId; AStr userName;
                                         AInt (AccountDetail_Status instance)])),
                              tt)
                       else ret (None, tt)
                   end
             end)
          tt ;;
      ret errRet
  end.

(** The [map[string]string] of one attachment, as the list of its three
    entries. *)
Definition mapping (db_name account_name privilege : string)
  : list (string * string) :=
  [("db_name", db_name); ("account_name", account_name);
   ("privilege", privilege)].

(** [(dbName != "" && name == dbName) || dbName == ""]. *)
Definition dbNameSelects (dbName name : string) : bool :=
  (nonEmpty dbName && String.eqb name dbName) ||
  String.eqb dbName EmptyString.

Definition DescribeAccountDBAttachments (fuel : nat)
    (instanceId accountName dbName : string)
  : M (list (list (string * string)) * option error) :=
  if nonEmpty accountName then
    ' (accounts, has, err) <-
      DescribeSqlserverAccountById fuel instanceId accountName ;;
    match err with
    | Some err => ret ([], Some err)
    | None =>
        if negb has then ret ([], None)
        else
          match accounts with
          | None => panic
          | Some accounts =>
              ret (flat_map
                     (fun v =>
                        if dbNameSelects dbName (DBPrivilege_DBName v)
                        then [mapping (DBPrivilege_DBName v) accountName
                                      (DBPrivilege_Privilege v)]
                        else [])
                     (AccountDetail_Dbs accounts),
                   None)
          end
    end
  else
    ' (dbInfos, err) <- DescribeDBsOfInstance fuel instanceId ;;
    match err with
    | Some err => ret ([], Some err)
    | None =>
        if len dbInfos =? 0 then ret ([], None)
        else
          ret (flat_map
                 (fun v =>
                    if dbNameSelects dbName (DBDetail_Name v)
                    then map (fun vv =>
                                mapping (DBDetail_Name v)
                                        (AccountPrivilege_UserName vv)
                                        (AccountPrivilege_Privilege vv))
                             (DBDetail_Accounts v)
                    else [])
                 dbInfos,
               None)
    end.

Definition DescribeAccountDBAttachmentById (fuel : nat)
    (instanceId accountName dbName : string)
  : M (option (list (string * string)) * bool * option error) :=
  ' (attachments, err) <-
    DescribeAccountDBAttachments fuel instanceId accountName dbName ;;
  match err with
  | Some err => ret (None, false, Some err)
  | None =>
      match attachments with
      | [] => ret (None, false, None)
      | attachment :: _ => ret (Some attachment, true, None)
      end
  end.

Definition CreateSqlserverDB (instanceID dbname charset remark : string)
  : M (option error) :=
  let dbCreateInfo :=
    {| DBCreateInfo_DBName := dbname;
       DBCreateInfo_Charset := charset;
       DBCreateInfo_Remark := remark |} in
  let request :=
    {| CreateDB_InstanceId := instanceID; CreateDB_DBs := [dbCreateInfo] |} in
  ' (err, response) <-
    Retry writeRetryTimeout
      (fun response : option (option CreateDBResponse) =>
         _ <- Check "CreateDB" ;;
         ' (result, e) <- call "CreateDB" sqlserver_CreateDB request ;;
         match e with
         | Some e => ret (Some (retryError e), response)
         | None => ret (None, result)
         end)
      None ;;
  match err with
  | Some err => ret (Some err)
  | None =>
      match payload response with
      | Some FlowId =>
          if negb (FlowId =? 0) then WaitForTaskFinish FlowId else ret None
      | None => ret None
      end
  end.

Definition ModifySqlserverDBRemark (instanceId dbName remark : string)
  : M (option error) :=
  let request :=
    {| ModifyDBRemark_InstanceId := instanceId;
       ModifyDBRemark_Name := dbName;
       ModifyDBRemark_Remark := remark |} in
  ' (err, _) <-
    Retry writeRetryTimeout
      (fun _ : unit =>
         _ <- Check "ModifyDBRemark" ;;
         ' (_, e) <- call "ModifyDBRemark" sqlserver_ModifyDBRemark request ;;
         match e with
         | Some e => ret (Some (retryError e), tt)
         | None => ret (None, tt)
         end)
      tt ;;
  match err with
  | Some err => ret (Some err)
  | None => ret None
  end.

Definition DeleteSqlserverDB (instanceId name : string) : M (option error) :=
  let request :=
    {| DeleteDB_InstanceId := instanceId; DeleteDB_Names := [name] |} in
  ' (err, response) <-
    Retry writeRetryTimeout
      (fun response : option (option DeleteDBResponse) =>
         _ <- Check "DeleteDB" ;;
         ' (result, e) <- call "DeleteDB" sqlserver_DeleteDB request ;;
         match e with
         | Some e => ret (Some (retryError e), response)
         | None => ret (None, result)
         end)
      None ;;
  match err with
  | Some err => ret (Some err)
  | None =>
      match payload response with
      | Some FlowId => WaitForTaskFinish FlowId
      | None => ret None
      end
  end.

End Methods.
End SqlserverService.

(** ** CkafkaService *)

Module CkafkaService.
Import ckafka.

Section Methods.
Context `{Package} `{Cloud}.

Definition OperateStatusCheck (result : option JgwOperateResponse) : bool :=
  match result with
  | None => false
  | Some result =>
      if String.eqb (ReturnCode result) "0" then true else false
  end.

(** The closure given to [resource.Retry] assigns the variables
    [response] and [err] of the method; [err] is then overwritten by the
    result of [resource.Retry]. On the last [return], [err] is [nil] and
    [err.Error()] is a nil dereference. *)
Definition CreateUser (instanceId user password : string)
  : M (option error) :=
  let request :=
    {| CreateUser_InstanceId := instanceId;
       CreateUser_Name := user;
       CreateUser_Password := password |} in
  ' (err, response) <-
    Retry writeRetryTimeout
      (fun _ : option (option CreateUserResponse) =>
         ' (response, err) <-
           call "CreateUser" ckafka_CreateUser request ;;
         match err with
         | Some err => ret (Some (retryError err), response)
         | None => ret (None, response)
         end)
      None ;;
  match err with
  | Some err => ret (Some err)
  | None =>
      match payload response with
      | Some Result =>
          if negb (OperateStatusCheck Result) then panic else ret None
      | None => ret None
      end
  end.

Definition DescribeInstanceById (instanceId : string)
  : M (option InstanceAttributesResponse * bool * option error) :=
  let request := {| DescribeInstanceAttributes_InstanceId := instanceId |} in
  ' (err, response) <-
    Retry readRetryTimeout
      (fun _ : option (option DescribeInstanceAttributesResponse) =>
         _ <- Check "DescribeInstanceAttributes" ;;
         ' (response, err) <-
           call "DescribeInstanceAttributes"
                ckafka_DescribeInstanceAttributes request ;;
         match err with
         | Some err => ret (Some (retryError err), response)
         | None => ret (None, response)
         end)
      None ;;
  match err with
  | Some err =>
      ret (None, false,
           Some (Errorf "[CRITAL]%s api[%s] fail, request body [%s], reason[%s]"
                        [AStr logId; AStr "DescribeInstanceAttributes";
                         AJson "DescribeInstanceAttributes"; AErr err]))
  | None =>
      match payload response with
      | Some (Some instanceInfo) => ret (Some instanceInfo, true, None)
      | _ => ret (None, false, None)
      end
  end.

Definition DescribeTopicById (topicId : string)
  : M (option TopicAttributesResponse * bool * option error) :=
  let items := Split topicId FILED_SP in
  if negb (len items =? 2) then
    ret (None, false,
         Some (Errorf "id of resource.tencentcloud_ckafka_topic is wrong" []))
  else
    let instanceId := nth 0 items EmptyString in
    let topicName := nth 1 items EmptyString in
    let request :=
      {| DescribeTopicAttributes_InstanceId := instanceId;
         DescribeTopicAttributes_TopicName := topicName |} in
    ' (err, response) <-
      Retry readRetryTimeout
        (fun _ : option (option DescribeTopicAttributesResponse) =>
           _ <- Check "DescribeTopicAttributes" ;;
           ' (response, err) <-
             call "DescribeTopicAttributes"
                  ckafka_DescribeTopicAttributes request ;;
           match err with
           | Some err => ret (Some (retryError err), response)
           | None => ret (None, response)
           end)
        None ;;
    match err with
    | Some err =>
        ret (None, false,
             Some (Errorf "[CRITAL]%s api[%s] fail, request body [%s], reason[%s]"
                          [AStr logId; AStr "DescribeTopicAttributes";
                           AJson "DescribeTopicAttributes"; AErr err]))
    | None =>
        match payload response with
        | Some (Some topicInfo) => ret (Some topicInfo, true, None)
        | _ => ret (None, false, None)
        end
    end.

Definition DescribeUserByUserId (userId : string)
  : M (option User * bool * option error) :=
  let items := Split userId FILED_SP in
  if negb (len items =? 2) then
    ret (None, false,
         Some (Errorf "id of resource.tencentcloud_ckafka_user is wrong" []))
  else
    let instanceId := nth 0 items EmptyString in
    let user := nth 1 items EmptyString in
    ' (_, has, _) <- DescribeInstanceById instanceId ;;
    if negb has then ret (None, has, None)
    else
      let request :=
        {| DescribeUser_InstanceId := instanceId;
           DescribeUser_SearchWord := Some user;
           DescribeUser_Limit := None;
           DescribeUser_Offset := None |} in
      ' (err, response) <-
        Retry readRetryTimeout
          (fun _ : option (option DescribeUserResponse) =>
             ' (response, err) <-
               call "DescribeUser" ckafka_DescribeUser request ;;
             match err with
             | Some err => ret (Some (retryError err), response)
             | None => ret (None, response)
             end)
          None ;;
      match err with
      | Some err =>
          ret (None, has,
               Some (Errorf "[CRITAL]%s api[%s] fail, request body [%s], reason[%s]"
                            [AStr logId; AStr "DescribeUser";
                             AJson "DescribeUser"; AErr err]))
      | None =>
          match payload response with
          | Some (Some {| Users := Some Users |}) =>
              if len Users <? 1 then ret (None, false, None)
              else if 1 <? len Users then
                ret (None, has,
                     Some (Errorf "[CRITAL]%s dumplicated users found"
                                  [AStr logId]))
              else
                match Users with
                | [] => panic
                | userInfo :: _ => ret (Some userInfo, true, None)
                end
          | _ => ret (None, has, None)
          end
      end.

(** The [for] loop of [DescribeUserByFilter]; the closure given to
    [resource.Retry] assigns [response] and appends to [userInfos]. *)
Fixpoint DescribeUserByFilter_loop (fuel : nat)
    (request : Z -> DescribeUserRequest) (pageSize offset : Z)
    (userInfos : list User) : M (list User * option error) :=
  match fuel with
  | O => outOfFuel
  | S fuel =>
      ' (err, (response, userInfos)) <-
        Retry readRetryTimeout
          (fun '((_, userInfos) :
                   option (option DescribeUserResponse) * list User) =>
             _ <- Check "DescribeUser" ;;
             ' (response, err) <-
               call "DescribeUser" ckafka_DescribeUser (request offset) ;;
             match err with
             | Some err => ret (Some (retryError err), (response, userInfos))
             | None =>
                 match payload response with
                 | Some (Some Result) =>
                     ret (None,
                          (response,
                           (userInfos ++ elems (Users Result))%list))
                 | _ => panic
                 end
             end)
          (None, userInfos) ;;
      match err with
      | Some err =>
          ret (userInfos,
               Some (Errorf "[CRITAL]%s api[%s] fail, request body [%s], reason[%s]"
                            [AStr logId; AStr "DescribeUser";
                             AJson "DescribeUser"; AErr err]))
      | None =>
          match payload response with
          | Some (Some Result) =>
              if len (elems (Users Result)) <? CKAFKA_DESCRIBE_LIMIT
              then ret (userInfos, None)
              else DescribeUserByFilter_loop fuel request pageSize
                     (wrap_int64 (offset + pageSize)) userInfos
          | _ => panic
          end
      end
  end.

Definition DescribeUserByFilter (fuel : nat)
    (params : list (string * string)) : M (list User * option error) :=
  match lookup params "instance_id" with
  | None => panic
  | Some instanceId =>
      ' (_, has, _) <- DescribeInstanceById instanceId ;;
      if negb has then ret ([], None)
      else
        let pageSize := wrap_int64 CKAFKA_DESCRIBE_LIMIT in
        DescribeUserByFilter_loop fuel
          (fun offset =>
             {| DescribeUser_InstanceId := instanceId;
                DescribeUser_SearchWord := lookup params "account_name";
                DescribeUser_Limit := Some pageSize;
                DescribeUser_Offset := Some offset |})
          pageSize 0 []
  end.

(** The [for] loop of [DescribeAclByFilter]. *)
Fixpoint DescribeAclByFilter_loop (fuel : nat)
    (request : Z -> DescribeACLRequest) (pageSize offset : Z)
    (aclInfos : list Acl) : M (list Acl * option error) :=
  match fuel with
  | O => outOfFuel
  | S fuel =>
      ' (err, (response, aclInfos)) <-
        Retry readRetryTimeout
          (fun '((_, aclInfos) :
                   option (option DescribeACLResponse) * list Acl) =>
             _ <- Check "DescribeACL" ;;
             ' (response, err) <-
               call "DescribeACL" ckafka_DescribeACL (request offset) ;;
             match err with
             | Some err => ret (Some (retryError err), (response, aclInfos))
             | None =>
                 match payload response with
                 | Some (Some Result) =>
                     ret (None,
                          (response, (aclInfos ++ AclList Result)%list))
                 | _ => panic
                 end
             end)
          (None, aclInfos) ;;
      match err with
      | Some err =>
          ret (aclInfos,
               Some (Errorf "[CRITAL]%s api[%s] fail, request body [%s], reason[%s]"
                            [AStr logId; AStr "DescribeACL";
                             AJson "DescribeACL"; AErr err]))
      | None =>
          match payload response with
          | Some (Some Result) =>
              if len (AclList Result) <? CKAFKA_DESCRIBE_LIMIT
              then ret (aclInfos, None)
              else DescribeAclByFilter_loop fuel request pageSize
                     (wrap_int64 (offset + pageSize)) aclInfos
          | _ => panic
          end
      end
  end.

Definition DescribeAclByFilter (fuel : nat)
    (params : list (string * string)) : M (list Acl * option error) :=
  match lookup params "instance_id" with
  | None => panic
  | Some instanceId =>
      ' (_, has, _) <- DescribeInstanceById instanceId ;;
      if negb has then ret ([], None)
      else
        match lookup params "resource_type",
              lookup params "resource_name" with
        | Some resourceType, Some resourceName =>
            ' (_, has, _) <-
              (if String.eqb resourceType "TOPIC"
               then DescribeTopicById
                      (instanceId ++ FILED_SP ++ resourceName)
               else ret (None, true, None)) ;;
            if negb has then ret ([], None)
            else
              let pageSize := wrap_int64 CKAFKA_DESCRIBE_LIMIT in
              DescribeAclByFilter_loop fuel
                (fun offset =>
                   {| DescribeACL_InstanceId := instanceId;
                      DescribeACL_ResourceType :=
                        CKAFKA_ACL_RESOURCE_TYPE resourceType;
                      DescribeACL_ResourceName := resourceName;
                      DescribeACL_SearchWord := lookup params "host";
                      DescribeACL_Limit := pageSize;
                      DescribeACL_Offset := offset |})
                pageSize 0 []
        | _, _ => panic
        end
  end.

Definition DescribeAclByAclId (fuel : nat) (aclId : string)
  : M (option Acl * bool * option error) :=
  let items := Split aclId FILED_SP in
  if negb (len items =? 7) then
    ret (None, false,
         Some (Errorf "id of resource.tencentcloud_ckafka_acl is wrong" []))
  else
    let instanceId := nth 0 items EmptyString in
    let permission := nth 1 items EmptyString in
    let principal := nth 2 items EmptyString in
    let host := nth 3 items EmptyString in
    let operation := nth 4 items EmptyString in
    let resourceType := nth 5 items EmptyString in
    let resourceName := nth 6 items EmptyString in
    let params :=
      [("instance_id", instanceId); ("resource_type", resourceType);
       ("resource_name", resourceName); ("host", host)] in
    ' (aclInfos, err) <- DescribeAclByFilter fuel params ;;
    match err with
    | Some err => ret (None, false, Some err)
    | None =>
        match find (fun acl =>
                      String.eqb
                        (CKAFKA_PERMISSION_TYPE_TO_STRING (PermissionType acl))
                        permission &&
                      String.eqb (Principal acl)
                        (CKAFKA_ACL_PRINCIPAL_STR ++ principal) &&
                      String.eqb
                        (CKAFKA_ACL_OPERATION_TO_STRING (Operation acl))
                        operation)
                   aclInfos with
        | Some acl => ret (Some acl, true, None)
        | None => ret (None, false, None)
        end
    end.

(** *** The other methods of [CkafkaService] *)

Import v20190819.
Context {more : MoreCloud} {tables : AclTables}.

Definition ModifyPassword (instanceId user oldPasswd newPasswd : string)
  : M (option error) :=
  let request :=
    {| ModifyPassword_InstanceId := instanceId;
       ModifyPassword_Name := user;
       ModifyPassword_Password := oldPasswd;
       ModifyPassword_PasswordNew := newPasswd |} in
  ' (err, response) <-
    Retry writeRetryTimeout
      (fun _ : option (option OperateResponse) =>
         ' (response, err) <-
           call "ModifyPassword" ckafka_ModifyPassword request ;;
         match err with
         | Some err => ret (Some (retryError err), response)
         | None => ret (None, response)
         end)
      None ;;
  match err with
  | Some err => ret (Some err)
  | None =>
      match payload response with
      | Some Result =>
          if negb (OperateStatusCheck Result) then panic else ret None
      | None => ret None
      end
  end.

Definition DeleteUser (userId : string) : M (option error) :=
  let items := Split userId FILED_SP in
  if negb (len items =? 2) then
    ret (Some (Errorf "id of resource.tencentcloud_ckafka_user is wrong" []))
  else
    let instanceId := nth 0 items EmptyString in
    let user := nth 1 items EmptyString in
    let request :=
      {| DeleteUser_InstanceId := instanceId; DeleteUser_Name := user |} in
    ' (err, response) <-
      Retry writeRetryTimeout
        (fun _ : option (option OperateResponse) =>
           ' (response, err) <-
             call "DeleteUser" ckafka_DeleteUser request ;;
           match err with
           | Some err => ret (Some (retryError err), response)
           | None => ret (None, response)
           end)
        None ;;
    match err with
    | Some err => ret (Some err)
    | None =>
        match payload response with
        | Some Result =>
            if negb (OperateStatusCheck Result) then panic else ret None
        | None => ret None
        end
    end.

(** The request that [CreateAcl] and [DeleteAcl] build. *)
Definition aclRequest
    (instanceId resourceType resourceName operation permissionType host
     principal : string) : AclRequest :=
  {| Acl_InstanceId := instanceId;
     Acl_ResourceType := CKAFKA_ACL_RESOURCE_TYPE resourceType;
     Acl_ResourceName := resourceName;
     Acl_Operation := CKAFKA_ACL_OPERATION operation;
     Acl_PermissionType := CKAFKA_PERMISSION_TYPE permissionType;
     Acl_Host := host;
     Acl_Principal := CKAFKA_ACL_PRINCIPAL_STR ++ principal |}.

Definition CreateAcl
    (instanceId resourceType resourceName operation permissionType host
     principal : string) : M (option error) :=
  let request :=
    aclRequest instanceId resourceType resourceName operation
               permissionType host principal in
  ' (err, response) <-
    Retry writeRetryTimeout
      (fun _ : option (option OperateResponse) =>
         ' (response, err) <- call "CreateAcl" ckafka_CreateAcl request ;;
         match err with
         | Some err => ret (Some (retryError err), response)
         | None => ret (None, response)
         end)
      None ;;
  match err with
  | Some err => ret (Some err)
  | None =>
      match payload response with
      | Some Result =>
          if negb (OperateStatusCheck Result) then panic else ret None
      | None => ret None
      end
  end.

Definition DeleteAcl (aclId : string) : M (option error) :=
  let items := Split aclId FILED_SP in
  if negb (len items =? 7) then
    ret (Some (Errorf "id of resource.tencentcloud_ckafka_acl is wrong" []))
  else
    let instanceId := nth 0 items EmptyString in
    let permission := nth 1 items EmptyString in
    let principal := nth 2 items EmptyString in
    let host := nth 3 items EmptyString in
    let operation := nth 4 items EmptyString in
    let resourceType := nth 5 items EmptyString in
    let resourceName := nth 6 items EmptyString in
    let request :=
      aclRequest instanceId resourceType resourceName operation
                 permission host principal in
    ' (err, response) <-
      Retry writeRetryTimeout
        (fun _ : option (option OperateResponse) =>
           ' (response, err) <- call "DeleteAcl" ckafka_DeleteAcl request ;;
           match err with
           | Some err => ret (Some (retryError err), response)
           | None => ret (None, response)
           end)
        None ;;
    match err with
    | Some err => ret (Some err)
    | None =>
        match payload response with
        | Some Result =>
            if negb (OperateStatusCheck Result) then panic else ret None
        | None => ret None
        end
    end.

End Methods.
End CkafkaService.

(** ** A concrete environment

  Sample values for the package constants, and an in-memory control
  plane on which the methods can be run: list actions serve the slice
  [offset, offset + limit) of what the store holds, a flow reports the
  statuses queued for it one poll at a time, and an action listed in
  [faults] answers with a nil response and the given error. *)

Module Sample.
Import sqlserver ckafka.

#[export] Instance package : Package :=
  {| FILED_SP := "#";
     BASIC_NETWORK := 0;
     SQLSERVER_DEFAULT_OFFSET := 0;
     SQLSERVER_DEFAULT_LIMIT := 20;
     SQLSERVER_TASK_RUNNING := 2;
     SQLSERVER_TASK_FAIL := 1;
     SQLSERVER_DB_DELETING := -1;
     CKAFKA_DESCRIBE_LIMIT := 50;
     CKAFKA_ACL_RESOURCE_TYPE :=
       fun s => if String.eqb s "TOPIC" then 2 else 0;
     CKAFKA_PERMISSION_TYPE_TO_STRING :=
       fun z => if z =? 3 then "ALLOW" else "DENY";
     CKAFKA_ACL_OPERATION_TO_STRING :=
       fun z => if z =? 3 then "READ" else "WRITE";
     CKAFKA_ACL_PRINCIPAL_STR := "User:";
     readRetryTimeout := 180;
     writeRetryTimeout := 300;
     retryError := NonRetryableError;
     logId := "logId" |}.

Record Store : Type :=
  { instances : list (option DBInstance);
    backups : list Backup;
    accounts : list AccountDetail;
    databases : list InstanceDBDetail;
    flowStatuses : list Z;
    deals : list DealInfo;
    dealNames : list string;
    users : list User;
    faults : list (string * option error) }.

Definition page {A} (l : list A) (offset limit : Z) : list A :=
  firstn (Z.to_nat limit) (skipn (Z.to_nat offset) l).

Fixpoint fault (fs : list (string * option error)) (action : string)
  : option (option error) :=
  match fs with
  | [] => None
  | (a, e) :: fs' => if String.eqb a action then Some e else fault fs' action
  end.

(** The answer of a read-only action. *)
Definition answer {P} (action : string) (p : Store -> P) (s : Store)
  : reply P * Store :=
  match fault (faults s) action with
  | Some e => ((None, e), s)
  | None => ((Some (Some (p s)), None), s)
  end.

Definition popFlowStatus (s : Store) : Store :=
  {| instances := instances s; backups := backups s;
     accounts := accounts s; databases := databases s;
     flowStatuses := tl (flowStatuses s);
     deals := deals s; dealNames := dealNames s; users := users s;
     faults := faults s |}.

#[export] Instance cloud : Cloud :=
  {| Srv := Store;
     retries := fun _ => 10%nat;
     sqlserver_DescribeDBInstances := fun r =>
       answer "DescribeDBInstances" (fun s =>
         page (instances s)
              (DescribeDBInstances_Offset r) (DescribeDBInstances_Limit r));
     sqlserver_DescribeBackups := fun r =>
       answer "DescribeBackups" (fun s =>
         page (backups s)
              (DescribeBackups_Offset r) (DescribeBackups_Limit r));
     sqlserver_DescribeAccounts := fun r =>
       answer "DescribeAccounts" (fun s =>
         page (accounts s)
              (DescribeAccounts_Offset r) (DescribeAccounts_Limit r));
     sqlserver_DescribeDBs := fun r =>
       answer "DescribeDBs" (fun s =>
         map (fun e =>
                {| InstanceDBDetail_InstanceId :=
                     InstanceDBDetail_InstanceId e;
                   DBDetails :=
                     page (DBDetails e)
                          (DescribeDBs_Offset r) (DescribeDBs_Limit r) |})
             (databases s));
     sqlserver_DescribeFlowStatus := fun r s =>
       match fault (faults s) "DescribeFlowStatus", flowStatuses s with
       | Some e, _ => ((None, e), s)
       | None, [] => ((None, Some (OtherError "unknown flow")), s)
       | None, st :: _ =>
           ((Some (Some {| Status := st; RequestId := "req" |}), None),
            popFlowStatus s)
       end;
     sqlserver_DescribeOrders := fun r => answer "DescribeOrders" deals;
     sqlserver_CreateDBInstances := fun r =>
       answer "CreateDBInstances" dealNames;
     sqlserver_CreateReadOnlyDBInstances := fun r =>
       answer "CreateReadOnlyDBInstances" dealNames;
     sqlserver_DeleteAccount := fun r =>
       answer "DeleteAccount" (fun _ => 1);
     sqlserver_ModifyAccountPrivilege := fun r =>
       answer "ModifyAccountPrivilege" (fun _ => 1);
     ckafka_CreateUser := fun r =>
       answer "CreateUser" (fun _ => Some {| ReturnCode := "0" |});
     ckafka_DescribeUser := fun r =>
       answer "DescribeUser" (fun s =>
         Some {| Users :=
                   Some (page (users s)
                              (match DescribeUser_Offset r with
                               | Some o => o | None => 0 end)
                              (match DescribeUser_Limit r with
                               | Some l => l | None => 20 end)) |});
     ckafka_DescribeACL := fun r =>
       answer "DescribeACL" (fun _ => Some {| AclList := [] |});
     ckafka_DescribeInstanceAttributes := fun r =>
       answer "DescribeInstanceAttributes" (fun _ =>
         Some {| InstanceAttributes_InstanceId :=
                   DescribeInstanceAttributes_InstanceId r |});
     ckafka_DescribeTopicAttributes := fun r =>
       answer "DescribeTopicAttributes" (fun _ =>
         Some {| TopicAttributes_TopicId :=
                   DescribeTopicAttributes_TopicName r |}) |}.

Definition emptyStore : Store :=
  {| instances := []; backups := []; accounts := []; databases := [];
     flowStatuses := []; deals := []; dealNames := []; users := [];
     faults := [] |}.

(** The world in which nothing has happened yet. *)
Definition start (s : Store) : World := {| server := s; trace := [] |}.

(** A store whose flows report the statuses [sts]. *)
Definition flowStore (sts : list Z) : Store :=
  {| instances := []; backups := []; accounts := []; databases := [];
     flowStatuses := sts; deals := []; dealNames := []; users := [];
     faults := [] |}.

Definition flowResponse (st : Z) : DescribeFlowStatusResponse :=
  {| Status := st; RequestId := "req" |}.

(** A store whose instance "mssql-1" is isolated (status 4) and whose
    database "db" is being deleted. *)
Definition terminatedStore : Store :=
  {| instances :=
       [Some {| DBInstance_InstanceId := "mssql-1";
                DBInstance_Status := 4 |}];
     backups := []; accounts := [];
     databases :=
       [{| InstanceDBDetail_InstanceId := "mssql-1";
           DBDetails :=
             [{| DBDetail_Name := "db";
                 DBDetail_Status := -1;
                 DBDetail_Accounts := [] |}] |}];
     flowStatuses := []; deals := []; dealNames := []; users := [];
     faults := [] |}.

(** A store that answers the order lookup with [ds] and a submission
    with the deal names [names]; flows report the statuses [sts]. *)
Definition dealStore (ds : list DealInfo) (names : list string)
    (sts : list Z) : Store :=
  {| instances := []; backups := []; accounts := []; databases := [];
     flowStatuses := sts; deals := ds; dealNames := names; users := [];
     faults := [] |}.

(** A store with [n] backups of one instance. *)
Definition backupStore (n : nat) : Store :=
  {| instances := [];
     backups :=
       map (fun i => {| Backup_Id := Z.of_nat i;
                        Backup_FileName := "full.bak" |}) (seq 0 n);
     accounts := []; databases := [];
     flowStatuses := []; deals := []; dealNames := []; users := [];
     faults := [] |}.

(** [n] running databases, told apart by their position. *)
Definition manyDBs (n : nat) : list DBDetail :=
  map (fun i =>
         {| DBDetail_Name := "db";
            DBDetail_Status := 2;
            DBDetail_Accounts :=
              [{| AccountPrivilege_UserName := "user";
                  AccountPrivilege_Privilege :=
                    String (ascii_of_nat (65 + i)) EmptyString |}] |})
      (seq 0 n).

(** A store with the instance "mssql-1", its account "app" and its
    databases [dbs]; [fs] are the faults to inject. *)
Definition instanceStore (dbs : list DBDetail)
    (fs : list (string * option error)) : Store :=
  {| instances :=
       [Some {| DBInstance_InstanceId := "mssql-1";
                DBInstance_Status := 2 |}];
     backups := [];
     accounts :=
       [{| AccountDetail_Name := "app";
           AccountDetail_Status := 2;
           AccountDetail_Dbs := [] |}];
     databases :=
       [{| InstanceDBDetail_InstanceId := "mssql-1"; DBDetails := dbs |}];
     flowStatuses := [0];
     deals := []; dealNames := []; users := [];
     faults := fs |}.

(** The store has a user of this name. *)
Definition known (us : list User) (name : string) : bool :=
  existsb (fun u => String.eqb (User_Name u) name) us.

(** The other actions on the same store: fixed answers, and the same
    faults; a password change or a removal of a user that the store does
    not have is answered with the return code "-1". *)
#[export] Instance tables : AclTables :=
  {| CKAFKA_ACL_OPERATION :=
       fun s => if String.eqb s "READ" then 3 else 4;
     CKAFKA_PERMISSION_TYPE :=
       fun s => if String.eqb s "ALLOW" then 3 else 2 |}.

#[export] Instance moreCloud : MoreCloud :=
  {| sqlserver_DescribeZones := fun r =>
       answer "DescribeZones" (fun _ =>
         [{| v20180328.Zone := "ap-guangzhou-2";
             v20180328.ZoneName := "Guangzhou Zone 2" |}]);
     sqlserver_DescribeProductConfig := fun r =>
       answer "DescribeProductConfig" (fun _ =>
         [{| v20180328.SpecId := 1; v20180328.MachineType := "CLOUD_SSD" |}]);
     sqlserver_ModifyDBInstanceName := fun r =>
       answer "ModifyDBInstanceName" (fun _ => tt);
     sqlserver_ModifyDBInstanceProject := fun r =>
       answer "ModifyDBInstanceProject" (fun _ => tt);
     sqlserver_UpgradeDBInstance := fun r =>
       answer "UpgradeDBInstance" (fun _ => tt);
     sqlserver_DisassociateSecurityGroups := fun r =>
       answer "DisassociateSecurityGroups" (fun _ => tt);
     sqlserver_AssociateSecurityGroups := fun r =>
       answer "AssociateSecurityGroups" (fun _ => tt);
     sqlserver_ModifyMaintenanceSpan := fun r =>
       answer "ModifyMaintenanceSpan" (fun _ => tt);
     sqlserver_TerminateDBInstance := fun r =>
       answer "TerminateDBInstance" (fun _ => tt);
     sqlserver_DeleteDBInstance := fun r =>
       answer "DeleteDBInstance" (fun _ => tt);
     sqlserver_DescribeMaintenanceSpan := fun r =>
       answer "DescribeMaintenanceSpan" (fun _ =>
         {| v20180328.Weekly := [1; 3];
            v20180328.StartTime := "01:00";
            v20180328.Span := 2 |});
     sqlserver_DescribeDBSecurityGroups := fun r =>
       answer "DescribeDBSecurityGroups" (fun _ =>
         [{| v20180328.SecurityGroupId := "sg-1" |}]);
     sqlserver_DescribeReadOnlyGroupList := fun r =>
       answer "DescribeReadOnlyGroupList" (fun _ => []);
     sqlserver_DescribeReadOnlyGroupByReadOnlyInstance := fun r =>
       answer "DescribeReadOnlyGroupByReadOnlyInstance" (fun _ =>
         {| v20180328.ReadOnlyGroupId := "rg-1";
            v20180328.MasterInstanceId := "mssql-1" |});
     sqlserver_CreateAccount := fun r =>
       answer "CreateAccount" (fun _ => 1);
     sqlserver_ModifyAccountRemark := fun r =>
       answer "ModifyAccountRemark" (fun _ => tt);
     sqlserver_ResetAccountPassword := fun r =>
       answer "ResetAccountPassword" (fun _ => tt);
     sqlserver_CreateDB := fun r => answer "CreateDB" (fun _ => 1);
     sqlserver_ModifyDBRemark := fun r =>
       answer "ModifyDBRemark" (fun _ => tt);
     sqlserver_DeleteDB := fun r => answer "DeleteDB" (fun _ => 1);
     ckafka_ModifyPassword := fun r =>
       answer "ModifyPassword" (fun s =>
         Some {| ReturnCode :=
                   if known (users s) (v20190819.ModifyPassword_Name r)
                   then "0" else "-1" |});
     ckafka_DeleteUser := fun r =>
       answer "DeleteUser" (fun s =>
         Some {| ReturnCode :=
                   if known (users s) (v20190819.DeleteUser_Name r)
                   then "0" else "-1" |});
     ckafka_CreateAcl := fun r =>
       answer "CreateAcl" (fun _ => Some {| ReturnCode := "0" |});
     ckafka_DeleteAcl := fun r =>
       answer "DeleteAcl" (fun _ => Some {| ReturnCode := "0" |}) |}.

(** A remote that ignores [Offset] in its three list actions: every
    request is answered with the first page. *)
Definition firstPageOnly : Cloud :=
  {| Srv := Store;
     retries := fun _ => 10%nat;
     sqlserver_DescribeDBInstances := fun r =>
       answer "DescribeDBInstances" (fun s =>
         page (instances s) 0 (DescribeDBInstances_Limit r));
     sqlserver_DescribeBackups := fun r =>
       answer "DescribeBackups" (fun s =>
         page (backups s) 0 (DescribeBackups_Limit r));
     sqlserver_DescribeAccounts := fun r =>
       answer "DescribeAccounts" (fun s =>
         page (accounts s) 0 (DescribeAccounts_Limit r));
     sqlserver_DescribeDBs := @sqlserver_DescribeDBs cloud;
     sqlserver_DescribeFlowStatus := @sqlserver_DescribeFlowStatus cloud;
     sqlserver_DescribeOrders := @sqlserver_DescribeOrders cloud;
     sqlserver_CreateDBInstances := @sqlserver_CreateDBInstances cloud;
     sqlserver_CreateReadOnlyDBInstances :=
       @sqlserver_CreateReadOnlyDBInstances cloud;
     sqlserver_DeleteAccount := @sqlserver_DeleteAccount cloud;
     sqlserver_ModifyAccountPrivilege :=
       @sqlserver_ModifyAccountPrivilege cloud;
     ckafka_CreateUser := @ckafka_CreateUser cloud;
     ckafka_DescribeUser := @ckafka_DescribeUser cloud;
     ckafka_DescribeACL := @ckafka_DescribeACL cloud;
     ckafka_DescribeInstanceAttributes :=
       @ckafka_DescribeInstanceAttributes cloud;
     ckafka_DescribeTopicAttributes :=
       @ckafka_DescribeTopicAttributes cloud |}.

(** A store with the instance "ckafka-1" and [n] users. *)
Definition userStore (n : nat) : Store :=
  {| instances := []; backups := []; accounts := []; databases := [];
     flowStatuses := []; deals := []; dealNames := [];
     users :=
       map (fun i => {| User_Name := String (ascii_of_nat (97 + i)) "-user" |})
           (seq 0 n);
     faults := [] |}.

(** A remote like [cloud] that serves the ACLs [acls], a page a
    request. *)
Definition withAcls (acls : list Acl) : Cloud :=
  {| Srv := Store;
     retries := fun _ => 10%nat;
     sqlserver_DescribeDBInstances := @sqlserver_DescribeDBInstances cloud;
     sqlserver_DescribeBackups := @sqlserver_DescribeBackups cloud;
     sqlserver_DescribeAccounts := @sqlserver_DescribeAccounts cloud;
     sqlserver_DescribeDBs := @sqlserver_DescribeDBs cloud;
     sqlserver_DescribeFlowStatus := @sqlserver_DescribeFlowStatus cloud;
     sqlserver_DescribeOrders := @sqlserver_DescribeOrders cloud;
     sqlserver_CreateDBInstances := @sqlserver_CreateDBInstances cloud;
     sqlserver_CreateReadOnlyDBInstances :=
       @sqlserver_CreateReadOnlyDBInstances cloud;
     sqlserver_DeleteAccount := @sqlserver_DeleteAccount cloud;
     sqlserver_ModifyAccountPrivilege :=
       @sqlserver_ModifyAccountPrivilege cloud;
     ckafka_CreateUser := @ckafka_CreateUser cloud;
     ckafka_DescribeUser := @ckafka_DescribeUser cloud;
     ckafka_DescribeACL := fun r =>
       answer "DescribeACL" (fun _ =>
         Some {| AclList :=
                   page acls (DescribeACL_Offset r) (DescribeACL_Limit r) |});
     ckafka_DescribeInstanceAttributes :=
       @ckafka_DescribeInstanceAttributes cloud;
     ckafka_DescribeTopicAttributes :=
       @ckafka_DescribeTopicAttributes cloud |}.

End Sample.

(** ** Vocabulary of the properties *)

(** The outcome of one poll, as the workflow reads it. *)
Inductive PollOutcome : Type :=
| Pending
| Succeeded
| Failed (cause : error).

(** What [resource.Retry] makes of the result of its closure. *)
Definition outcome (r : option RetryError) : PollOutcome :=
  match r with
  | None => Succeeded
  | Some re => if Retryable re then Pending else Failed (Err re)
  end.

(** The events of [n] polls of the flow status, in the order in which
    [WaitForTaskFinish] produces them. *)
Fixpoint pollEvents (n : nat) : list event :=
  match n with
  | O => []
  | S n =>
      RemoteCall "DescribeFlowStatus" :: RateLimitCheck "DescribeFlowStatus"
        :: pollEvents n
  end.

(** The events of [n] round trips of a list action. *)
Fixpoint roundTrips (action : string) (n : nat) : list event :=
  match n with
  | O => []
  | S n => RateLimitCheck action :: RemoteCall action :: roundTrips action n
  end.

(** The number of requests sent. *)
Definition remoteCalls (tr : list event) : nat :=
  List.length
    (filter (fun e => match e with RemoteCall _ => true | _ => false end) tr).

(** Every request is sent right after an acquisition of the rate limiter
    for its action. *)
Fixpoint guarded (tr : list event) : bool :=
  match tr with
  | [] => true
  | RemoteCall _ :: _ => false
  | RateLimitCheck a :: tr' =>
      match tr' with
      | RemoteCall b :: tr'' => String.eqb a b && guarded tr''
      | _ => guarded tr'
      end
  end.

(** Successive polls of a flow, from server state [s], are answered with
    the responses [rs] and leave the server in state [s']. *)
Fixpoint reports `{Cloud} (flowId : Z)
    (rs : list sqlserver.DescribeFlowStatusResponse) (s s' : Srv) : Prop :=
  match rs with
  | [] => s' = s
  | r :: rs' =>
      exists s1,
        sqlserver_DescribeFlowStatus
          {| sqlserver.DescribeFlowStatus_FlowId := flowId |} s
        = ((Some (Some r), None), s1)
        /\ reports flowId rs' s1 s'
  end.

(** The world after [n] polls that leave the server in state [s]. *)
Definition polled `{Cloud} (s : Srv) (w : World) (n : nat) : World :=
  {| server := s; trace := trace w ++ pollEvents n |}.

(** The world after [n] round trips of a list action that leave the
    server as it was. *)
Definition scanned `{Cloud} (w : World) (action : string) (n : nat) : World :=
  {| server := server w; trace := trace w ++ roundTrips action n |}.

(** The world after the one round trip of the CKafka instance lookup,
    which leaves the server in state [s1]. *)
Definition looked `{Cloud} (w : World) (s1 : Srv) : World :=
  {| server := s1;
     trace := trace w ++ roundTrips "DescribeInstanceAttributes" 1 |}.

(** The attachment [m] has the three entries of a mapping and agrees
    with the account name and the database name asked for, where one is
    given. *)
Definition matches (accountName dbName : string)
    (m : list (string * string)) : Prop :=
  exists db account privilege,
    m = SqlserverService.mapping db account privilege
    /\ (nonEmpty accountName = true -> account = accountName)
    /\ (nonEmpty dbName = true -> db = dbName).

(** A request for [action] is among the events. *)
Definition sends (action : string) (tr : list event) : bool :=
  existsb (fun e => match e with
                    | RemoteCall a => String.eqb action a
                    | RateLimitCheck _ => false
                    end) tr.

(** The error is an SDK error with the code of a missing instance. *)
Definition InstanceNotFound (err : error) : bool :=
  match err with
  | SDKError Code _ _ => String.eqb Code "ResourceNotFound.InstanceNotFound"
  | _ => false
  end.

(** [ceil(a / b)] for [0 <= a] and [0 < b]. *)
Definition ceil_div (a b : Z) : Z := (a + b - 1) / b.

(** The number of occurrences of the character [d] in [s]. *)
Fixpoint occurrences (d : ascii) (s : string) : nat :=
  match s with
  | EmptyString => 0
  | String c s' =>
      if ascii_dec d c then S (occurrences d s') else occurrences d s'
  end.

(** * Properties *)

Section SplitJoin.

Variable d : ascii.
(** The delimiter is the one-character string [String d EmptyString]. *)

Lemma HasPrefix_sep (c : ascii) (s : string) :
  HasPrefix (String c s) (String d EmptyString)
  = if ascii_dec d c then true else false.
Proof.
  unfold HasPrefix; simpl.
  destruct (ascii_dec d c); [destruct s|]; reflexivity.
Qed.

Lemma Contains_sep_cons (c : ascii) (s : string) :
  Contains (String c s) (String d EmptyString) = false ->
  d <> c /\ Contains s (String d EmptyString) = false.
Proof.
  cbn [Contains]. rewrite HasPrefix_sep.
  destruct (ascii_dec d c); simpl; [discriminate|]. auto.
Qed.

Lemma append_assoc (a b c : string) : ((a ++ b) ++ c = a ++ (b ++ c))%string.
Proof. induction a; simpl; congruence. Qed.

Lemma append_nil_r (a : string) : (a ++ EmptyString = a)%string.
Proof. induction a; simpl; congruence. Qed.

(** A piece without separator is read up to the end of the input. *)
Lemma splitFrom_last (p cur : string) :
  Contains p (String d EmptyString) = false ->
  splitFrom (String d EmptyString) 0 cur p = [(cur ++ p)%string].
Proof.
  revert cur; induction p as [|c p IH]; intros cur H.
  - simpl. now rewrite append_nil_r.
  - apply Contains_sep_cons in H as [Hc Hp].
    cbn [splitFrom]. rewrite HasPrefix_sep.
    destruct (ascii_dec d c); [contradiction|].
    rewrite IH by assumption. now rewrite append_assoc.
Qed.

(** A piece without separator is read up to the next separator. *)
Lemma splitFrom_piece (p cur rest : string) :
  Contains p (String d EmptyString) = false ->
  splitFrom (String d EmptyString) 0 cur (p ++ String d EmptyString ++ rest)
  = (cur ++ p)%string :: splitFrom (String d EmptyString) 0 EmptyString rest.
Proof.
  revert cur; induction p as [|c p IH]; intros cur H.
  - cbn [append splitFrom]. rewrite HasPrefix_sep.
    destruct (ascii_dec d d); [|contradiction].
    now rewrite append_nil_r.
  - apply Contains_sep_cons in H as [Hc Hp].
    cbn [append splitFrom]. rewrite HasPrefix_sep.
    destruct (ascii_dec d c); [contradiction|].
    rewrite IH by assumption. now rewrite append_assoc.
Qed.

Lemma Split_Join (parts : list string) :
  parts <> [] ->
  Forall (fun p => Contains p (String d EmptyString) = false) parts ->
  Split (Join parts (String d EmptyString)) (String d EmptyString) = parts.
Proof.
  unfold Split, Join.
  induction parts as [|p parts IH]; intros Hne Hall; [congruence|].
  inversion Hall as [|? ? Hp Hps]; subst.
  destruct parts as [|q parts].
  - simpl. now apply splitFrom_last.
  - change (String.concat (String d EmptyString) (p :: q :: parts))
      with (p ++ String d EmptyString
              ++ String.concat (String d EmptyString) (q :: parts))%string.
    rewrite splitFrom_piece by assumption.
    rewrite IH by (assumption || discriminate). reflexivity.
Qed.

End SplitJoin.

(** ** Running computations *)

Section Running.
Context `{Cloud}.

Lemma bind_Ret {A B} (c : M A) (k : A -> M B) (w w' : World) (a : A) :
  c w = (Ret a, w') -> bind c k w = k a w'.
Proof. intros E. unfold bind. now rewrite E. Qed.

Lemma bind_ext {A B} (c : M A) (k1 k2 : A -> M B) (w : World) :
  (forall a w', k1 a w' = k2 a w') -> bind c k1 w = bind c k2 w.
Proof.
  intros E. unfold bind. destruct (c w) as [[a| |] w1]; auto.
Qed.

Lemma bind_Panic {A B} (c : M A) (k : A -> M B) (w w' : World) :
  c w = (Panic, w') -> bind c k w = (Panic, w').
Proof. intros E. unfold bind. now rewrite E. Qed.

Lemma call_eq {Req P} (action : string) (rpc : Req -> Srv -> reply P * Srv)
    (request : Req) (w : World) (r : reply P) (s : Srv) :
  rpc request (server w) = (r, s) ->
  call action rpc request w
  = (Ret r, {| server := s; trace := trace w ++ [RemoteCall action] |}).
Proof. intros E. unfold call. now rewrite E. Qed.

Lemma RetryN_done {V} (n : nat) (f : V -> M (option RetryError * V))
    (v v' : V) (w w' : World) :
  f v w = (Ret (None, v'), w') -> RetryN n f v w = (Ret (None, v'), w').
Proof. intros E. destruct n; cbn; now rewrite (bind_Ret _ _ _ _ _ E). Qed.

Lemma RetryN_fatal {V} (n : nat) (f : V -> M (option RetryError * V))
    (v v' : V) (w w' : World) (re : RetryError) :
  f v w = (Ret (Some re, v'), w') -> Retryable re = false ->
  RetryN n f v w = (Ret (Some (Err re), v'), w').
Proof.
  intros E R. destruct n; cbn; rewrite (bind_Ret _ _ _ _ _ E); now rewrite R.
Qed.

Lemma RetryN_again {V} (n : nat) (f : V -> M (option RetryError * V))
    (v v' : V) (w w' : World) (re : RetryError) :
  f v w = (Ret (Some re, v'), w') -> Retryable re = true ->
  RetryN (S n) f v w = RetryN n f v' w'.
Proof. intros E R. cbn. rewrite (bind_Ret _ _ _ _ _ E). now rewrite R. Qed.

Lemma RetryN_timeout {V} (f : V -> M (option RetryError * V))
    (v v' : V) (w w' : World) (re : RetryError) :
  f v w = (Ret (Some re, v'), w') -> Retryable re = true ->
  RetryN 0 f v w = (Ret (Some (Err re), v'), w').
Proof. intros E R. cbn. rewrite (bind_Ret _ _ _ _ _ E). now rewrite R. Qed.

Lemma RetryN_panic {V} (n : nat) (f : V -> M (option RetryError * V))
    (v : V) (w w' : World) :
  f v w = (Panic, w') -> RetryN n f v w = (Panic, w').
Proof. intros E. destruct n; cbn; now rewrite (bind_Panic _ _ _ _ E). Qed.

End Running.

(** ** Convergence of a flow: [WaitForTaskFinish] *)

Section Convergence.
Import sqlserver SqlserverService.
Context `{Package} `{Cloud}.

(** One run of the closure on a well-formed answer. *)
Lemma WaitForTaskFinish_func_reads (flowId : Z) (w : World)
    (r : DescribeFlowStatusResponse) (s1 : Srv) :
  sqlserver_DescribeFlowStatus
    {| DescribeFlowStatus_FlowId := flowId |} (server w)
  = ((Some (Some r), None), s1) ->
  WaitForTaskFinish_func {| DescribeFlowStatus_FlowId := flowId |} tt w
  = (Ret
       (if Status r =? SQLSERVER_TASK_RUNNING then
          Some (RetryableError (WithStack
            (Errorf "SQLSERVER task status is %d(task running), requestId is %s"
                    [AInt (Status r); AStr (RequestId r)])))
        else if Status r =? SQLSERVER_TASK_FAIL then
          Some (NonRetryableError (WithStack
            (Errorf "SQLSERVER task status is %d(failed), requestId is %s"
                    [AInt (Status r); AStr (RequestId r)])))
        else None, tt),
     polled s1 w 1).
Proof.
  intros E. unfold WaitForTaskFinish_func.
  rewrite (bind_Ret _ _ _ _ _ (call_eq _ _ _ _ _ _ E)).
  unfold polled; cbn. rewrite <- app_assoc; cbn.
  destruct (Status r =? SQLSERVER_TASK_RUNNING); [reflexivity|].
  destruct (Status r =? SQLSERVER_TASK_FAIL); reflexivity.
Qed.

Lemma polled_polled (s s1 : Srv) (w : World) (n m : nat) :
  polled s (polled s1 w n) m = polled s w (n + m).
Proof.
  unfold polled; cbn. f_equal. rewrite <- app_assoc. f_equal.
  induction n; cbn; congruence.
Qed.

(** While the flow reports the running status the wait keeps polling. *)
Lemma RetryN_running (flowId : Z) (running : list DescribeFlowStatusResponse) :
  Forall (fun r => Status r = SQLSERVER_TASK_RUNNING) running ->
  forall (n : nat) (w : World) (s' : Srv),
  reports flowId running (server w) s' ->
  RetryN (List.length running + n)
    (WaitForTaskFinish_func {| DescribeFlowStatus_FlowId := flowId |}) tt w
  = RetryN n
      (WaitForTaskFinish_func {| DescribeFlowStatus_FlowId := flowId |}) tt
      (polled s' w (List.length running)).
Proof.
  induction 1 as [|r running Hr _ IH]; intros n w s' Hrep.
  - cbn in Hrep; subst s'. cbn. unfold polled; cbn.
    rewrite app_nil_r. now destruct w.
  - cbn in Hrep. destruct Hrep as (s1 & E & Hrep).
    cbn [List.length Nat.add].
    pose proof (WaitForTaskFinish_func_reads _ _ _ _ E) as P.
    apply Z.eqb_eq in Hr. rewrite Hr in P.
    erewrite RetryN_again; [| exact P | reflexivity].
    rewrite (IH n (polled s1 w 1) s' Hrep). now rewrite polled_polled.
Qed.

Lemma reports_app (flowId : Z) (rs1 rs2 : list DescribeFlowStatusResponse)
    (s s' : Srv) :
  reports flowId (rs1 ++ rs2) s s' ->
  exists s1, reports flowId rs1 s s1 /\ reports flowId rs2 s1 s'.
Proof.
  revert s; induction rs1 as [|r rs1 IH]; intros s Hrep; cbn in *.
  - eauto.
  - destruct Hrep as (s1 & E & Hrep).
    destruct (IH _ Hrep) as (s2 & H1 & H2). eauto.
Qed.

Lemma WaitForTaskFinish_Retry (flowId : Z) (w w' : World)
    (errRet : option error) :
  RetryN (retries (4 * writeRetryTimeout))
    (WaitForTaskFinish_func {| DescribeFlowStatus_FlowId := flowId |}) tt w
  = (Ret (errRet, tt), w') ->
  WaitForTaskFinish flowId w = (Ret errRet, w').
Proof.
  intros E. unfold WaitForTaskFinish, Retry.
  now rewrite (bind_Ret _ _ _ _ _ E).
Qed.

(** C2, as amended. A poll that reads a status is pending exactly on
    [SQLSERVER_TASK_RUNNING] and failed exactly on [SQLSERVER_TASK_FAIL]
    (when that differs from the running status); every other status
    value is a success and ends [WaitForTaskFinish] at once, with no
    further poll. *)
Theorem WaitForTaskFinish_status_outcome (flowId : Z) (w : World)
    (r : DescribeFlowStatusResponse) (s1 : Srv) :
  sqlserver_DescribeFlowStatus
    {| DescribeFlowStatus_FlowId := flowId |} (server w)
  = ((Some (Some r), None), s1) ->
  exists res : option RetryError,
    WaitForTaskFinish_func {| DescribeFlowStatus_FlowId := flowId |} tt w
    = (Ret (res, tt), polled s1 w 1)
    /\ (outcome res = Pending <-> Status r = SQLSERVER_TASK_RUNNING)
    /\ ((exists cause, outcome res = Failed cause) <->
        Status r <> SQLSERVER_TASK_RUNNING /\
        Status r = SQLSERVER_TASK_FAIL)
    /\ (outcome res = Succeeded <->
        Status r <> SQLSERVER_TASK_RUNNING /\
        Status r <> SQLSERVER_TASK_FAIL)
    /\ (Status r <> SQLSERVER_TASK_RUNNING ->
        Status r <> SQLSERVER_TASK_FAIL ->
        WaitForTaskFinish flowId w = (Ret None, polled s1 w 1)).
Proof.
  intros E. pose proof (WaitForTaskFinish_func_reads _ _ _ _ E) as P.
  eexists; split; [exact P|].
  assert (Hend : Status r <> SQLSERVER_TASK_RUNNING ->
                 Status r <> SQLSERVER_TASK_FAIL ->
                 WaitForTaskFinish flowId w = (Ret None, polled s1 w 1)).
  { intros Hr Hf. apply WaitForTaskFinish_Retry, RetryN_done.
    destruct (Z.eqb_spec (Status r) SQLSERVER_TASK_RUNNING); [tauto|].
    destruct (Z.eqb_spec (Status r) SQLSERVER_TASK_FAIL); [tauto|].
    exact P. }
  destruct (Z.eqb_spec (Status r) SQLSERVER_TASK_RUNNING) as [Hr|Hr];
    [|destruct (Z.eqb_spec (Status r) SQLSERVER_TASK_FAIL) as [Hf|Hf]];
    cbn; (split; [|split; [|split]]); try exact Hend;
    split; try congruence; try tauto;
    try (intros [c Hc]; congruence); try (intros _; eauto).
Qed.

(** C6. After any number of running statuses that the deadline allows,
    a status that is neither running nor failed makes the wait return
    success, and the failed status makes it return an error at that
    very poll: no poll follows it. *)
Theorem WaitForTaskFinish_converges (flowId : Z)
    (running : list DescribeFlowStatusResponse)
    (final : DescribeFlowStatusResponse) (w : World) (s' : Srv) :
  SQLSERVER_TASK_RUNNING <> SQLSERVER_TASK_FAIL ->
  Forall (fun r => Status r = SQLSERVER_TASK_RUNNING) running ->
  reports flowId (running ++ [final]) (server w) s' ->
  (List.length running <= retries (4 * writeRetryTimeout))%nat ->
  (Status final <> SQLSERVER_TASK_RUNNING ->
   Status final <> SQLSERVER_TASK_FAIL ->
   WaitForTaskFinish flowId w
   = (Ret None, polled s' w (S (List.length running))))
  /\
  (Status final = SQLSERVER_TASK_FAIL ->
   WaitForTaskFinish flowId w
   = (Ret (Some (WithStack
             (Errorf "SQLSERVER task status is %d(failed), requestId is %s"
                     [AInt (Status final); AStr (RequestId final)]))),
      polled s' w (S (List.length running)))).
Proof.
  intros Hne Hrun Hrep Hle.
  apply reports_app in Hrep as (s1 & Hrep & Hfin).
  cbn in Hfin. destruct Hfin as (s2 & E & ->).
  assert (Hn : exists n, retries (4 * writeRetryTimeout)
                         = (List.length running + n)%nat)
    by (exists (retries (4 * writeRetryTimeout) - List.length running)%nat; lia).
  destruct Hn as [n Hn].
  assert (Hp : polled s2 (polled s1 w (List.length running)) 1
               = polled s2 w (S (List.length running)))
    by (rewrite polled_polled; f_equal; lia).
  pose proof (WaitForTaskFinish_func_reads flowId
                (polled s1 w (List.length running)) final s2 E) as P.
  rewrite Hp in P.
  split; intros.
  - apply WaitForTaskFinish_Retry. rewrite Hn.
    rewrite (RetryN_running _ _ Hrun n w s1 Hrep).
    apply RetryN_done.
    destruct (Z.eqb_spec (Status final) SQLSERVER_TASK_RUNNING); [tauto|].
    destruct (Z.eqb_spec (Status final) SQLSERVER_TASK_FAIL); [tauto|].
    exact P.
  - apply WaitForTaskFinish_Retry. rewrite Hn.
    rewrite (RetryN_running _ _ Hrun n w s1 Hrep).
    destruct (Z.eqb_spec (Status final) SQLSERVER_TASK_RUNNING); [congruence|].
    destruct (Z.eqb_spec (Status final) SQLSERVER_TASK_FAIL); [|tauto].
    now apply (RetryN_fatal _ _ _ _ _ _ _ P).
Qed.

End Convergence.

Section ConvergenceRuns.
Import sqlserver SqlserverService Sample.

(** C2, counterexample. With the running status 2 and the failed status
    1, a flow that reports the status 7 (mapped to nothing) is not
    polled again: the poll is read as a success, and the wait returns
    [nil] with the next status still queued. *)
Lemma unmapped_status_ends_wait :
  7 <> SQLSERVER_TASK_RUNNING /\ 7 <> SQLSERVER_TASK_FAIL /\
  (exists res w',
     WaitForTaskFinish_func {| DescribeFlowStatus_FlowId := 1 |} tt
       (start (flowStore [7; 2]))
     = (Ret (res, tt), w') /\ outcome res <> Pending) /\
  WaitForTaskFinish 1 (start (flowStore [7; 2]))
  = (Ret None, polled (flowStore [2]) (start (flowStore [7; 2])) 1).
Proof.
  split; [discriminate|]. split; [discriminate|]. split.
  - eexists; eexists; split; [reflexivity|]. cbn. discriminate.
  - reflexivity.
Qed.

Lemma WaitForTaskFinish_status_outcome_witness :
  sqlserver_DescribeFlowStatus
    {| DescribeFlowStatus_FlowId := 1 |} (server (start (flowStore [7; 2])))
  = ((Some (Some (flowResponse 7)), None), flowStore [2])
  /\ exists res : option RetryError,
    WaitForTaskFinish_func {| DescribeFlowStatus_FlowId := 1 |} tt
      (start (flowStore [7; 2]))
    = (Ret (res, tt), polled (flowStore [2]) (start (flowStore [7; 2])) 1)
    /\ (outcome res = Pending <->
        Status (flowResponse 7) = SQLSERVER_TASK_RUNNING)
    /\ ((exists cause, outcome res = Failed cause) <->
        Status (flowResponse 7) <> SQLSERVER_TASK_RUNNING /\
        Status (flowResponse 7) = SQLSERVER_TASK_FAIL)
    /\ (outcome res = Succeeded <->
        Status (flowResponse 7) <> SQLSERVER_TASK_RUNNING /\
        Status (flowResponse 7) <> SQLSERVER_TASK_FAIL)
    /\ (Status (flowResponse 7) <> SQLSERVER_TASK_RUNNING ->
        Status (flowResponse 7) <> SQLSERVER_TASK_FAIL ->
        WaitForTaskFinish 1 (start (flowStore [7; 2]))
        = (Ret None, polled (flowStore [2]) (start (flowStore [7; 2])) 1)).
Proof.
  split; [reflexivity|].
  apply (WaitForTaskFinish_status_outcome 1 (start (flowStore [7; 2]))
           (flowResponse 7) (flowStore [2])).
  reflexivity.
Defined.

Lemma WaitForTaskFinish_converges_witness :
  (WaitForTaskFinish 1 (start (flowStore [2; 2; 0]))
   = (Ret None, polled (flowStore []) (start (flowStore [2; 2; 0])) 3))
  /\
  (WaitForTaskFinish 1 (start (flowStore [2; 2; 1; 0]))
   = (Ret (Some (WithStack
             (Errorf "SQLSERVER task status is %d(failed), requestId is %s"
                     [AInt 1; AStr "req"]))),
      polled (flowStore [0]) (start (flowStore [2; 2; 1; 0])) 3)).
Proof.
  split.
  - apply (WaitForTaskFinish_converges 1
             [flowResponse 2; flowResponse 2] (flowResponse 0)
             (start (flowStore [2; 2; 0])) (flowStore [])).
    + discriminate.
    + repeat constructor.
    + cbn. repeat (eexists; split; [reflexivity|]). reflexivity.
    + cbn. lia.
    + discriminate.
    + discriminate.
  - apply (WaitForTaskFinish_converges 1
             [flowResponse 2; flowResponse 2] (flowResponse 1)
             (start (flowStore [2; 2; 1; 0])) (flowStore [0])).
    + discriminate.
    + repeat constructor.
    + cbn. repeat (eexists; split; [reflexivity|]). reflexivity.
    + cbn. lia.
    + reflexivity.
Defined.

End ConvergenceRuns.

(** ** Pagination: the offset/limit loops *)

Section Arithmetic.

Lemma wrap_int64_small (z : Z) : - 2 ^ 63 <= z < 2 ^ 63 -> wrap_int64 z = z.
Proof. intros Hz. unfold wrap_int64. rewrite Z.mod_small; lia. Qed.

Lemma wrap_uint64_small (z : Z) : 0 <= z < 2 ^ 64 -> wrap_uint64 z = z.
Proof. intros Hz. unfold wrap_uint64. now rewrite Z.mod_small. Qed.

Lemma int_small (z : Z) : - 2 ^ 63 <= z < 2 ^ 63 -> int z = z.
Proof. apply wrap_int64_small. Qed.

(** The number of round trips [n / p + 1], in the terms of the claim. *)
Lemma round_trips_formula (n p : Z) :
  0 <= n -> 1 <= p ->
  n / p + 1 = if n mod p =? 0 then ceil_div (n + 1) p else ceil_div n p.
Proof.
  intros Hn Hp. unfold ceil_div.
  pose proof (Z.div_mod n p ltac:(lia)) as D.
  pose proof (Z.mod_pos_bound n p ltac:(lia)) as B.
  destruct (Z.eqb_spec (n mod p) 0) as [E|E].
  - replace (n + 1 + p - 1) with (n / p * p + p) by lia.
    replace (n / p * p + p) with ((n / p + 1) * p) by lia.
    now rewrite Z.div_mul by lia.
  - replace (n + p - 1) with ((n mod p - 1) + (n / p + 1) * p) by lia.
    rewrite Z.div_add by lia.
    rewrite (Z.div_small (n mod p - 1) p) by lia. lia.
Qed.

Lemma len_page {A} (l : list A) (off p : Z) :
  0 <= off <= len l -> 0 <= p ->
  len (page l off p) = Z.min p (len l - off).
Proof.
  intros Ho Hp. unfold len, page in *.
  rewrite length_firstn, length_skipn. lia.
Qed.

Lemma page_last {A} (l : list A) (off p : Z) :
  0 <= off <= len l -> len l - off <= p ->
  page l off p = skipn (Z.to_nat off) l.
Proof.
  intros Ho Hp. unfold len, page in *.
  apply firstn_all2. rewrite length_skipn. lia.
Qed.

Lemma page_next {A} (l : list A) (off p : Z) :
  0 <= off -> 0 <= p ->
  (page l off p ++ skipn (Z.to_nat (off + p)) l)%list = skipn (Z.to_nat off) l.
Proof.
  intros Ho Hp. unfold page.
  replace (Z.to_nat (off + p)) with (Z.to_nat p + Z.to_nat off)%nat by lia.
  rewrite <- skipn_skipn. apply firstn_skipn.
Qed.

Lemma roundTrips_app (a : string) (n m : nat) :
  (roundTrips a n ++ roundTrips a m)%list = roundTrips a (n + m).
Proof. induction n; cbn; congruence. Qed.

Lemma remoteCalls_roundTrips (a : string) (n : nat) :
  remoteCalls (roundTrips a n) = n.
Proof. unfold remoteCalls. induction n; cbn in *; congruence. Qed.

End Arithmetic.

Section Pagination.
Import sqlserver SqlserverService.
Context `{Package} `{Cloud}.

Lemma Check_eq (action : string) (w : World) :
  Check action w
  = (Ret tt, {| server := server w;
                trace := trace w ++ [RateLimitCheck action] |}).
Proof. reflexivity. Qed.

(** An acquisition followed by the call it guards. *)
Lemma round_trip {Req P A} (action : string)
    (rpc : Req -> Srv -> reply P * Srv) (request : Req)
    (k : reply P -> M A) (w : World) (r : reply P) (s1 : Srv) :
  rpc request (server w) = (r, s1) ->
  bind (Check action) (fun _ => bind (call action rpc request) k) w
  = k r {| server := s1; trace := trace w ++ roundTrips action 1 |}.
Proof.
  intros E. rewrite (bind_Ret _ _ _ _ _ (Check_eq _ _)).
  unfold bind, call. cbn [server trace]. rewrite E.
  cbn [roundTrips]. now rewrite <- app_assoc.
Qed.

Lemma scanned_step (w : World) (s : Srv) (a : string) (n : nat) :
  server w = s ->
  scanned {| server := s;
             trace := (trace w ++ [RateLimitCheck a]) ++ [RemoteCall a] |} a n
  = scanned w a (S n).
Proof.
  intros <-. unfold scanned; cbn. f_equal. now rewrite <- !app_assoc.
Qed.

Lemma scanned_one (w : World) (a : string) :
  {| server := server w;
     trace := (trace w ++ [RateLimitCheck a]) ++ [RemoteCall a] |}
  = scanned w a 1.
Proof. unfold scanned; cbn. now rewrite <- app_assoc. Qed.

(** The steps shared by the proofs about the three loops: run the
    acquisition and the call, read the page, and split on whether the
    page is full. *)
Ltac scan_step Hsrv IH :=
  match goal with
  | Hp : 1 <= ?p < 2 ^ 63, Ho : 0 <= ?off <= len ?items |- _ =>
      rewrite (bind_Ret _ _ _ _ _ (Check_eq _ _));
      rewrite (bind_Ret _ _ _ _ _ (call_eq _ _ _ _ _ _ (Hsrv off _)));
      cbn [payload server trace];
      rewrite len_page by lia; rewrite int_small by lia;
      destruct (Z.ltb_spec (Z.min p (len items - off)) p) as [Hlt|Hge];
      [ rewrite page_last by lia;
        rewrite Z.div_small by lia; cbn [Z.add Z.to_nat Pos.to_nat Pos.iter_op];
        unfold ret; now rewrite scanned_one
      | assert (Hq : (len items - off) / p
                     = (len items - (off + p)) / p + 1)
          by (replace (len items - off) with (len items - (off + p) + 1 * p)
                by lia; rewrite Z.div_add by lia; reflexivity);
        pose proof (Z.div_pos (len items - (off + p)) p
                      ltac:(lia) ltac:(lia)) ]
  end.

Lemma DescribeSqlserverInstances_loop_scan
    (request : Z -> DescribeDBInstancesRequest)
    (items : list (option DBInstance)) (p : Z) :
  1 <= p < 2 ^ 63 -> len items < 2 ^ 63 ->
  (forall off s,
     sqlserver_DescribeDBInstances (request off) s
     = ((Some (Some (page items off p)), None), s)) ->
  forall (fuel : nat) (off : Z) (acc : list (option DBInstance)) (w : World),
    0 <= off <= len items ->
    (len items - off) / p < Z.of_nat fuel ->
    DescribeSqlserverInstances_loop fuel request p off acc w
    = (Ret ((acc ++ skipn (Z.to_nat off) items)%list, None),
       scanned w "DescribeDBInstances"
         (Z.to_nat ((len items - off) / p + 1))).
Proof.
  intros Hp Hn Hsrv.
  induction fuel as [|fuel IH]; intros off acc w Ho Hfuel.
  - pose proof (Z.div_pos (len items - off) p ltac:(lia) ltac:(lia)). lia.
  - cbn [DescribeSqlserverInstances_loop].
    scan_step Hsrv IH.
    rewrite wrap_int64_small by lia.
    rewrite IH by lia.
    rewrite <- app_assoc, page_next by lia.
    rewrite scanned_step by reflexivity.
    rewrite Hq. do 2 f_equal. lia.
Qed.

Lemma DescribeSqlserverBackups_loop_scan
    (request : Z -> DescribeBackupsRequest) (items : list Backup) (p : Z) :
  1 <= p < 2 ^ 63 -> len items < 2 ^ 63 ->
  (forall off s,
     sqlserver_DescribeBackups (request off) s
     = ((Some (Some (page items off p)), None), s)) ->
  forall (fuel : nat) (off : Z) (acc : list Backup) (w : World),
    0 <= off <= len items ->
    (len items - off) / p < Z.of_nat fuel ->
    DescribeSqlserverBackups_loop fuel request p off acc w
    = (Ret ((acc ++ skipn (Z.to_nat off) items)%list, None),
       scanned w "DescribeBackups" (Z.to_nat ((len items - off) / p + 1))).
Proof.
  intros Hp Hn Hsrv.
  induction fuel as [|fuel IH]; intros off acc w Ho Hfuel.
  - pose proof (Z.div_pos (len items - off) p ltac:(lia) ltac:(lia)). lia.
  - cbn [DescribeSqlserverBackups_loop].
    scan_step Hsrv IH.
    rewrite wrap_int64_small by lia.
    rewrite IH by lia.
    rewrite <- app_assoc, page_next by lia.
    rewrite scanned_step by reflexivity.
    rewrite Hq. do 2 f_equal. lia.
Qed.

Lemma DescribeSqlserverAccounts_loop_scan
    (request : Z -> DescribeAccountsRequest) (items : list AccountDetail)
    (p : Z) :
  1 <= p < 2 ^ 63 -> len items < 2 ^ 63 ->
  (forall off s,
     sqlserver_DescribeAccounts (request off) s
     = ((Some (Some (page items off p)), None), s)) ->
  forall (fuel : nat) (off : Z) (acc : list AccountDetail) (w : World),
    0 <= off <= len items ->
    (len items - off) / p < Z.of_nat fuel ->
    DescribeSqlserverAccounts_loop fuel request p off acc w
    = (Ret ((acc ++ skipn (Z.to_nat off) items)%list, None),
       scanned w "DescribeAccounts" (Z.to_nat ((len items - off) / p + 1))).
Proof.
  intros Hp Hn Hsrv.
  induction fuel as [|fuel IH]; intros off acc w Ho Hfuel.
  - pose proof (Z.div_pos (len items - off) p ltac:(lia) ltac:(lia)). lia.
  - cbn [DescribeSqlserverAccounts_loop].
    scan_step Hsrv IH.
    rewrite wrap_uint64_small by lia.
    rewrite IH by lia.
    rewrite <- app_assoc, page_next by lia.
    rewrite scanned_step by reflexivity.
    rewrite Hq. do 2 f_equal. lia.
Qed.

(** The pagination law on the loops of [DescribeSqlserverInstances],
    [DescribeSqlserverBackups] and [DescribeSqlserverAccounts]: against a
    remote that serves [items] by offset and limit, the scan returns
    [items] and sends [ceil((n+1)/p)] requests when [p] divides [n], and
    [ceil(n/p)] otherwise. *)
Lemma offset_limit_loops_collect (p : Z) (fuel : nat) (w : World) :
  1 <= p < 2 ^ 63 ->
  let trips n :=
    Z.to_nat (if n mod p =? 0 then ceil_div (n + 1) p else ceil_div n p) in
  (forall request items,
     len items < 2 ^ 63 -> len items / p < Z.of_nat fuel ->
     (forall off s,
        sqlserver_DescribeDBInstances (request off) s
        = ((Some (Some (page items off p)), None), s)) ->
     DescribeSqlserverInstances_loop fuel request p 0 [] w
     = (Ret (items, None),
        scanned w "DescribeDBInstances" (trips (len items))))
  /\
  (forall request items,
     len items < 2 ^ 63 -> len items / p < Z.of_nat fuel ->
     (forall off s,
        sqlserver_DescribeBackups (request off) s
        = ((Some (Some (page items off p)), None), s)) ->
     DescribeSqlserverBackups_loop fuel request p 0 [] w
     = (Ret (items, None), scanned w "DescribeBackups" (trips (len items))))
  /\
  (forall request items,
     len items < 2 ^ 63 -> len items / p < Z.of_nat fuel ->
     (forall off s,
        sqlserver_DescribeAccounts (request off) s
        = ((Some (Some (page items off p)), None), s)) ->
     DescribeSqlserverAccounts_loop fuel request p 0 [] w
     = (Ret (items, None), scanned w "DescribeAccounts" (trips (len items)))).
Proof.
  intros Hp trips.
  assert (Ht : forall A (items : list A),
             trips (len items) = Z.to_nat ((len items - 0) / p + 1)).
  { intros A items. unfold trips.
    rewrite <- round_trips_formula by (unfold len; lia).
    now rewrite Z.sub_0_r. }
  repeat split; intros request items Hn Hfuel Hsrv; rewrite Ht.
  - rewrite (DescribeSqlserverInstances_loop_scan request items p)
      by (try assumption; unfold len in *; rewrite ?Z.sub_0_r; lia).
    reflexivity.
  - rewrite (DescribeSqlserverBackups_loop_scan request items p)
      by (try assumption; unfold len in *; rewrite ?Z.sub_0_r; lia).
    reflexivity.
  - rewrite (DescribeSqlserverAccounts_loop_scan request items p)
      by (try assumption; unfold len in *; rewrite ?Z.sub_0_r; lia).
    reflexivity.
Qed.

(** The same on the methods, whose page size is 20. *)
Lemma DescribeSqlserverInstances_collects (fuel : nat)
    (instanceId : string) (projectId : Z) (vpcId subnetId : string)
    (netType : Z) (items : list (option DBInstance)) (w : World) :
  len items < 2 ^ 63 -> len items / 20 < Z.of_nat fuel ->
  (forall off s,
     sqlserver_DescribeDBInstances
       (DescribeSqlserverInstances_request
          instanceId projectId vpcId subnetId netType 20 off) s
     = ((Some (Some (page items off 20)), None), s)) ->
  DescribeSqlserverInstances fuel instanceId projectId vpcId subnetId
    netType w
  = (Ret (items, None),
     scanned w "DescribeDBInstances" (Z.to_nat (len items / 20 + 1))).
Proof.
  intros Hn Hfuel Hsrv. unfold DescribeSqlserverInstances.
  rewrite (DescribeSqlserverInstances_loop_scan _ items 20)
    by (try assumption; unfold len in *; rewrite ?Z.sub_0_r; lia).
  now rewrite Z.sub_0_r.
Qed.

Lemma DescribeSqlserverBackups_collects (fuel : nat)
    (instanceId startTime endTime : string) (items : list Backup)
    (w : World) :
  len items < 2 ^ 63 -> len items / 20 < Z.of_nat fuel ->
  (forall off s,
     sqlserver_DescribeBackups
       {| DescribeBackups_InstanceId := instanceId;
          DescribeBackups_StartTime := startTime;
          DescribeBackups_EndTime := endTime;
          DescribeBackups_Offset := off;
          DescribeBackups_Limit := 20 |} s
     = ((Some (Some (page items off 20)), None), s)) ->
  DescribeSqlserverBackups fuel instanceId startTime endTime w
  = (Ret (items, None),
     scanned w "DescribeBackups" (Z.to_nat (len items / 20 + 1))).
Proof.
  intros Hn Hfuel Hsrv. unfold DescribeSqlserverBackups.
  rewrite (DescribeSqlserverBackups_loop_scan _ items 20)
    by (try assumption; unfold len in *; rewrite ?Z.sub_0_r; lia).
  now rewrite Z.sub_0_r.
Qed.

Lemma DescribeSqlserverAccounts_collects (fuel : nat) (instanceId : string)
    (items : list AccountDetail) (w : World) :
  len items < 2 ^ 63 -> len items / 20 < Z.of_nat fuel ->
  (forall off s,
     sqlserver_DescribeAccounts
       {| DescribeAccounts_InstanceId := instanceId;
          DescribeAccounts_Offset := off;
          DescribeAccounts_Limit := 20 |} s
     = ((Some (Some (page items off 20)), None), s)) ->
  DescribeSqlserverAccounts fuel instanceId w
  = (Ret (items, None),
     scanned w "DescribeAccounts" (Z.to_nat (len items / 20 + 1))).
Proof.
  intros Hn Hfuel Hsrv. unfold DescribeSqlserverAccounts.
  rewrite (DescribeSqlserverAccounts_loop_scan _ items 20)
    by (try assumption; unfold len in *; rewrite ?Z.sub_0_r; lia).
  now rewrite Z.sub_0_r.
Qed.

End Pagination.

(** ** Runs on the concrete environment *)

Section Runs.
Import sqlserver ckafka Sample.

(** C1, the failing run. With a limit of 20, an instance with 25
    databases, served 20 per request inside the one entry of the
    instance: [DescribeDBsOfInstance] compares the number of entries (1)
    with the limit, so it returns after the first request with 20 of the
    25 databases, where the claim asks for all 25 after two requests. *)
Theorem DescribeDBsOfInstance_stops_at_first_page :
  SQLSERVER_DEFAULT_LIMIT = 20 /\
  SqlserverService.DescribeDBsOfInstance 5 "mssql-1"
    (start (instanceStore (manyDBs 25) []))
  = (Ret (firstn 20 (manyDBs 25), None),
     scanned (start (instanceStore (manyDBs 25) [])) "DescribeDBs" 1) /\
  List.length (firstn 20 (manyDBs 25)) = 20%nat /\
  ceil_div 25 20 = 2.
Proof. repeat split. Qed.

(** The two readings of the loop of [DescribeDBsOfInstance] side by
    side: a second entry in a page is rejected, so a page never has more
    than one entry to compare with the limit. *)
Example DescribeDBsOfInstance_rejects_two_entries :
  fst (SqlserverService.DescribeDBsOfInstance 5 "mssql-1"
         (start
            {| instances := []; backups := []; accounts := [];
               databases :=
                 [{| InstanceDBDetail_InstanceId := "mssql-1";
                     DBDetails := manyDBs 1 |};
                  {| InstanceDBDetail_InstanceId := "mssql-1";
                     DBDetails := manyDBs 1 |}];
               flowStatuses := []; deals := []; dealNames := [];
               users := []; faults := [] |}))
  = Ret ([],
         Some (Errorf "[CRITAL]%s api[%s] returned multiple DB lists for one instance"
                      [AStr "logId"; AStr "DescribeDBs"])).
Proof. reflexivity. Qed.

(** A sibling scan on an exactly full last page: 40 backups in pages of
    20 take three requests, the third for an empty page. *)
Example DescribeSqlserverBackups_full_last_page :
  SqlserverService.DescribeSqlserverBackups 5 "mssql-1" "2020" "2021"
    (start (backupStore 40))
  = (Ret (backups (backupStore 40), None),
     scanned (start (backupStore 40)) "DescribeBackups" 3)
  /\ ceil_div (40 + 1) 20 = 3.
Proof. split; reflexivity. Qed.

(** C5, the failing run. The instance exists and [DescribeUser] answers
    with a nil response and a nil error: the closure of
    [DescribeUserByFilter] dereferences the response and the run panics;
    no error is returned. [DescribeAclByFilter] does the same. *)
Theorem ckafka_scans_panic_on_nil_response :
  ckafka_DescribeUser
    {| DescribeUser_InstanceId := "ckafka-1";
       DescribeUser_SearchWord := None;
       DescribeUser_Limit := Some 50;
       DescribeUser_Offset := Some 0 |}
    (instanceStore [] [("DescribeUser", None)])
  = ((None, None), instanceStore [] [("DescribeUser", None)]) /\
  fst (CkafkaService.DescribeUserByFilter 5 [("instance_id", "ckafka-1")]
         (start (instanceStore [] [("DescribeUser", None)])))
  = Panic /\
  fst (CkafkaService.DescribeAclByFilter 5
         [("instance_id", "ckafka-1"); ("resource_type", "GROUP");
          ("resource_name", "g")]
         (start (instanceStore [] [("DescribeACL", None)])))
  = Panic.
Proof. repeat split. Qed.

(** C7, the failing runs. [WaitForTaskFinish] sends its status query
    before it acquires the rate limiter, and [CkafkaService.CreateUser]
    sends its request without acquiring it at all; the scan of
    [DescribeSqlserverInstances] acquires it before every request. *)
Theorem remote_calls_without_acquisition :
  trace (snd (SqlserverService.WaitForTaskFinish 1 (start (flowStore [2; 0]))))
  = [RemoteCall "DescribeFlowStatus"; RateLimitCheck "DescribeFlowStatus";
     RemoteCall "DescribeFlowStatus"; RateLimitCheck "DescribeFlowStatus"] /\
  guarded
    (trace (snd (SqlserverService.WaitForTaskFinish 1
                   (start (flowStore [2; 0])))))
  = false /\
  trace (snd (CkafkaService.CreateUser "ckafka-1" "user" "secret"
                (start emptyStore)))
  = [RemoteCall "CreateUser"] /\
  guarded
    (trace (snd (SqlserverService.DescribeSqlserverInstances 5 "mssql-1" (-1)
                   EmptyString EmptyString 1
                   (start (instanceStore [] [])))))
  = true.
Proof. repeat split. Qed.

(** C8, the failing run. The account and the database exist and
    [ModifyAccountPrivilege] fails with a nil response and an error: the
    nil response is tested first, and the method returns the nil-response
    error instead of the error of the call. *)
Theorem ModifyAccountDBAttachment_masks_error :
  sqlserver_ModifyAccountPrivilege
    {| ModifyAccountPrivilege_InstanceId := "mssql-1";
       ModifyAccountPrivilege_UserName := "app";
       ModifyAccountPrivilege_DBName := "db";
       ModifyAccountPrivilege_Privilege := "ReadWrite" |}
    (instanceStore (manyDBs 1)
       [("ModifyAccountPrivilege",
         Some (SDKError "InternalError" "internal error" "req-1"))])
  = ((None, Some (SDKError "InternalError" "internal error" "req-1")),
     instanceStore (manyDBs 1)
       [("ModifyAccountPrivilege",
         Some (SDKError "InternalError" "internal error" "req-1"))]) /\
  fst (SqlserverService.ModifyAccountDBAttachment 5
         "mssql-1" "app" "db" "ReadWrite"
         (start (instanceStore (manyDBs 1)
                   [("ModifyAccountPrivilege",
                     Some (SDKError "InternalError" "internal error"
                                    "req-1"))])))
  = Ret (Some (Errorf "TencentCloud SDK return nil response, %s"
                      [AStr "ModifyAccountPrivilege"])).
Proof. repeat split. Qed.

End Runs.

(** ** Existence checks *)

Section Existence.
Import sqlserver SqlserverService.
Context `{Package} `{Cloud}.

Lemma DescribeSqlserverInstanceById_has (fuel : nat) (instanceId : string)
    (w w' : World) (instance : option DBInstance) (errRet : option error) :
  DescribeSqlserverInstanceById fuel instanceId w
  = (Ret (instance, true, errRet), w') ->
  exists i, instance = Some i /\
            DBInstance_Status i <> 4 /\
            DBInstance_Status i <> 6 /\
            DBInstance_Status i <> 8.
Proof.
  unfold DescribeSqlserverInstanceById, bind.
  destruct (DescribeSqlserverInstances _ _ _ _ _ _ w)
    as [[[instanceList err]| |] w1]; try discriminate.
  destruct err; [discriminate|].
  destruct instanceList as [|[i|] rest]; try discriminate; unfold ret.
  intros E. injection E as <- Hhas <- <-. exists i.
  apply andb_prop in Hhas as [Hhas H6].
  apply andb_prop in Hhas as [H8 H4].
  apply negb_true_iff, Z.eqb_neq in H8, H4, H6. auto.
Qed.

Lemma DescribeSqlserverInstanceById_absent (fuel : nat) (instanceId : string)
    (w w' : World) (i : DBInstance) (rest : list (option DBInstance)) :
  DescribeSqlserverInstances fuel instanceId (-1) EmptyString EmptyString 1 w
  = (Ret (Some i :: rest, None), w') ->
  DBInstance_Status i = 4 \/ DBInstance_Status i = 6 \/
  DBInstance_Status i = 8 ->
  exists errRet,
    DescribeSqlserverInstanceById fuel instanceId w
    = (Ret (Some i, false, errRet), w').
Proof.
  intros E Hs. unfold DescribeSqlserverInstanceById.
  rewrite (bind_Ret _ _ _ _ _ E). unfold ret. eexists. do 3 f_equal.
  destruct Hs as [-> | [-> | ->]]; reflexivity.
Qed.

Lemma DescribeDBDetailsById_has (fuel : nat) (dbId : string)
    (w w' : World) (dbInfo : option DBDetail) (errRet : option error) :
  DescribeDBDetailsById fuel dbId w = (Ret (dbInfo, true, errRet), w') ->
  exists d, dbInfo = Some d /\
            DBDetail_Name d = nth 1 (Split dbId FILED_SP) EmptyString /\
            DBDetail_Status d <> SQLSERVER_DB_DELETING.
Proof.
  unfold DescribeDBDetailsById.
  destruct (len (Split dbId FILED_SP) <? 2); [discriminate|].
  unfold bind.
  destruct (DescribeDBsOfInstance _ _ w) as [[[l err]| |] w1];
    try discriminate.
  destruct err; [discriminate|].
  destruct (len l =? 0); [discriminate|].
  destruct (find _ l) as [d|] eqn:F; [|discriminate].
  unfold ret. intros E. injection E as <- Hhas <- <-.
  apply find_some in F as [_ F]. apply String.eqb_eq in F.
  apply negb_true_iff, Z.eqb_neq in Hhas. eauto.
Qed.

Lemma DescribeDBDetailsById_deleting (fuel : nat) (dbId : string)
    (w w' : World) (l : list DBDetail) (d : DBDetail) :
  2 <= len (Split dbId FILED_SP) ->
  DescribeDBsOfInstance fuel (nth 0 (Split dbId FILED_SP) EmptyString) w
  = (Ret (l, None), w') ->
  find (fun dbDetail =>
          String.eqb (DBDetail_Name dbDetail)
                     (nth 1 (Split dbId FILED_SP) EmptyString)) l
  = Some d ->
  DBDetail_Status d = SQLSERVER_DB_DELETING ->
  DescribeDBDetailsById fuel dbId w = (Ret (Some d, false, None), w').
Proof.
  intros Hlen E F Hs. unfold DescribeDBDetailsById.
  destruct (Z.ltb_spec (len (Split dbId FILED_SP)) 2); [lia|].
  rewrite (bind_Ret _ _ _ _ _ E).
  destruct l as [|x l]; [discriminate|].
  change (len (x :: l) =? 0) with false. cbn iota.
  rewrite F, Hs, Z.eqb_refl. reflexivity.
Qed.

(** C9. [DescribeSqlserverInstanceById] reports [has] only for an
    instance whose status is none of 4, 6 and 8, and
    [DescribeDBDetailsById] only for a database that is not being
    deleted; a record in one of these statuses is returned with [has]
    false. *)
Theorem existence_checks_hide_terminal_statuses
    (fuel : nat) (id : string) (w w' : World) :
  (forall instance errRet,
     DescribeSqlserverInstanceById fuel id w
     = (Ret (instance, true, errRet), w') ->
     exists i, instance = Some i /\
               DBInstance_Status i <> 4 /\
               DBInstance_Status i <> 6 /\
               DBInstance_Status i <> 8)
  /\
  (forall i rest,
     DescribeSqlserverInstances fuel id (-1) EmptyString EmptyString 1 w
     = (Ret (Some i :: rest, None), w') ->
     DBInstance_Status i = 4 \/ DBInstance_Status i = 6 \/
     DBInstance_Status i = 8 ->
     exists errRet,
       DescribeSqlserverInstanceById fuel id w
       = (Ret (Some i, false, errRet), w'))
  /\
  (forall dbInfo errRet,
     DescribeDBDetailsById fuel id w = (Ret (dbInfo, true, errRet), w') ->
     exists d, dbInfo = Some d /\
               DBDetail_Name d = nth 1 (Split id FILED_SP) EmptyString /\
               DBDetail_Status d <> SQLSERVER_DB_DELETING)
  /\
  (forall l d,
     2 <= len (Split id FILED_SP) ->
     DescribeDBsOfInstance fuel (nth 0 (Split id FILED_SP) EmptyString) w
     = (Ret (l, None), w') ->
     find (fun dbDetail =>
             String.eqb (DBDetail_Name dbDetail)
                        (nth 1 (Split id FILED_SP) EmptyString)) l
     = Some d ->
     DBDetail_Status d = SQLSERVER_DB_DELETING ->
     DescribeDBDetailsById fuel id w = (Ret (Some d, false, None), w')).
Proof.
  repeat split; intros.
  - eapply DescribeSqlserverInstanceById_has; eassumption.
  - eapply DescribeSqlserverInstanceById_absent; eassumption.
  - eapply DescribeDBDetailsById_has; eassumption.
  - eapply DescribeDBDetailsById_deleting; eassumption.
Qed.

End Existence.

Section ExistenceRuns.
Import sqlserver SqlserverService Sample.

Lemma existence_checks_hide_terminal_statuses_witness :
  (exists errRet,
     DescribeSqlserverInstanceById 5 "mssql-1" (start terminatedStore)
     = (Ret (Some {| DBInstance_InstanceId := "mssql-1";
                     DBInstance_Status := 4 |}, false, errRet),
        scanned (start terminatedStore) "DescribeDBInstances" 1))
  /\
  DescribeDBDetailsById 5 "mssql-1#db" (start terminatedStore)
  = (Ret (Some {| DBDetail_Name := "db"; DBDetail_Status := -1;
                  DBDetail_Accounts := [] |}, false, None),
     scanned (start terminatedStore) "DescribeDBs" 1).
Proof.
  split.
  - apply (proj1 (proj2 (existence_checks_hide_terminal_statuses
                           5 "mssql-1" (start terminatedStore)
                           (scanned (start terminatedStore)
                                    "DescribeDBInstances" 1))))
      with (rest := []).
    + reflexivity.
    + left; reflexivity.
  - apply (proj2 (proj2 (proj2 (existence_checks_hide_terminal_statuses
                                  5 "mssql-1#db" (start terminatedStore)
                                  (scanned (start terminatedStore)
                                           "DescribeDBs" 1)))))
      with (l := [{| DBDetail_Name := "db"; DBDetail_Status := -1;
                     DBDetail_Accounts := [] |}]).
    + vm_compute. discriminate.
    + reflexivity.
    + reflexivity.
    + reflexivity.
Defined.

End ExistenceRuns.

(** ** A missing instance is not an error *)

Section NotFound.
Import sqlserver SqlserverService.
Context `{Package} `{Cloud}.

Lemma DescribeSqlserverAccounts_loop_error (fuel : nat)
    (request : Z -> DescribeAccountsRequest) (limit offset : Z)
    (accounts : list AccountDetail) (w : World)
    (response : option (option DescribeAccountsResponse)) (err : error)
    (s1 : Srv) :
  sqlserver_DescribeAccounts (request offset) (server w)
  = ((response, Some err), s1) ->
  DescribeSqlserverAccounts_loop (S fuel) request limit offset accounts w
  = (Ret (accounts, if InstanceNotFound err then None else Some err),
     {| server := s1;
        trace := trace w ++ roundTrips "DescribeAccounts" 1 |}).
Proof.
  intros E. cbn [DescribeSqlserverAccounts_loop].
  rewrite (round_trip _ _ _ _ _ _ _ E).
  destruct err as [Code m r| | |]; try reflexivity.
  cbn. now destruct (String.eqb Code _).
Qed.

Lemma DeleteSqlserverAccount_error (fuel : nat)
    (instanceId userName : string) (w : World)
    (response : option (option DeleteAccountResponse)) (err : error)
    (s1 : Srv) :
  sqlserver_DeleteAccount
    {| DeleteAccount_UserNames := [userName];
       DeleteAccount_InstanceId := instanceId |} (server w)
  = ((response, Some err), s1) ->
  DeleteSqlserverAccount fuel instanceId userName w
  = (Ret (if InstanceNotFound err then None else Some err),
     {| server := s1; trace := trace w ++ roundTrips "DeleteAccount" 1 |}).
Proof.
  intros E. unfold DeleteSqlserverAccount.
  rewrite (round_trip _ _ _ _ _ _ _ E).
  destruct err as [Code m r| | |]; try reflexivity.
  cbn. now destruct (String.eqb Code _).
Qed.

(** C10. When the call fails with an SDK error whose code is
    "ResourceNotFound.InstanceNotFound", [DescribeSqlserverAccounts]
    returns the accounts gathered so far and no error, and
    [DeleteSqlserverAccount] returns no error right after its one
    request, without polling; any other error of the call is returned as
    it is. *)
Theorem missing_instance_is_tolerated (fuel : nat)
    (request : Z -> DescribeAccountsRequest) (limit offset : Z)
    (accounts : list AccountDetail) (instanceId userName : string)
    (w : World) (s1 : Srv) :
  (forall response msg rid,
     sqlserver_DescribeAccounts (request offset) (server w)
     = ((response,
         Some (SDKError "ResourceNotFound.InstanceNotFound" msg rid)), s1) ->
     DescribeSqlserverAccounts_loop (S fuel) request limit offset accounts w
     = (Ret (accounts, None),
        {| server := s1;
           trace := trace w ++ roundTrips "DescribeAccounts" 1 |}))
  /\
  (forall response err,
     InstanceNotFound err = false ->
     sqlserver_DescribeAccounts (request offset) (server w)
     = ((response, Some err), s1) ->
     DescribeSqlserverAccounts_loop (S fuel) request limit offset accounts w
     = (Ret (accounts, Some err),
        {| server := s1;
           trace := trace w ++ roundTrips "DescribeAccounts" 1 |}))
  /\
  (forall response msg rid,
     sqlserver_DeleteAccount
       {| DeleteAccount_UserNames := [userName];
          DeleteAccount_InstanceId := instanceId |} (server w)
     = ((response,
         Some (SDKError "ResourceNotFound.InstanceNotFound" msg rid)), s1) ->
     DeleteSqlserverAccount fuel instanceId userName w
     = (Ret None,
        {| server := s1; trace := trace w ++ roundTrips "DeleteAccount" 1 |}))
  /\
  (forall response err,
     InstanceNotFound err = false ->
     sqlserver_DeleteAccount
       {| DeleteAccount_UserNames := [userName];
          DeleteAccount_InstanceId := instanceId |} (server w)
     = ((response, Some err), s1) ->
     DeleteSqlserverAccount fuel instanceId userName w
     = (Ret (Some err),
        {| server := s1; trace := trace w ++ roundTrips "DeleteAccount" 1 |})).
Proof.
  repeat split.
  - intros response msg rid E.
    now rewrite (DescribeSqlserverAccounts_loop_error _ _ _ _ _ _ _ _ _ E).
  - intros response err Hnf E.
    rewrite (DescribeSqlserverAccounts_loop_error _ _ _ _ _ _ _ _ _ E).
    now rewrite Hnf.
  - intros response msg rid E.
    now rewrite (DeleteSqlserverAccount_error _ _ _ _ _ _ _ E).
  - intros response err Hnf E.
    rewrite (DeleteSqlserverAccount_error _ _ _ _ _ _ _ E).
    now rewrite Hnf.
Qed.

End NotFound.

Section NotFoundRuns.
Import sqlserver SqlserverService Sample.

Lemma missing_instance_is_tolerated_witness :
  DescribeSqlserverAccounts_loop 5
    (fun offset =>
       {| DescribeAccounts_InstanceId := "mssql-1";
          DescribeAccounts_Offset := offset;
          DescribeAccounts_Limit := 20 |})
    20 0 []
    (start (instanceStore []
              [("DescribeAccounts",
                Some (SDKError "ResourceNotFound.InstanceNotFound"
                               "no such instance" "req-1"))]))
  = (Ret ([], None),
     {| server :=
          instanceStore []
            [("DescribeAccounts",
              Some (SDKError "ResourceNotFound.InstanceNotFound"
                             "no such instance" "req-1"))];
        trace := [] ++ roundTrips "DescribeAccounts" 1 |})
  /\
  DeleteSqlserverAccount 5 "mssql-1" "app"
    (start (instanceStore []
              [("DeleteAccount", Some (OtherError "connection reset"))]))
  = (Ret (Some (OtherError "connection reset")),
     {| server :=
          instanceStore []
            [("DeleteAccount", Some (OtherError "connection reset"))];
        trace := [] ++ roundTrips "DeleteAccount" 1 |}).
Proof.
  split.
  - exact (proj1 (missing_instance_is_tolerated 4
                    (fun offset =>
                       {| DescribeAccounts_InstanceId := "mssql-1";
                          DescribeAccounts_Offset := offset;
                          DescribeAccounts_Limit := 20 |})
                    20 0 [] "mssql-1" "app"
                    (start (instanceStore []
                       [("DescribeAccounts",
                         Some (SDKError "ResourceNotFound.InstanceNotFound"
                                        "no such instance" "req-1"))]))
                    (instanceStore []
                       [("DescribeAccounts",
                         Some (SDKError "ResourceNotFound.InstanceNotFound"
                                        "no such instance" "req-1"))]))
                 None "no such instance" "req-1" eq_refl).
  - exact (proj2 (proj2 (proj2 (missing_instance_is_tolerated 5
                    (fun offset =>
                       {| DescribeAccounts_InstanceId := "mssql-1";
                          DescribeAccounts_Offset := offset;
                          DescribeAccounts_Limit := 20 |})
                    20 0 [] "mssql-1" "app"
                    (start (instanceStore []
                       [("DeleteAccount",
                         Some (OtherError "connection reset"))]))
                    (instanceStore []
                       [("DeleteAccount",
                         Some (OtherError "connection reset"))]))))
                 None (OtherError "connection reset") eq_refl eq_refl).
Defined.

End NotFoundRuns.

(** ** Resolving an order to an instance *)

Section Deals.
Import sqlserver SqlserverService.
Context `{Package} `{Cloud}.

Lemma bind_pair_ret {A B} (c : M (A * B)) (w : World) :
  bind c (fun x => match x with (a, b) => ret (a, b) end) w = c w.
Proof. unfold bind, ret. destruct (c w) as [[[a b]| |] w1]; reflexivity. Qed.

Lemma len_not_one {A} (l : list A) :
  List.length l <> 1%nat -> (len l =? 0) = false -> (1 <? len l) = true.
Proof.
  unfold len. intros Hone Hzero. apply Z.eqb_neq in Hzero. apply Z.ltb_lt.
  destruct l as [|x [|y l]]; cbn [List.length] in *; lia.
Qed.

Lemma GetInfoFromDeal_not_one (dealId : string) (w : World)
    (Deals : list DealInfo) (s1 : Srv) :
  sqlserver_DescribeOrders {| DescribeOrders_DealNames := [dealId] |}
    (server w)
  = ((Some (Some Deals), None), s1) ->
  List.length Deals <> 1%nat ->
  exists err,
    GetInfoFromDeal dealId w
    = (Ret (EmptyString, Some err),
       {| server := s1; trace := trace w ++ roundTrips "DescribeOrders" 1 |}).
Proof.
  intros E Hn. unfold GetInfoFromDeal.
  rewrite (round_trip _ _ _ _ _ _ _ E). cbn [payload].
  destruct (len Deals =? 0) eqn:E0; [eexists; reflexivity|].
  rewrite (len_not_one _ Hn E0). eexists; reflexivity.
Qed.

Lemma GetInfoFromDeal_one (dealId : string) (w : World)
    (deal : DealInfo) (instanceId : string) (rest : list string) (s1 : Srv) :
  sqlserver_DescribeOrders {| DescribeOrders_DealNames := [dealId] |}
    (server w)
  = ((Some (Some [deal]), None), s1) ->
  InstanceIdSet deal = instanceId :: rest ->
  GetInfoFromDeal dealId w
  = bind (WaitForTaskFinish (FlowId deal))
         (fun err => ret (instanceId, err))
         {| server := s1; trace := trace w ++ roundTrips "DescribeOrders" 1 |}.
Proof.
  intros E Hi. unfold GetInfoFromDeal.
  rewrite (round_trip _ _ _ _ _ _ _ E). cbn [payload].
  change (len [deal] =? 0) with false.
  change (1 <? len [deal]) with false. cbn iota.
  now rewrite Hi.
Qed.

(** C4. The order lookup and both submissions return an error and the
    empty identifier, right after their one request (nothing is resolved
    or polled), when the response to the request that the method builds
    carries no deal or more than one; with exactly one, a submission
    goes on to the order lookup for that deal, and the lookup waits for
    the flow of the deal and returns its first instance identifier. *)
Theorem exactly_one_deal_is_resolved (w : World) (s1 : Srv) :
  (forall dealId Deals,
     sqlserver_DescribeOrders {| DescribeOrders_DealNames := [dealId] |}
       (server w)
     = ((Some (Some Deals), None), s1) ->
     (List.length Deals <> 1%nat ->
      exists err,
        GetInfoFromDeal dealId w
        = (Ret (EmptyString, Some err),
           {| server := s1;
              trace := trace w ++ roundTrips "DescribeOrders" 1 |}))
     /\
     (forall deal instanceId rest,
        Deals = [deal] -> InstanceIdSet deal = instanceId :: rest ->
        GetInfoFromDeal dealId w
        = bind (WaitForTaskFinish (FlowId deal))
               (fun err => ret (instanceId, err))
               {| server := s1;
                  trace := trace w ++ roundTrips "DescribeOrders" 1 |}))
  /\
  (forall DealNames dbVersion chargeType memory autoRenewFlag projectId
          subnetId vpcId zone storage weekSet startTime timeSpan multiZones
          haType securityGroups,
     sqlserver_CreateDBInstances
       (CreateSqlserverInstance_request dbVersion chargeType memory
          autoRenewFlag projectId subnetId vpcId zone storage weekSet
          startTime timeSpan multiZones haType securityGroups) (server w)
     = ((Some (Some DealNames), None), s1) ->
     (List.length DealNames <> 1%nat ->
      exists err,
        CreateSqlserverInstance dbVersion chargeType memory autoRenewFlag
          projectId subnetId vpcId zone storage weekSet startTime timeSpan
          multiZones haType securityGroups w
        = (Ret (EmptyString, Some err),
           {| server := s1;
              trace := trace w ++ roundTrips "CreateDBInstances" 1 |}))
     /\
     (forall dealId,
        DealNames = [dealId] ->
        CreateSqlserverInstance dbVersion chargeType memory autoRenewFlag
          projectId subnetId vpcId zone storage weekSet startTime timeSpan
          multiZones haType securityGroups w
        = GetInfoFromDeal dealId
            {| server := s1;
               trace := trace w ++ roundTrips "CreateDBInstances" 1 |}))
  /\
  (forall DealNames masterInstanceId subnetId vpcId chargeType memory zone
          storage readonlyGroupType readonlyGroupId forceUpgrade
          securityGroups,
     sqlserver_CreateReadOnlyDBInstances
       (CreateSqlserverReadonlyInstance_request masterInstanceId subnetId
          vpcId chargeType memory zone storage readonlyGroupType
          readonlyGroupId forceUpgrade securityGroups) (server w)
     = ((Some (Some DealNames), None), s1) ->
     (List.length DealNames <> 1%nat ->
      exists err,
        CreateSqlserverReadonlyInstance masterInstanceId subnetId vpcId
          chargeType memory zone storage readonlyGroupType readonlyGroupId
          forceUpgrade securityGroups w
        = (Ret (EmptyString, Some err),
           {| server := s1;
              trace := trace w ++ roundTrips "CreateReadOnlyDBInstances" 1 |}))
     /\
     (forall dealId,
        DealNames = [dealId] ->
        CreateSqlserverReadonlyInstance masterInstanceId subnetId vpcId
          chargeType memory zone storage readonlyGroupType readonlyGroupId
          forceUpgrade securityGroups w
        = GetInfoFromDeal dealId
            {| server := s1;
               trace := trace w ++ roundTrips "CreateReadOnlyDBInstances" 1 |})).
Proof.
  split; [|split].
  - intros dealId Deals E. split.
    + now apply GetInfoFromDeal_not_one.
    + intros deal instanceId rest -> Hi. now apply GetInfoFromDeal_one with rest.
  - intros DealNames dbVersion chargeType memory autoRenewFlag projectId
           subnetId vpcId zone storage weekSet startTime timeSpan multiZones
           haType securityGroups E.
    unfold CreateSqlserverInstance.
    rewrite (round_trip _ _ _ _ _ _ _ E). cbn [payload]. split.
    + intros Hn. destruct (len DealNames =? 0) eqn:E0; [eexists; reflexivity|].
      rewrite (len_not_one _ Hn E0). eexists; reflexivity.
    + intros dealId ->. change (len [dealId] =? 0) with false.
      change (1 <? len [dealId]) with false. cbn iota.
      apply bind_pair_ret.
  - intros DealNames masterInstanceId subnetId vpcId chargeType memory zone
           storage readonlyGroupType readonlyGroupId forceUpgrade
           securityGroups E.
    unfold CreateSqlserverReadonlyInstance.
    rewrite (round_trip _ _ _ _ _ _ _ E). cbn [payload]. split.
    + intros Hn. destruct (len DealNames =? 0) eqn:E0; [eexists; reflexivity|].
      rewrite (len_not_one _ Hn E0). eexists; reflexivity.
    + intros dealId ->. change (len [dealId] =? 0) with false.
      change (1 <? len [dealId]) with false. cbn iota.
      apply bind_pair_ret.
Qed.

End Deals.

Section DealsRuns.
Import sqlserver SqlserverService Sample.

(** The lookup of an order that has no deal, the lookup of an order with
    one deal, a submission answered with no deal name and a submission
    answered with one. *)
Lemma exactly_one_deal_is_resolved_witness :
  (exists err,
     GetInfoFromDeal "deal-1" (start (dealStore [] [] []))
     = (Ret (EmptyString, Some err),
        {| server := dealStore [] [] [];
           trace := [] ++ roundTrips "DescribeOrders" 1 |}))
  /\
  GetInfoFromDeal "deal-1"
    (start (dealStore
              [{| DealName := "deal-1"; InstanceIdSet := ["mssql-1"];
                  FlowId := 7 |}] [] [2; 0]))
  = bind (WaitForTaskFinish 7) (fun err => ret ("mssql-1", err))
      {| server :=
           dealStore
             [{| DealName := "deal-1"; InstanceIdSet := ["mssql-1"];
                 FlowId := 7 |}] [] [2; 0];
         trace := [] ++ roundTrips "DescribeOrders" 1 |}
  /\
  (exists err,
     CreateSqlserverInstance "2016SP1" "POSTPAID_BY_HOUR" 2 0 0
       "subnet-1" "vpc-1" "ap-guangzhou-2" 10 [] EmptyString 0 false
       "DUAL" ["sg-1"; "sg-2"] (start (dealStore [] [] []))
     = (Ret (EmptyString, Some err),
        {| server := dealStore [] [] [];
           trace := [] ++ roundTrips "CreateDBInstances" 1 |}))
  /\
  CreateSqlserverReadonlyInstance "mssql-1" "subnet-1" "vpc-1"
    "POSTPAID_BY_HOUR" 4 "ap-guangzhou-2" 100 1 EmptyString false ["sg-1"]
    (start (dealStore
              [{| DealName := "deal-1"; InstanceIdSet := ["mssqlro-1"];
                  FlowId := 7 |}] ["deal-1"] [0]))
  = GetInfoFromDeal "deal-1"
      {| server :=
           dealStore
             [{| DealName := "deal-1"; InstanceIdSet := ["mssqlro-1"];
                 FlowId := 7 |}] ["deal-1"] [0];
         trace := [] ++ roundTrips "CreateReadOnlyDBInstances" 1 |}.
Proof.
  split; [|split; [|split]].
  - apply (proj1 (proj1 (exactly_one_deal_is_resolved
                           (start (dealStore [] [] [])) (dealStore [] [] []))
                        "deal-1" [] eq_refl)).
    discriminate.
  - exact (proj2 (proj1 (exactly_one_deal_is_resolved
                           (start (dealStore
                              [{| DealName := "deal-1";
                                  InstanceIdSet := ["mssql-1"];
                                  FlowId := 7 |}] [] [2; 0]))
                           (dealStore
                              [{| DealName := "deal-1";
                                  InstanceIdSet := ["mssql-1"];
                                  FlowId := 7 |}] [] [2; 0]))
                        "deal-1" _ eq_refl)
                 _ "mssql-1" [] eq_refl eq_refl).
  - apply (proj1 (proj1 (proj2 (exactly_one_deal_is_resolved
                                  (start (dealStore [] [] []))
                                  (dealStore [] [] [])))
                        [] "2016SP1" "POSTPAID_BY_HOUR" 2 0 0
                        "subnet-1" "vpc-1" "ap-guangzhou-2" 10 [] EmptyString
                        0 false "DUAL" ["sg-1"; "sg-2"] eq_refl)).
    discriminate.
  - exact (proj2 (proj2 (proj2 (exactly_one_deal_is_resolved
                                  (start (dealStore
                                     [{| DealName := "deal-1";
                                         InstanceIdSet := ["mssqlro-1"];
                                         FlowId := 7 |}] ["deal-1"] [0]))
                                  (dealStore
                                     [{| DealName := "deal-1";
                                         InstanceIdSet := ["mssqlro-1"];
                                         FlowId := 7 |}] ["deal-1"] [0])))
                        ["deal-1"] "mssql-1" "subnet-1" "vpc-1"
                        "POSTPAID_BY_HOUR" 4 "ap-guangzhou-2" 100 1
                        EmptyString false ["sg-1"] eq_refl)
                 "deal-1" eq_refl).
Defined.

(** A submission resolved end to end: one deal name, one deal, a flow
    that runs for three polls and then succeeds. *)
Example CreateSqlserverInstance_resolves :
  fst (CreateSqlserverInstance "2016SP1" "POSTPAID_BY_HOUR" 2 0 0
         "subnet-1" "vpc-1" "ap-guangzhou-2" 10 [] EmptyString 0 false
         "DUAL" ["sg-1"; "sg-2"]
         (start (dealStore
                   [{| DealName := "deal-1"; InstanceIdSet := ["mssql-1"];
                       FlowId := 7 |}] ["deal-1"] [2; 2; 2; 0])))
  = Ret ("mssql-1", None)
  /\
  remoteCalls
    (trace (snd (CreateSqlserverInstance "2016SP1" "POSTPAID_BY_HOUR" 2 0 0
         "subnet-1" "vpc-1" "ap-guangzhou-2" 10 [] EmptyString 0 false
         "DUAL" ["sg-1"; "sg-2"]
         (start (dealStore
                   [{| DealName := "deal-1"; InstanceIdSet := ["mssql-1"];
                       FlowId := 7 |}] ["deal-1"] [2; 2; 2; 0])))))
  = 6%nat.
Proof. split; reflexivity. Qed.

End DealsRuns.

(** ** Composite identifiers *)

Section Identifiers.
Import sqlserver ckafka.
Context `{Package} `{Cloud}.

Lemma DescribeDBDetailsById_first_two (fuel : nat) (id id' : string)
    (w : World) :
  2 <= len (Split id FILED_SP) -> 2 <= len (Split id' FILED_SP) ->
  nth 0 (Split id FILED_SP) EmptyString
  = nth 0 (Split id' FILED_SP) EmptyString ->
  nth 1 (Split id FILED_SP) EmptyString
  = nth 1 (Split id' FILED_SP) EmptyString ->
  SqlserverService.DescribeDBDetailsById fuel id w
  = SqlserverService.DescribeDBDetailsById fuel id' w.
Proof.
  intros H2 H2' E0 E1. unfold SqlserverService.DescribeDBDetailsById.
  destruct (Z.ltb_spec (len (Split id FILED_SP)) 2); [lia|].
  destruct (Z.ltb_spec (len (Split id' FILED_SP)) 2); [lia|].
  now rewrite E0, E1.
Qed.

(** What the decoders share. Splitting the join of a non-empty sequence
    of parts free of the one-character delimiter gives the parts back.
    An id of a CKafka user or topic whose split has not exactly 2 parts,
    and an id of a CKafka ACL whose split has not exactly 7, is rejected
    before anything is sent. An id of a SQL Server database is rejected
    when its split has fewer than 2 parts; with 2 parts or more only its
    first two parts are read. *)
Theorem composite_id_decoding (fuel : nat) (w : World) :
  (forall (d : ascii) (parts : list string),
     FILED_SP = String d EmptyString ->
     parts <> [] ->
     Forall (fun p => Contains p FILED_SP = false) parts ->
     Split (Join parts FILED_SP) FILED_SP = parts)
  /\
  (forall id,
     len (Split id FILED_SP) <> 2 ->
     CkafkaService.DescribeUserByUserId id w
     = (Ret (None, false,
             Some (Errorf "id of resource.tencentcloud_ckafka_user is wrong"
                          [])), w)
     /\
     CkafkaService.DescribeTopicById id w
     = (Ret (None, false,
             Some (Errorf "id of resource.tencentcloud_ckafka_topic is wrong"
                          [])), w))
  /\
  (forall id,
     len (Split id FILED_SP) <> 7 ->
     CkafkaService.DescribeAclByAclId fuel id w
     = (Ret (None, false,
             Some (Errorf "id of resource.tencentcloud_ckafka_acl is wrong"
                          [])), w))
  /\
  (forall id,
     len (Split id FILED_SP) < 2 ->
     SqlserverService.DescribeDBDetailsById fuel id w
     = (Ret (None, false,
             Some (Errorf "broken ID of SQLServer DB %s" [AStr id])), w))
  /\
  (forall id id',
     2 <= len (Split id FILED_SP) -> 2 <= len (Split id' FILED_SP) ->
     nth 0 (Split id FILED_SP) EmptyString
     = nth 0 (Split id' FILED_SP) EmptyString ->
     nth 1 (Split id FILED_SP) EmptyString
     = nth 1 (Split id' FILED_SP) EmptyString ->
     SqlserverService.DescribeDBDetailsById fuel id w
     = SqlserverService.DescribeDBDetailsById fuel id' w).
Proof.
  split; [|split; [|split; [|split]]].
  - intros d parts Hd Hne Hall. rewrite Hd in *. now apply Split_Join.
  - intros id Hn. apply Z.eqb_neq in Hn.
    unfold CkafkaService.DescribeUserByUserId, CkafkaService.DescribeTopicById.
    now rewrite Hn.
  - intros id Hn. apply Z.eqb_neq in Hn.
    unfold CkafkaService.DescribeAclByAclId. now rewrite Hn.
  - intros id Hn. apply Z.ltb_lt in Hn.
    unfold SqlserverService.DescribeDBDetailsById. now rewrite Hn.
  - intros. now apply DescribeDBDetailsById_first_two.
Qed.

End Identifiers.

Section IdentifiersRuns.
Import sqlserver ckafka Sample.

(** The join of no part is the empty string, whose split is one empty
    part: a sequence that no decoder of the service is asked for. *)
Example Split_of_the_empty_join :
  FILED_SP = "#" /\ Split (Join [] FILED_SP) FILED_SP = [EmptyString].
Proof. split; reflexivity. Qed.

Lemma composite_id_decoding_witness :
  Split (Join ["mssql-1"; "db"] FILED_SP) FILED_SP = ["mssql-1"; "db"]
  /\
  CkafkaService.DescribeAclByAclId 5 "ckafka-1#ALLOW#user"
    (start emptyStore)
  = (Ret (None, false,
          Some (Errorf "id of resource.tencentcloud_ckafka_acl is wrong" [])),
     start emptyStore)
  /\
  SqlserverService.DescribeDBDetailsById 5 "mssql-1"
    (start emptyStore)
  = (Ret (None, false,
          Some (Errorf "broken ID of SQLServer DB %s" [AStr "mssql-1"])),
     start emptyStore).
Proof.
  split; [|split].
  - apply (proj1 (composite_id_decoding 5 (start emptyStore)) "#"%char).
    + reflexivity.
    + discriminate.
    + repeat constructor.
  - apply (proj1 (proj2 (proj2 (composite_id_decoding 5 (start emptyStore))))).
    vm_compute. discriminate.
  - apply (proj1 (proj2 (proj2 (proj2
             (composite_id_decoding 5 (start emptyStore)))))).
    vm_compute. reflexivity.
Defined.

End IdentifiersRuns.

(** ** Absent responses and empty pages *)

Section Responses.
Import sqlserver ckafka.
Context `{Package} `{Cloud}.

(** One try of the closure of [DescribeDBsOfInstance] that gets an answer
    without error. *)
Lemma DescribeDBs_try (n : nat) (request : DescribeDBsRequest)
    (w : World) (response : option (option DescribeDBsResponse)) (s1 : Srv) :
  sqlserver_DescribeDBs request (server w) = ((response, None), s1) ->
  RetryN n
    (fun response0 : option (option DescribeDBsResponse) =>
       _ <- Check "DescribeDBs" ;;
       ' (result, e) <- call "DescribeDBs" sqlserver_DescribeDBs request ;;
       match e with
       | Some e => ret (Some (retryError e), response0)
       | None => ret (None, result)
       end)
    None w
  = (Ret (None, response),
     {| server := s1; trace := trace w ++ roundTrips "DescribeDBs" 1 |}).
Proof.
  intros E. apply RetryN_done. now rewrite (round_trip _ _ _ _ _ _ _ E).
Qed.

(** In the four scans of [SqlserverService], an answer without error and
    without payload ends the scan with an error, and an empty page ends
    it with what was gathered. *)
Lemma sqlserver_scans_check_the_response (fuel : nat) (limit offset : Z)
    (w : World) (s1 : Srv) :
  0 < int limit ->
  (forall request acc response,
     sqlserver_DescribeDBInstances (request offset) (server w)
     = ((response, None), s1) ->
     (payload response = None ->
      exists err,
        SqlserverService.DescribeSqlserverInstances_loop (S fuel) request
          limit offset acc w
        = (Ret (acc, Some err),
           {| server := s1;
              trace := trace w ++ roundTrips "DescribeDBInstances" 1 |}))
     /\
     (payload response = Some [] ->
      SqlserverService.DescribeSqlserverInstances_loop (S fuel) request
        limit offset acc w
      = (Ret (acc, None),
         {| server := s1;
            trace := trace w ++ roundTrips "DescribeDBInstances" 1 |})))
  /\
  (forall request acc response,
     sqlserver_DescribeBackups (request offset) (server w)
     = ((response, None), s1) ->
     (payload response = None ->
      exists err,
        SqlserverService.DescribeSqlserverBackups_loop (S fuel) request
          limit offset acc w
        = (Ret (acc, Some err),
           {| server := s1;
              trace := trace w ++ roundTrips "DescribeBackups" 1 |}))
     /\
     (payload response = Some [] ->
      SqlserverService.DescribeSqlserverBackups_loop (S fuel) request
        limit offset acc w
      = (Ret (acc, None),
         {| server := s1;
            trace := trace w ++ roundTrips "DescribeBackups" 1 |})))
  /\
  (forall request acc response,
     sqlserver_DescribeAccounts (request offset) (server w)
     = ((response, None), s1) ->
     (payload response = None ->
      exists err,
        SqlserverService.DescribeSqlserverAccounts_loop (S fuel) request
          limit offset acc w
        = (Ret (acc, Some err),
           {| server := s1;
              trace := trace w ++ roundTrips "DescribeAccounts" 1 |}))
     /\
     (payload response = Some [] ->
      SqlserverService.DescribeSqlserverAccounts_loop (S fuel) request
        limit offset acc w
      = (Ret (acc, None),
         {| server := s1;
            trace := trace w ++ roundTrips "DescribeAccounts" 1 |})))
  /\
  (forall request acc response,
     sqlserver_DescribeDBs (request offset) (server w)
     = ((response, None), s1) ->
     (payload response = None ->
      exists err,
        SqlserverService.DescribeDBsOfInstance_loop (S fuel) request
          limit offset acc w
        = (Ret (acc, Some err),
           {| server := s1;
              trace := trace w ++ roundTrips "DescribeDBs" 1 |}))
     /\
     (payload response = Some [] ->
      SqlserverService.DescribeDBsOfInstance_loop (S fuel) request
        limit offset acc w
      = (Ret (acc, None),
         {| server := s1;
            trace := trace w ++ roundTrips "DescribeDBs" 1 |}))).
Proof.
  intros Hl. apply Z.ltb_lt in Hl.
  split; [|split; [|split]]; intros request acc response E;
    (split; intros P).
  - cbn [SqlserverService.DescribeSqlserverInstances_loop].
    rewrite (round_trip _ _ _ _ _ _ _ E), P. eexists; reflexivity.
  - cbn [SqlserverService.DescribeSqlserverInstances_loop].
    rewrite (round_trip _ _ _ _ _ _ _ E), P.
    change (len []) with 0. rewrite Hl, app_nil_r. reflexivity.
  - cbn [SqlserverService.DescribeSqlserverBackups_loop].
    rewrite (round_trip _ _ _ _ _ _ _ E), P. eexists; reflexivity.
  - cbn [SqlserverService.DescribeSqlserverBackups_loop].
    rewrite (round_trip _ _ _ _ _ _ _ E), P.
    change (len []) with 0. rewrite Hl, app_nil_r. reflexivity.
  - cbn [SqlserverService.DescribeSqlserverAccounts_loop].
    rewrite (round_trip _ _ _ _ _ _ _ E), P. eexists; reflexivity.
  - cbn [SqlserverService.DescribeSqlserverAccounts_loop].
    rewrite (round_trip _ _ _ _ _ _ _ E), P.
    change (len []) with 0. rewrite Hl, app_nil_r. reflexivity.
  - cbn [SqlserverService.DescribeDBsOfInstance_loop]. unfold Retry.
    rewrite (bind_Ret _ _ _ _ _ (DescribeDBs_try _ _ _ _ _ E)), P.
    eexists; reflexivity.
  - cbn [SqlserverService.DescribeDBsOfInstance_loop]. unfold Retry.
    rewrite (bind_Ret _ _ _ _ _ (DescribeDBs_try _ _ _ _ _ E)), P.
    reflexivity.
Qed.

(** The scans of [CkafkaService] have no such test: an answer without
    error whose response, payload or result is absent makes the closure
    panic. *)
Lemma ckafka_scans_dereference_the_response (fuel : nat)
    (pageSize offset : Z) (w : World) (s1 : Srv) :
  (forall request acc response,
     ckafka_DescribeUser (request offset) (server w)
     = ((response, None), s1) ->
     (forall Result, payload response <> Some (Some Result)) ->
     CkafkaService.DescribeUserByFilter_loop (S fuel) request pageSize
       offset acc w
     = (Panic,
        {| server := s1; trace := trace w ++ roundTrips "DescribeUser" 1 |}))
  /\
  (forall request acc response,
     ckafka_DescribeACL (request offset) (server w)
     = ((response, None), s1) ->
     (forall Result, payload response <> Some (Some Result)) ->
     CkafkaService.DescribeAclByFilter_loop (S fuel) request pageSize
       offset acc w
     = (Panic,
        {| server := s1; trace := trace w ++ roundTrips "DescribeACL" 1 |})).
Proof.
  split; intros request acc response E Hnil.
  - cbn [CkafkaService.DescribeUserByFilter_loop]. unfold Retry.
    apply bind_Panic, RetryN_panic.
    rewrite (round_trip _ _ _ _ _ _ _ E).
    destruct response as [[[Result|]|]|]; try reflexivity.
    now destruct (Hnil Result).
  - cbn [CkafkaService.DescribeAclByFilter_loop]. unfold Retry.
    apply bind_Panic, RetryN_panic.
    rewrite (round_trip _ _ _ _ _ _ _ E).
    destruct response as [[[Result|]|]|]; try reflexivity.
    now destruct (Hnil Result).
Qed.

(** With a limit above 1, [DescribeDBsOfInstance] never asks for a second
    page: the fuel beyond the first round of the loop is never used. *)
Lemma DescribeDBsOfInstance_loop_single_round (fuel : nat)
    (request : Z -> DescribeDBsRequest) (limit offset : Z)
    (acc : list DBDetail) (w : World) :
  1 < int limit ->
  SqlserverService.DescribeDBsOfInstance_loop (S fuel) request limit offset
    acc w
  = SqlserverService.DescribeDBsOfInstance_loop 1 request limit offset acc w.
Proof.
  intros Hl. cbn [SqlserverService.DescribeDBsOfInstance_loop].
  apply bind_ext. intros [err response] w1.
  destruct err; [reflexivity|].
  destruct (payload response) as [l|]; [|reflexivity].
  destruct (Z.eqb_spec (len l) 0); [reflexivity|].
  destruct (Z.ltb_spec 1 (len l)); [reflexivity|].
  destruct l as [|first l]; [reflexivity|].
  destruct (Z.ltb_spec (len (first :: l)) (int limit)); [reflexivity|].
  unfold len in *. cbn [List.length] in *. lia.
Qed.

End Responses.

(** ** Database ids with more than two parts *)

Section AcceptedIds.
Import sqlserver SqlserverService.
Context `{Package} `{Cloud}.

(** The databases of an instance, as the remote lists them in the one
    entry of that instance. *)
Lemma DescribeDBsOfInstance_one_entry (fuel : nat) (instanceId : string)
    (w : World) (entry : InstanceDBDetail) (s1 : Srv) :
  1 < int SQLSERVER_DEFAULT_LIMIT ->
  sqlserver_DescribeDBs
    {| DescribeDBs_InstanceIdSet :=
         if nonEmpty instanceId then [instanceId] else [];
       DescribeDBs_Offset := SQLSERVER_DEFAULT_OFFSET;
       DescribeDBs_Limit := SQLSERVER_DEFAULT_LIMIT |} (server w)
  = ((Some (Some [entry]), None), s1) ->
  DescribeDBsOfInstance (S fuel) instanceId w
  = (Ret (DBDetails entry, None),
     {| server := s1; trace := trace w ++ roundTrips "DescribeDBs" 1 |}).
Proof.
  intros Hl E. unfold DescribeDBsOfInstance.
  cbn [DescribeDBsOfInstance_loop]. unfold Retry.
  rewrite (bind_Ret _ _ _ _ _ (DescribeDBs_try _ _ _ _ _ E)).
  cbn [payload].
  change (len [entry] =? 0) with false.
  change (1 <? len [entry]) with false. cbv iota zeta. cbn [app].
  destruct (Z.ltb_spec (len [entry]) (int SQLSERVER_DEFAULT_LIMIT))
    as [_|Hge]; [reflexivity|].
  unfold len in Hge. cbn [List.length] in Hge. lia.
Qed.

(** An id is taken for the id of a database as soon as its split has two
    parts: whatever follows the second part, the database named by the
    second part is looked up in the instance named by the first, and is
    reported as found unless it is being deleted. *)
Lemma DescribeDBDetailsById_accepts (fuel : nat) (dbId : string)
    (w : World) (entry : InstanceDBDetail) (d : DBDetail) (s1 : Srv) :
  1 < int SQLSERVER_DEFAULT_LIMIT ->
  2 <= len (Split dbId FILED_SP) ->
  sqlserver_DescribeDBs
    {| DescribeDBs_InstanceIdSet :=
         if nonEmpty (nth 0 (Split dbId FILED_SP) EmptyString)
         then [nth 0 (Split dbId FILED_SP) EmptyString] else [];
       DescribeDBs_Offset := SQLSERVER_DEFAULT_OFFSET;
       DescribeDBs_Limit := SQLSERVER_DEFAULT_LIMIT |} (server w)
  = ((Some (Some [entry]), None), s1) ->
  find (fun dbDetail =>
          String.eqb (DBDetail_Name dbDetail)
                     (nth 1 (Split dbId FILED_SP) EmptyString))
       (DBDetails entry)
  = Some d ->
  DescribeDBDetailsById (S fuel) dbId w
  = (Ret (Some d, negb (DBDetail_Status d =? SQLSERVER_DB_DELETING), None),
     {| server := s1; trace := trace w ++ roundTrips "DescribeDBs" 1 |}).
Proof.
  intros Hl H2 E F. unfold DescribeDBDetailsById.
  destruct (Z.ltb_spec (len (Split dbId FILED_SP)) 2); [lia|].
  cbv zeta.
  rewrite (bind_Ret _ _ _ _ _
             (DescribeDBsOfInstance_one_entry fuel _ w entry s1 Hl E)).
  cbv iota.
  destruct (DBDetails entry) as [|x l]; [discriminate|].
  change (len (x :: l) =? 0) with false. cbv iota.
  now rewrite F.
Qed.

End AcceptedIds.

Section AcceptedIdsRuns.
Import sqlserver ckafka Sample.

(** C3. With the delimiter "#", the id "mssql-1#db#x" splits into 3
    parts, not the 2 of a database id.  [DescribeDBDetailsById] does not
    reject it as malformed: it sends its request and returns the database
    "db" of the instance "mssql-1" as found, exactly as it does for the
    id "mssql-1#db".  The decoders of a user id and of a topic id reject
    an id of the same shape before anything is sent. *)
Theorem DescribeDBDetailsById_accepts_a_third_part :
  FILED_SP = "#" /\
  len (Split "mssql-1#db#x" FILED_SP) = 3 /\
  SqlserverService.DescribeDBDetailsById 5 "mssql-1#db#x"
    (start (instanceStore (manyDBs 1) []))
  = (Ret (nth_error (manyDBs 1) 0, true, None),
     scanned (start (instanceStore (manyDBs 1) [])) "DescribeDBs" 1) /\
  SqlserverService.DescribeDBDetailsById 5 "mssql-1#db#x"
    (start (instanceStore (manyDBs 1) []))
  = SqlserverService.DescribeDBDetailsById 5 "mssql-1#db"
      (start (instanceStore (manyDBs 1) [])) /\
  CkafkaService.DescribeUserByUserId "ckafka-1#app#x"
    (start (instanceStore (manyDBs 1) []))
  = (Ret (None, false,
          Some (Errorf "id of resource.tencentcloud_ckafka_user is wrong"
                       [])),
     start (instanceStore (manyDBs 1) [])) /\
  CkafkaService.DescribeTopicById "ckafka-1#topic#x"
    (start (instanceStore (manyDBs 1) []))
  = (Ret (None, false,
          Some (Errorf "id of resource.tencentcloud_ckafka_topic is wrong"
                       [])),
     start (instanceStore (manyDBs 1) [])).
Proof. repeat split. Qed.

(** The same run, as an instance of the general fact. *)
Example DescribeDBDetailsById_accepts_sample :
  SqlserverService.DescribeDBDetailsById 5 "mssql-1#db#x"
    (start (instanceStore (manyDBs 1) []))
  = (Ret (nth_error (manyDBs 1) 0, true, None),
     {| server := instanceStore (manyDBs 1) [];
        trace := [] ++ roundTrips "DescribeDBs" 1 |}).
Proof.
  exact (@DescribeDBDetailsById_accepts package cloud 4 "mssql-1#db#x"
           (start (instanceStore (manyDBs 1) []))
           {| InstanceDBDetail_InstanceId := "mssql-1";
              DBDetails := manyDBs 1 |}
           {| DBDetail_Name := "db"; DBDetail_Status := 2;
              DBDetail_Accounts :=
                [{| AccountPrivilege_UserName := "user";
                    AccountPrivilege_Privilege := "A" |}] |}
           (instanceStore (manyDBs 1) [])
           ltac:(vm_compute; reflexivity) ltac:(vm_compute; discriminate)
           eq_refl eq_refl).
Qed.

End AcceptedIdsRuns.

(** ** Rate limiting *)

Section RateLimit.
Import sqlserver ckafka.
Context `{Package} `{Cloud}.

Lemma WaitForTaskFinish_func_trace (request : DescribeFlowStatusRequest)
    (w : World) :
  trace (snd (SqlserverService.WaitForTaskFinish_func request tt w))
  = (trace w ++ pollEvents 1)%list.
Proof.
  unfold SqlserverService.WaitForTaskFinish_func, bind, call.
  destruct (sqlserver_DescribeFlowStatus request (server w))
    as [[response err] s1].
  cbn. rewrite <- app_assoc.
  destruct err; [reflexivity|].
  destruct (payload response) as [r|]; [|reflexivity].
  destruct (Status r =? SQLSERVER_TASK_RUNNING); [reflexivity|].
  destruct (Status r =? SQLSERVER_TASK_FAIL); reflexivity.
Qed.

Lemma RetryN_func_trace (request : DescribeFlowStatusRequest) (n : nat) :
  forall w : World,
  exists tr,
    trace (snd (RetryN n (SqlserverService.WaitForTaskFinish_func request)
                  tt w))
    = (trace w ++ pollEvents 1 ++ tr)%list.
Proof.
  induction n as [|n IH]; intros w;
    pose proof (WaitForTaskFinish_func_trace request w) as T;
    cbn [RetryN]; unfold bind at 1;
    destruct (SqlserverService.WaitForTaskFinish_func request tt w)
      as [[[rerr []]| |] w1];
    cbn [snd] in T;
    try (exists []; cbn [snd]; now rewrite app_nil_r);
    destruct rerr as [re|];
    try (exists []; unfold ret; cbn [snd]; now rewrite app_nil_r);
    destruct (Retryable re);
    try (exists []; unfold ret; cbn [snd]; now rewrite app_nil_r).
  destruct (IH w1) as [tr Htr]. exists (pollEvents 1 ++ tr)%list.
  rewrite Htr, T. now rewrite <- app_assoc.
Qed.

(** Whatever the remote answers, the first thing [WaitForTaskFinish] does
    is to send its status query; the acquisition comes after it. *)
Lemma WaitForTaskFinish_calls_before_Check (flowId : Z) (w : World) :
  exists tr,
    trace (snd (SqlserverService.WaitForTaskFinish flowId w))
    = (trace w ++ RemoteCall "DescribeFlowStatus"
                :: RateLimitCheck "DescribeFlowStatus" :: tr)%list.
Proof.
  destruct (RetryN_func_trace {| DescribeFlowStatus_FlowId := flowId |}
              (retries (4 * writeRetryTimeout)) w) as [tr Htr].
  exists tr. unfold SqlserverService.WaitForTaskFinish, Retry, bind.
  destruct (RetryN _ _ tt w) as [[[errRet []]| |] w1]; exact Htr.
Qed.

Lemma guarded_call_first (a : string) (tr : list event) :
  guarded (RemoteCall a :: tr) = false.
Proof. reflexivity. Qed.

Lemma CreateUser_tries_trace (request : CreateUserRequest) (n : nat) :
  forall (v : option (option CreateUserResponse)) (w : World),
  exists m,
    trace (snd (RetryN n
                  (fun _ : option (option CreateUserResponse) =>
                     ' (response, err) <-
                       call "CreateUser" ckafka_CreateUser request ;;
                     match err with
                     | Some err => ret (Some (retryError err), response)
                     | None => ret (None, response)
                     end) v w))
    = (trace w ++ repeat (RemoteCall "CreateUser") (S m))%list.
Proof.
  induction n as [|n IH]; intros v w; cbn [RetryN]; unfold bind, call;
    destruct (ckafka_CreateUser request (server w)) as [[response err] s1];
    destruct err as [err|]; unfold ret; cbn [snd fst];
    try (exists 0%nat; reflexivity);
    destruct (Retryable (retryError err));
    try (exists 0%nat; reflexivity).
  match goal with
  | |- context [RetryN n ?f ?v' ?w'] => destruct (IH v' w') as [m Hm]
  end.
  exists (S m). unfold bind, call, ret in Hm. rewrite Hm.
  cbn [trace]. now rewrite <- app_assoc.
Qed.

(** [CkafkaService.CreateUser] never acquires the rate limiter: all it
    adds to the trace are its requests, at least one. *)
Lemma CreateUser_never_Checks (instanceId user password : string)
    (w : World) :
  exists m,
    trace (snd (CkafkaService.CreateUser instanceId user password w))
    = (trace w ++ repeat (RemoteCall "CreateUser") (S m))%list.
Proof.
  destruct (CreateUser_tries_trace
              {| CreateUser_InstanceId := instanceId;
                 CreateUser_Name := user;
                 CreateUser_Password := password |}
              (retries writeRetryTimeout) None w) as [m Hm].
  exists m. unfold CkafkaService.CreateUser, Retry. unfold bind at 1.
  match goal with
  | |- context [RetryN ?n ?f ?v ?w] =>
      destruct (RetryN n f v w) as [[[err response]| |] w1]
  end; cbn [snd] in *; try exact Hm.
  destruct err; [exact Hm|].
  destruct (payload response) as [Result|]; [|exact Hm].
  destruct (negb (CkafkaService.OperateStatusCheck Result)); exact Hm.
Qed.

End RateLimit.

(** * Further properties of the service layer *)

(** ** Identifiers and the number of delimiters *)

Section DelimiterCount.
Import sqlserver ckafka.
Context `{Package} `{Cloud} {more : MoreCloud} {tables : AclTables}.

Lemma length_splitFrom (d : ascii) (s cur : string) :
  List.length (splitFrom (String d EmptyString) 0 cur s)
  = S (occurrences d s).
Proof.
  revert cur; induction s as [|c s IH]; intros cur; [reflexivity|].
  cbn [splitFrom occurrences]. rewrite HasPrefix_sep.
  destruct (ascii_dec d c); cbn [List.length String.length Nat.sub];
    now rewrite IH.
Qed.

Lemma len_Split (d : ascii) (s : string) :
  len (Split s (String d EmptyString)) = Z.of_nat (S (occurrences d s)).
Proof. unfold len, Split. now rewrite length_splitFrom. Qed.

(** An id has one part more than it has delimiters, so the methods that
    take a composite id send nothing and return their malformed-id error
    by the number of delimiters alone: a database id with no delimiter, a
    user or topic id with any number but one, an ACL id with any number
    but six. *)
Theorem ids_are_judged_by_delimiter_count (d : ascii) (fuel : nat)
    (id : string) (w : World) :
  FILED_SP = String d EmptyString ->
  len (Split id FILED_SP) = Z.of_nat (occurrences d id) + 1
  /\
  (occurrences d id = 0%nat ->
   SqlserverService.DescribeDBDetailsById fuel id w
   = (Ret (None, false,
           Some (Errorf "broken ID of SQLServer DB %s" [AStr id])), w))
  /\
  (occurrences d id <> 1%nat ->
   CkafkaService.DescribeUserByUserId id w
   = (Ret (None, false,
           Some (Errorf "id of resource.tencentcloud_ckafka_user is wrong"
                        [])), w)
   /\
   CkafkaService.DeleteUser id w
   = (Ret (Some (Errorf "id of resource.tencentcloud_ckafka_user is wrong"
                        [])), w)
   /\
   CkafkaService.DescribeTopicById id w
   = (Ret (None, false,
           Some (Errorf "id of resource.tencentcloud_ckafka_topic is wrong"
                        [])), w))
  /\
  (occurrences d id <> 6%nat ->
   CkafkaService.DescribeAclByAclId fuel id w
   = (Ret (None, false,
           Some (Errorf "id of resource.tencentcloud_ckafka_acl is wrong"
                        [])), w)
   /\
   CkafkaService.DeleteAcl id w
   = (Ret (Some (Errorf "id of resource.tencentcloud_ckafka_acl is wrong"
                        [])), w)).
Proof.
  intros Hd. pose proof (len_Split d id) as L. rewrite <- Hd in L.
  split; [lia|]. split; [|split].
  - intros Hnone. unfold SqlserverService.DescribeDBDetailsById.
    destruct (Z.ltb_spec (len (Split id FILED_SP)) 2); [reflexivity|lia].
  - intros Hone.
    unfold CkafkaService.DescribeUserByUserId, CkafkaService.DeleteUser,
      CkafkaService.DescribeTopicById.
    destruct (Z.eqb_spec (len (Split id FILED_SP)) 2); [lia|].
    repeat split.
  - intros Hsix.
    unfold CkafkaService.DescribeAclByAclId, CkafkaService.DeleteAcl.
    destruct (Z.eqb_spec (len (Split id FILED_SP)) 7); [lia|].
    repeat split.
Qed.

End DelimiterCount.

Section DelimiterCountRuns.
Import sqlserver ckafka Sample.

Lemma ids_are_judged_by_delimiter_count_witness :
  len (Split "ckafka-1#topic#x" FILED_SP) = 2 + 1
  /\
  CkafkaService.DescribeTopicById "ckafka-1#topic#x" (start emptyStore)
  = (Ret (None, false,
          Some (Errorf "id of resource.tencentcloud_ckafka_topic is wrong"
                       [])), start emptyStore).
Proof.
  pose proof (ids_are_judged_by_delimiter_count "#"%char 5
                "ckafka-1#topic#x" (start emptyStore) eq_refl) as T.
  split.
  - exact (proj1 T).
  - apply (proj1 (proj2 (proj2 T))). vm_compute. discriminate.
Defined.

End DelimiterCountRuns.

(** ** The wait at its edges *)

Section WaitEdges.
Import sqlserver SqlserverService.
Context `{Package} `{Cloud}.

Lemma WaitForTaskFinish_func_error (flowId : Z) (w : World)
    (response : option (option DescribeFlowStatusResponse))
    (err : error) (s1 : Srv) :
  sqlserver_DescribeFlowStatus
    {| DescribeFlowStatus_FlowId := flowId |} (server w)
  = ((response, Some err), s1) ->
  WaitForTaskFinish_func {| DescribeFlowStatus_FlowId := flowId |} tt w
  = (Ret (Some (NonRetryableError (WithStack err)), tt), polled s1 w 1).
Proof.
  intros E. unfold WaitForTaskFinish_func.
  rewrite (bind_Ret _ _ _ _ _ (call_eq _ _ _ _ _ _ E)).
  unfold polled; cbn. now rewrite <- app_assoc.
Qed.

Lemma WaitForTaskFinish_func_nil (flowId : Z) (w : World)
    (response : option (option DescribeFlowStatusResponse)) (s1 : Srv) :
  sqlserver_DescribeFlowStatus
    {| DescribeFlowStatus_FlowId := flowId |} (server w)
  = ((response, None), s1) ->
  payload response = None ->
  WaitForTaskFinish_func {| DescribeFlowStatus_FlowId := flowId |} tt w
  = (Panic, polled s1 w 1).
Proof.
  intros E P. unfold WaitForTaskFinish_func.
  rewrite (bind_Ret _ _ _ _ _ (call_eq _ _ _ _ _ _ E)).
  unfold polled; cbn. rewrite <- app_assoc. now rewrite P.
Qed.

(** When the flow is still running at the deadline, the wait returns the
    running-status error of its last poll: it has polled once and then as
    many times again as the timeout allows, and no more. *)
Theorem WaitForTaskFinish_deadline (flowId : Z)
    (running : list DescribeFlowStatusResponse)
    (final : DescribeFlowStatusResponse) (w : World) (s' : Srv) :
  Forall (fun r => Status r = SQLSERVER_TASK_RUNNING) (running ++ [final]) ->
  reports flowId (running ++ [final]) (server w) s' ->
  List.length running = retries (4 * writeRetryTimeout) ->
  WaitForTaskFinish flowId w
  = (Ret (Some (WithStack
            (Errorf "SQLSERVER task status is %d(task running), requestId is %s"
                    [AInt (Status final); AStr (RequestId final)]))),
     polled s' w (S (retries (4 * writeRetryTimeout)))).
Proof.
  intros Hall Hrep Hlen.
  apply Forall_app in Hall as [Hrun Hfin].
  inversion Hfin as [|? ? Hf _]; subst.
  apply reports_app in Hrep as (s1 & Hrep & Hlast).
  cbn in Hlast. destruct Hlast as (s2 & E & ->).
  apply WaitForTaskFinish_Retry. rewrite <- Hlen.
  replace (List.length running) with (List.length running + 0)%nat at 1
    by lia.
  rewrite (RetryN_running _ _ Hrun 0%nat w s1 Hrep).
  pose proof (WaitForTaskFinish_func_reads flowId
                (polled s1 w (List.length running)) final s2 E) as P.
  apply Z.eqb_eq in Hf. rewrite Hf in P.
  rewrite polled_polled in P. rewrite Nat.add_1_r in P.
  now apply (RetryN_timeout _ _ _ _ _ _ P).
Qed.

(** A poll whose call fails ends the wait at once with that error, kept
    under [WithStack] and never handed to [retryError]; a poll answered
    with neither an error nor a payload makes the wait panic. *)
Theorem WaitForTaskFinish_failed_poll (flowId : Z) (w : World)
    (response : option (option DescribeFlowStatusResponse)) (s1 : Srv) :
  (forall err,
     sqlserver_DescribeFlowStatus
       {| DescribeFlowStatus_FlowId := flowId |} (server w)
     = ((response, Some err), s1) ->
     WaitForTaskFinish flowId w
     = (Ret (Some (WithStack err)), polled s1 w 1))
  /\
  (sqlserver_DescribeFlowStatus
     {| DescribeFlowStatus_FlowId := flowId |} (server w)
   = ((response, None), s1) ->
   payload response = None ->
   WaitForTaskFinish flowId w = (Panic, polled s1 w 1)).
Proof.
  split.
  - intros err E. apply WaitForTaskFinish_Retry.
    now apply (RetryN_fatal _ _ _ _ _ _ _
                 (WaitForTaskFinish_func_error _ _ _ _ _ E)).
  - intros E Hnil. unfold WaitForTaskFinish, Retry.
    apply bind_Panic, RetryN_panic.
    now apply WaitForTaskFinish_func_nil with response.
Qed.

End WaitEdges.

Section WaitEdgesRuns.
Import sqlserver SqlserverService Sample.

Lemma WaitForTaskFinish_deadline_witness :
  WaitForTaskFinish 1 (start (flowStore (repeat 2 11 ++ [0])))
  = (Ret (Some (WithStack
            (Errorf "SQLSERVER task status is %d(task running), requestId is %s"
                    [AInt 2; AStr "req"]))),
     polled (flowStore [0]) (start (flowStore (repeat 2 11 ++ [0]))) 11).
Proof.
  apply (WaitForTaskFinish_deadline 1
           (repeat (flowResponse 2) 10) (flowResponse 2)
           (start (flowStore (repeat 2 11 ++ [0]))) (flowStore [0])).
  - repeat constructor.
  - cbn. repeat (eexists; split; [reflexivity|]). reflexivity.
  - reflexivity.
Defined.

Lemma WaitForTaskFinish_failed_poll_witness :
  WaitForTaskFinish 1 (start (flowStore []))
  = (Ret (Some (WithStack (OtherError "unknown flow"))),
     polled (flowStore []) (start (flowStore [])) 1).
Proof.
  apply (proj1 (WaitForTaskFinish_failed_poll 1 (start (flowStore []))
                  None (flowStore []))).
  reflexivity.
Defined.

End WaitEdgesRuns.

(** ** Scans against a remote that stays in one state *)

Section ScansAt.
Import sqlserver SqlserverService.
Context `{Package} `{Cloud}.

Lemma scanned_scanned (w : World) (a : string) (n m : nat) :
  scanned (scanned w a n) a m = scanned w a (n + m).
Proof.
  unfold scanned; cbn. f_equal. rewrite <- app_assoc. f_equal.
  apply roundTrips_app.
Qed.

Lemma scanned_0 (w : World) (a : string) : scanned w a 0 = w.
Proof. unfold scanned; cbn. rewrite app_nil_r. now destruct w. Qed.

Lemma scanned_after (w : World) (a : string) (n : nat) :
  scanned {| server := server w; trace := trace w ++ roundTrips a 1 |} a n
  = scanned w a (S n).
Proof.
  change {| server := server w; trace := trace w ++ roundTrips a 1 |}
    with (scanned w a 1).
  now rewrite scanned_scanned.
Qed.

Lemma pages_left (n off p : Z) :
  1 <= p -> 0 <= off -> off + p <= n ->
  (n - off) / p = (n - (off + p)) / p + 1 /\ 0 <= (n - (off + p)) / p.
Proof.
  intros Hp Ho Hn. split.
  - replace (n - off) with (n - (off + p) + 1 * p) by lia.
    now rewrite Z.div_add by lia.
  - apply Z.div_pos; lia.
Qed.

Lemma DescribeSqlserverInstances_loop_scan_at
    (request : Z -> DescribeDBInstancesRequest)
    (items : list (option DBInstance)) (p : Z) (s0 : Srv) :
  1 <= p < 2 ^ 63 -> len items < 2 ^ 63 ->
  (forall off,
     sqlserver_DescribeDBInstances (request off) s0
     = ((Some (Some (page items off p)), None), s0)) ->
  forall (fuel : nat) (off : Z) (acc : list (option DBInstance)) (w : World),
    server w = s0 ->
    0 <= off <= len items ->
    (len items - off) / p < Z.of_nat fuel ->
    DescribeSqlserverInstances_loop fuel request p off acc w
    = (Ret ((acc ++ skipn (Z.to_nat off) items)%list, None),
       scanned w "DescribeDBInstances"
         (Z.to_nat ((len items - off) / p + 1))).
Proof.
  intros Hp Hn Hsrv.
  induction fuel as [|fuel IH]; intros off acc w Hw Ho Hfuel.
  - pose proof (Z.div_pos (len items - off) p ltac:(lia) ltac:(lia)). lia.
  - cbn [DescribeSqlserverInstances_loop].
    pose proof (Hsrv off) as E. rewrite <- Hw in E at 1.
    rewrite (round_trip _ _ _ _ _ _ _ E). cbn [payload].
    rewrite len_page by lia. rewrite int_small by lia.
    destruct (Z.ltb_spec (Z.min p (len items - off)) p) as [Hlt|Hge].
    + rewrite page_last by lia. rewrite Z.div_small by lia.
      unfold ret. now rewrite <- Hw.
    + destruct (pages_left (len items) off p) as [Hq Hq0]; try lia.
      rewrite wrap_int64_small by lia.
      rewrite IH by (cbn [server]; (reflexivity || lia)).
      rewrite <- app_assoc, page_next by lia.
      rewrite <- Hw, scanned_after, Hq. do 2 f_equal. lia.
Qed.

Lemma DescribeSqlserverAccounts_loop_scan_at
    (request : Z -> DescribeAccountsRequest)
    (items : list AccountDetail) (p : Z) (s0 : Srv) :
  1 <= p < 2 ^ 63 -> len items < 2 ^ 63 ->
  (forall off,
     sqlserver_DescribeAccounts (request off) s0
     = ((Some (Some (page items off p)), None), s0)) ->
  forall (fuel : nat) (off : Z) (acc : list AccountDetail) (w : World),
    server w = s0 ->
    0 <= off <= len items ->
    (len items - off) / p < Z.of_nat fuel ->
    DescribeSqlserverAccounts_loop fuel request p off acc w
    = (Ret ((acc ++ skipn (Z.to_nat off) items)%list, None),
       scanned w "DescribeAccounts"
         (Z.to_nat ((len items - off) / p + 1))).
Proof.
  intros Hp Hn Hsrv.
  induction fuel as [|fuel IH]; intros off acc w Hw Ho Hfuel.
  - pose proof (Z.div_pos (len items - off) p ltac:(lia) ltac:(lia)). lia.
  - cbn [DescribeSqlserverAccounts_loop].
    pose proof (Hsrv off) as E. rewrite <- Hw in E at 1.
    rewrite (round_trip _ _ _ _ _ _ _ E). cbn [payload].
    rewrite len_page by lia. rewrite int_small by lia.
    destruct (Z.ltb_spec (Z.min p (len items - off)) p) as [Hlt|Hge].
    + rewrite page_last by lia. rewrite Z.div_small by lia.
      unfold ret. now rewrite <- Hw.
    + destruct (pages_left (len items) off p) as [Hq Hq0]; try lia.
      rewrite wrap_uint64_small by lia.
      rewrite IH by (cbn [server]; (reflexivity || lia)).
      rewrite <- app_assoc, page_next by lia.
      rewrite <- Hw, scanned_after, Hq. do 2 f_equal. lia.
Qed.

End ScansAt.

(** ** Waiting for a status after a change *)

Section StatusPolls.
Import sqlserver v20180328 SqlserverService.
Context `{Package} `{Cloud} {more : MoreCloud}.

(** A closure that keeps reporting the same retryable error is tried
    once and then once more per retry, and its last error is returned. *)
Lemma RetryN_stuck {V} (f : V -> M (option RetryError * V)) (v : V)
    (re : RetryError) (a : string) (k : nat) (s0 : Srv) :
  (forall w, server w = s0 -> f v w = (Ret (Some re, v), scanned w a k)) ->
  Retryable re = true ->
  forall (n : nat) (w : World),
    server w = s0 ->
    RetryN n f v w = (Ret (Some (Err re), v), scanned w a (S n * k)).
Proof.
  intros Hf Hre. induction n as [|n IH]; intros w Hw.
  - rewrite (RetryN_timeout _ _ _ _ _ _ (Hf w Hw) Hre).
    now replace (1 * k)%nat with k by lia.
  - rewrite (RetryN_again _ _ _ _ _ _ _ (Hf w Hw) Hre), IH by exact Hw.
    rewrite scanned_scanned.
    now replace (k + S n * k)%nat with (S (S n) * k)%nat by lia.
Qed.

(** The existence check against a remote that lists exactly [i]. *)
Lemma DescribeSqlserverInstanceById_listed (fuel : nat)
    (instanceId : string) (i : DBInstance) (s0 : Srv) (w : World) :
  (forall off,
     sqlserver_DescribeDBInstances
       (DescribeSqlserverInstances_request
          instanceId (-1) EmptyString EmptyString 1 20 off) s0
     = ((Some (Some (page [Some i] off 20)), None), s0)) ->
  server w = s0 ->
  DescribeSqlserverInstanceById (S fuel) instanceId w
  = (Ret (Some i,
          negb (DBInstance_Status i =? 8) && negb (DBInstance_Status i =? 4)
          && negb (DBInstance_Status i =? 6),
          None),
     scanned w "DescribeDBInstances" 1).
Proof.
  intros Hsrv Hw. unfold DescribeSqlserverInstanceById.
  unfold DescribeSqlserverInstances.
  rewrite (bind_Ret _ _ _ _ _
             (DescribeSqlserverInstances_loop_scan_at _ [Some i] 20 s0
                ltac:(lia) ltac:(cbn; lia) Hsrv (S fuel) 0 [] w Hw
                ltac:(cbn; lia) ltac:(cbn; lia))).
  reflexivity.
Qed.

(** The account lookup against a remote that lists [items]. *)
Lemma DescribeSqlserverAccountById_listed (fuel : nat)
    (instanceId userName : string) (items : list AccountDetail)
    (s0 : Srv) (w : World) :
  len items < 2 ^ 63 -> len items / 20 < Z.of_nat fuel ->
  (forall off,
     sqlserver_DescribeAccounts
       {| DescribeAccounts_InstanceId := instanceId;
          DescribeAccounts_Offset := off;
          DescribeAccounts_Limit := 20 |} s0
     = ((Some (Some (page items off 20)), None), s0)) ->
  server w = s0 ->
  DescribeSqlserverAccountById fuel instanceId userName w
  = (Ret (match find (fun v => String.eqb (AccountDetail_Name v) userName)
                     items with
          | Some v => (Some v, true, None)
          | None => (None, false, None)
          end),
     scanned w "DescribeAccounts" (Z.to_nat (len items / 20 + 1))).
Proof.
  intros Hn Hfuel Hsrv Hw. unfold DescribeSqlserverAccountById.
  unfold DescribeSqlserverAccounts.
  rewrite (bind_Ret _ _ _ _ _
             (DescribeSqlserverAccounts_loop_scan_at _ items 20 s0
                ltac:(lia) Hn Hsrv fuel 0 [] w Hw
                ltac:(unfold len; lia)
                ltac:(now rewrite Z.sub_0_r))).
  rewrite Z.sub_0_r. cbn [app skipn Z.to_nat].
  destruct items as [|x items]; [reflexivity|].
  change (len (x :: items) =? 0) with false. cbn iota.
  now destruct (find _ (x :: items)).
Qed.

(** After a successful [UpgradeDBInstance] call, against a remote that
    lists the instance with a fixed status: the status 9 (expanding) is
    waited on until the timeout and then reported as an error, the
    statuses 4, 6 and 8 count as a missing instance, and every other
    status ends the method with success after one look. *)
Theorem UpgradeSqlserverInstance_by_status (fuel : nat)
    (instanceId : string) (memory storage : Z) (i : DBInstance)
    (w : World) (response : option (option Dropped)) (s1 : Srv) :
  sqlserver_UpgradeDBInstance
    {| UpgradeDBInstance_InstanceId := instanceId;
       UpgradeDBInstance_Memory := memory;
       UpgradeDBInstance_Storage := storage |} (server w)
  = ((response, None), s1) ->
  (forall off,
     sqlserver_DescribeDBInstances
       (DescribeSqlserverInstances_request
          instanceId (-1) EmptyString EmptyString 1 20 off) s1
     = ((Some (Some (page [Some i] off 20)), None), s1)) ->
  let sent :=
    {| server := s1; trace := trace w ++ roundTrips "UpgradeDBInstance" 1 |}
  in
  (DBInstance_Status i = 4 \/ DBInstance_Status i = 6 \/
   DBInstance_Status i = 8 ->
   UpgradeSqlserverInstance (S fuel) instanceId memory storage w
   = (Ret (Some (Errorf "cannot find SQL Server instance %s"
                        [AStr instanceId])),
      scanned sent "DescribeDBInstances" 1))
  /\
  (DBInstance_Status i = 9 ->
   UpgradeSqlserverInstance (S fuel) instanceId memory storage w
   = (Ret (Some (Errorf "expanding , SQL Server instance ID %s, status %d.... "
                        [AStr instanceId; AInt 9])),
      scanned sent "DescribeDBInstances" (S (retries readRetryTimeout))))
  /\
  (DBInstance_Status i <> 4 -> DBInstance_Status i <> 6 ->
   DBInstance_Status i <> 8 -> int (DBInstance_Status i) <> 9 ->
   UpgradeSqlserverInstance (S fuel) instanceId memory storage w
   = (Ret None, scanned sent "DescribeDBInstances" 1)).
Proof.
  intros Hup Hsrv sent.
  pose proof (fun w => DescribeSqlserverInstanceById_listed
                         fuel instanceId i s1 w Hsrv) as Hby.
  split; [|split].
  - intros Hs. unfold UpgradeSqlserverInstance.
    rewrite (round_trip _ _ _ _ _ _ _ Hup). fold sent. unfold Retry.
    match goal with
    | |- context [RetryN ?n ?f tt] =>
        assert (R : RetryN n f tt sent
                    = (Ret (Some (Errorf "cannot find SQL Server instance %s"
                                         [AStr instanceId]), tt),
                       scanned sent "DescribeDBInstances" 1))
    end.
    { apply RetryN_fatal with (re := NonRetryableError _); [|reflexivity].
      rewrite (bind_Ret _ _ _ _ _ (Hby sent eq_refl)).
      destruct Hs as [-> | [-> | ->]]; reflexivity. }
    now rewrite (bind_Ret _ _ _ _ _ R).
  - intros Hs. unfold UpgradeSqlserverInstance.
    rewrite (round_trip _ _ _ _ _ _ _ Hup). fold sent. unfold Retry.
    match goal with
    | |- context [RetryN ?n ?f tt] =>
        assert (R : RetryN n f tt sent
                    = (Ret (Some (Err (RetryableError
                              (Errorf "expanding , SQL Server instance ID %s, status %d.... "
                                      [AStr instanceId; AInt 9]))), tt),
                       scanned sent "DescribeDBInstances" (S n * 1)))
    end.
    { apply RetryN_stuck with (s0 := s1); [|reflexivity|reflexivity].
      intros w0 Hw0. rewrite (bind_Ret _ _ _ _ _ (Hby w0 Hw0)).
      now rewrite Hs. }
    rewrite (bind_Ret _ _ _ _ _ R). unfold ret. cbn [Err RetryableError].
    now rewrite Nat.mul_1_r.
  - intros H4 H6 H8 H9. unfold UpgradeSqlserverInstance.
    rewrite (round_trip _ _ _ _ _ _ _ Hup). fold sent. unfold Retry.
    match goal with
    | |- context [RetryN ?n ?f tt] =>
        assert (R : RetryN n f tt sent
                    = (Ret (None, tt), scanned sent "DescribeDBInstances" 1))
    end.
    { apply RetryN_done.
      rewrite (bind_Ret _ _ _ _ _ (Hby sent eq_refl)).
      apply Z.eqb_neq in H4, H6, H8, H9. now rewrite H4, H6, H8, H9. }
    now rewrite (bind_Ret _ _ _ _ _ R).
Qed.

(** After a successful [ResetAccountPassword] call, against a remote
    that lists the accounts [items]: a missing account is an error, an
    account in status 4 (resetting) is waited on until the timeout and
    then reported as an error, and any other status is a success. *)
Theorem ResetSqlserverAccountPassword_by_status (fuel : nat)
    (instanceId userName password : string) (items : list AccountDetail)
    (w : World) (response : option (option Dropped)) (s1 : Srv) :
  sqlserver_ResetAccountPassword
    {| ResetAccountPassword_InstanceId := instanceId;
       ResetAccountPassword_UserName := userName;
       ResetAccountPassword_Password := password |} (server w)
  = ((response, None), s1) ->
  len items < 2 ^ 63 -> len items / 20 < Z.of_nat fuel ->
  (forall off,
     sqlserver_DescribeAccounts
       {| DescribeAccounts_InstanceId := instanceId;
          DescribeAccounts_Offset := off;
          DescribeAccounts_Limit := 20 |} s1
     = ((Some (Some (page items off 20)), None), s1)) ->
  let sent :=
    {| server := s1;
       trace := trace w ++ roundTrips "ResetAccountPassword" 1 |} in
  let looks := Z.to_nat (len items / 20 + 1) in
  let found :=
    find (fun v => String.eqb (AccountDetail_Name v) userName) items in
  (found = None ->
   ResetSqlserverAccountPassword fuel instanceId userName password w
   = (Ret (Some (Errorf "cannot find SQL Server account %s%s%s"
                        [AStr instanceId; AStr FILED_SP; AStr userName])),
      scanned sent "DescribeAccounts" looks))
  /\
  (forall a,
     found = Some a -> AccountDetail_Status a = 4 ->
     ResetSqlserverAccountPassword fuel instanceId userName password w
     = (Ret (Some (Errorf "resetting , SQL Server instance ID %s, name %s, status %d.... "
                          [AStr instanceId; AStr userName; AInt 4])),
        scanned sent "DescribeAccounts"
          (S (retries readRetryTimeout) * looks)))
  /\
  (forall a,
     found = Some a -> int (AccountDetail_Status a) <> 4 ->
     ResetSqlserverAccountPassword fuel instanceId userName password w
     = (Ret None, scanned sent "DescribeAccounts" looks)).
Proof.
  intros Hcall Hn Hfuel Hsrv sent looks found.
  pose proof (fun w => DescribeSqlserverAccountById_listed
                         fuel instanceId userName items s1 w Hn Hfuel Hsrv)
    as Hby.
  fold found looks in Hby.
  split; [|split].
  - intros Hf. unfold ResetSqlserverAccountPassword.
    rewrite (round_trip _ _ _ _ _ _ _ Hcall). fold sent. unfold Retry.
    match goal with
    | |- context [RetryN ?n ?f tt] =>
        assert (R : RetryN n f tt sent
                    = (Ret (Some (Errorf "cannot find SQL Server account %s%s%s"
                                         [AStr instanceId; AStr FILED_SP;
                                          AStr userName]), tt),
                       scanned sent "DescribeAccounts" looks))
    end.
    { apply RetryN_fatal with (re := NonRetryableError _); [|reflexivity].
      rewrite (bind_Ret _ _ _ _ _ (Hby sent eq_refl)). now rewrite Hf. }
    now rewrite (bind_Ret _ _ _ _ _ R).
  - intros a Hf Hs. unfold ResetSqlserverAccountPassword.
    rewrite (round_trip _ _ _ _ _ _ _ Hcall). fold sent. unfold Retry.
    match goal with
    | |- context [RetryN ?n ?f tt] =>
        assert (R : RetryN n f tt sent
                    = (Ret (Some (Err (RetryableError
                              (Errorf "resetting , SQL Server instance ID %s, name %s, status %d.... "
                                      [AStr instanceId; AStr userName;
                                       AInt 4]))), tt),
                       scanned sent "DescribeAccounts" (S n * looks)))
    end.
    { apply RetryN_stuck with (s0 := s1); [|reflexivity|reflexivity].
      intros w0 Hw0. rewrite (bind_Ret _ _ _ _ _ (Hby w0 Hw0)).
      now rewrite Hf, Hs. }
    now rewrite (bind_Ret _ _ _ _ _ R).
  - intros a Hf Hs. unfold ResetSqlserverAccountPassword.
    rewrite (round_trip _ _ _ _ _ _ _ Hcall). fold sent. unfold Retry.
    match goal with
    | |- context [RetryN ?n ?f tt] =>
        assert (R : RetryN n f tt sent
                    = (Ret (None, tt), scanned sent "DescribeAccounts" looks))
    end.
    { apply RetryN_done.
      rewrite (bind_Ret _ _ _ _ _ (Hby sent eq_refl)). rewrite Hf.
      apply Z.eqb_neq in Hs. now rewrite Hs. }
    now rewrite (bind_Ret _ _ _ _ _ R).
Qed.

(** After a successful [DeleteAccount] call, against a remote that lists
    the accounts [items]: the deletion is over when the account is no
    longer listed; an account still listed in status -1 (deleting) is
    waited on until the timeout and then reported as an error, and an
    account listed in any other status is an error at once. *)
Theorem DeleteSqlserverAccount_by_listing (fuel : nat)
    (instanceId userName : string) (items : list AccountDetail)
    (w : World) (response : option (option DeleteAccountResponse))
    (s1 : Srv) :
  sqlserver_DeleteAccount
    {| DeleteAccount_UserNames := [userName];
       DeleteAccount_InstanceId := instanceId |} (server w)
  = ((response, None), s1) ->
  len items < 2 ^ 63 -> len items / 20 < Z.of_nat fuel ->
  (forall off,
     sqlserver_DescribeAccounts
       {| DescribeAccounts_InstanceId := instanceId;
          DescribeAccounts_Offset := off;
          DescribeAccounts_Limit := 20 |} s1
     = ((Some (Some (page items off 20)), None), s1)) ->
  let sent :=
    {| server := s1; trace := trace w ++ roundTrips "DeleteAccount" 1 |} in
  let looks := Z.to_nat (len items / 20 + 1) in
  let found :=
    find (fun v => String.eqb (AccountDetail_Name v) userName) items in
  (found = None ->
   DeleteSqlserverAccount fuel instanceId userName w
   = (Ret None, scanned sent "DescribeAccounts" looks))
  /\
  (forall a,
     found = Some a -> AccountDetail_Status a = -1 ->
     DeleteSqlserverAccount fuel instanceId userName w
     = (Ret (Some (Errorf "deleting , SQL Server instance ID %s, name %s, status %d.... "
                          [AStr instanceId; AStr userName; AInt (-1)])),
        scanned sent "DescribeAccounts"
          (S (retries readRetryTimeout) * looks)))
  /\
  (forall a,
     found = Some a -> int (AccountDetail_Status a) <> -1 ->
     DeleteSqlserverAccount fuel instanceId userName w
     = (Ret (Some (Errorf "invalid, SQL Server instance ID %s, name %s, status %d..."
                          [AStr instanceId; AStr userName;
                           AInt (AccountDetail_Status a)])),
        scanned sent "DescribeAccounts" looks)).
Proof.
  intros Hcall Hn Hfuel Hsrv sent looks found.
  pose proof (fun w => DescribeSqlserverAccountById_listed
                         fuel instanceId userName items s1 w Hn Hfuel Hsrv)
    as Hby.
  fold found looks in Hby.
  split; [|split].
  - intros Hf. unfold DeleteSqlserverAccount.
    rewrite (round_trip _ _ _ _ _ _ _ Hcall). fold sent. unfold Retry.
    match goal with
    | |- context [RetryN ?n ?f tt] =>
        assert (R : RetryN n f tt sent
                    = (Ret (None, tt), scanned sent "DescribeAccounts" looks))
    end.
    { apply RetryN_done.
      rewrite (bind_Ret _ _ _ _ _ (Hby sent eq_refl)). now rewrite Hf. }
    now rewrite (bind_Ret _ _ _ _ _ R).
  - intros a Hf Hs. unfold DeleteSqlserverAccount.
    rewrite (round_trip _ _ _ _ _ _ _ Hcall). fold sent. unfold Retry.
    match goal with
    | |- context [RetryN ?n ?f tt] =>
        assert (R : RetryN n f tt sent
                    = (Ret (Some (Err (RetryableError
                              (Errorf "deleting , SQL Server instance ID %s, name %s, status %d.... "
                                      [AStr instanceId; AStr userName;
                                       AInt (-1)]))), tt),
                       scanned sent "DescribeAccounts" (S n * looks)))
    end.
    { apply RetryN_stuck with (s0 := s1); [|reflexivity|reflexivity].
      intros w0 Hw0. rewrite (bind_Ret _ _ _ _ _ (Hby w0 Hw0)).
      now rewrite Hf, Hs. }
    now rewrite (bind_Ret _ _ _ _ _ R).
  - intros a Hf Hs. unfold DeleteSqlserverAccount.
    rewrite (round_trip _ _ _ _ _ _ _ Hcall). fold sent. unfold Retry.
    match goal with
    | |- context [RetryN ?n ?f tt] =>
        assert (R : RetryN n f tt sent
                    = (Ret (Some (Errorf "invalid, SQL Server instance ID %s, name %s, status %d..."
                                         [AStr instanceId; AStr userName;
                                          AInt (AccountDetail_Status a)]),
                            tt),
                       scanned sent "DescribeAccounts" looks))
    end.
    { apply RetryN_fatal with (re := NonRetryableError _); [|reflexivity].
      rewrite (bind_Ret _ _ _ _ _ (Hby sent eq_refl)). rewrite Hf.
      apply Z.eqb_neq in Hs. now rewrite Hs. }
    now rewrite (bind_Ret _ _ _ _ _ R).
Qed.

End StatusPolls.

Section StatusPollsRuns.
Import sqlserver v20180328 SqlserverService Sample.

Lemma UpgradeSqlserverInstance_by_status_witness :
  UpgradeSqlserverInstance 5 "mssql-1" 4 20 (start (instanceStore [] []))
  = (Ret None,
     scanned {| server := instanceStore [] [];
                trace := [] ++ roundTrips "UpgradeDBInstance" 1 |}
             "DescribeDBInstances" 1).
Proof.
  pose proof (UpgradeSqlserverInstance_by_status 4 "mssql-1" 4 20
                {| DBInstance_InstanceId := "mssql-1";
                   DBInstance_Status := 2 |}
                (start (instanceStore [] [])) (Some (Some tt))
                (instanceStore [] []) eq_refl (fun off => eq_refl)) as T.
  cbv zeta in T. apply (proj2 (proj2 T)); vm_compute; discriminate.
Defined.

Lemma ResetSqlserverAccountPassword_by_status_witness :
  ResetSqlserverAccountPassword 5 "mssql-1" "ghost" "secret"
    (start (instanceStore [] []))
  = (Ret (Some (Errorf "cannot find SQL Server account %s%s%s"
                       [AStr "mssql-1"; AStr "#"; AStr "ghost"])),
     scanned {| server := instanceStore [] [];
                trace := [] ++ roundTrips "ResetAccountPassword" 1 |}
             "DescribeAccounts" 1)
  /\
  ResetSqlserverAccountPassword 5 "mssql-1" "app" "secret"
    (start (instanceStore [] []))
  = (Ret None,
     scanned {| server := instanceStore [] [];
                trace := [] ++ roundTrips "ResetAccountPassword" 1 |}
             "DescribeAccounts" 1).
Proof.
  split.
  - pose proof (ResetSqlserverAccountPassword_by_status 5
                  "mssql-1" "ghost" "secret"
                  (accounts (instanceStore [] []))
                  (start (instanceStore [] [])) (Some (Some tt))
                  (instanceStore [] []) eq_refl
                  ltac:(vm_compute; reflexivity)
                  ltac:(vm_compute; reflexivity)
                  (fun off => eq_refl)) as T.
    cbv zeta in T. apply (proj1 T). reflexivity.
  - pose proof (ResetSqlserverAccountPassword_by_status 5
                  "mssql-1" "app" "secret"
                  (accounts (instanceStore [] []))
                  (start (instanceStore [] [])) (Some (Some tt))
                  (instanceStore [] []) eq_refl
                  ltac:(vm_compute; reflexivity)
                  ltac:(vm_compute; reflexivity)
                  (fun off => eq_refl)) as T.
    cbv zeta in T.
    apply (proj2 (proj2 T)
             {| AccountDetail_Name := "app"; AccountDetail_Status := 2;
                AccountDetail_Dbs := [] |}).
    + reflexivity.
    + vm_compute. discriminate.
Defined.

Lemma DeleteSqlserverAccount_by_listing_witness :
  DeleteSqlserverAccount 5 "mssql-1" "ghost" (start (instanceStore [] []))
  = (Ret None,
     scanned {| server := instanceStore [] [];
                trace := [] ++ roundTrips "DeleteAccount" 1 |}
             "DescribeAccounts" 1)
  /\
  DeleteSqlserverAccount 5 "mssql-1" "app" (start (instanceStore [] []))
  = (Ret (Some (Errorf "invalid, SQL Server instance ID %s, name %s, status %d..."
                       [AStr "mssql-1"; AStr "app"; AInt 2])),
     scanned {| server := instanceStore [] [];
                trace := [] ++ roundTrips "DeleteAccount" 1 |}
             "DescribeAccounts" 1).
Proof.
  split.
  - pose proof (DeleteSqlserverAccount_by_listing 5 "mssql-1" "ghost"
                  (accounts (instanceStore [] []))
                  (start (instanceStore [] [])) (Some (Some 1))
                  (instanceStore [] []) eq_refl
                  ltac:(vm_compute; reflexivity)
                  ltac:(vm_compute; reflexivity)
                  (fun off => eq_refl)) as T.
    cbv zeta in T. apply (proj1 T). reflexivity.
  - pose proof (DeleteSqlserverAccount_by_listing 5 "mssql-1" "app"
                  (accounts (instanceStore [] []))
                  (start (instanceStore [] [])) (Some (Some 1))
                  (instanceStore [] []) eq_refl
                  ltac:(vm_compute; reflexivity)
                  ltac:(vm_compute; reflexivity)
                  (fun off => eq_refl)) as T.
    cbv zeta in T.
    apply (proj2 (proj2 T)
             {| AccountDetail_Name := "app"; AccountDetail_Status := 2;
                AccountDetail_Dbs := [] |}).
    + reflexivity.
    + vm_compute. discriminate.
Defined.

End StatusPollsRuns.

(** ** What a scan sends, whatever the remote does *)

Section ScanTraces.
Import sqlserver SqlserverService.
Context `{Package} `{Cloud}.

(** The shared step: one more iteration adds one round trip in front of
    what the rest of the scan adds. *)
Ltac one_trip :=
  exists 1%nat; split;
  [lia|cbn [roundTrips]; rewrite <- ?app_assoc; reflexivity].

Ltac more_trips IH :=
  match goal with
  | |- context [trace (snd (?loop ?fuel ?request ?limit ?off ?acc ?w0))] =>
      destruct (IH request limit off acc w0) as (k & Hk & Htr);
      exists (S k); split; [lia|];
      rewrite Htr; cbn [trace roundTrips]; rewrite <- !app_assoc;
      reflexivity
  end.

Ltac trace_step IH :=
  match goal with
  | |- context [call ?a ?rpc ?req] =>
      rewrite (bind_Ret _ _ _ _ _ (Check_eq _ _)); unfold bind, call;
      cbn [server trace];
      destruct (rpc req _) as [[response [err|]] s1];
      [try (destruct (asSDKError err) as [Code ok];
            match goal with
            | |- context [if ?c then _ else _] => destruct c
            end);
       unfold ret; cbn [snd trace]; one_trip|];
      destruct (payload response) as [items|];
      [|unfold ret; cbn [snd trace]; one_trip];
      cbv zeta;
      match goal with
      | |- context [if ?c then _ else _] => destruct c
      end;
      [unfold ret; cbn [snd trace]; one_trip|more_trips IH]
  end.

Lemma DescribeSqlserverInstances_loop_trace (fuel : nat) :
  forall request limit offset acc (w : World),
    exists k, (k <= fuel)%nat /\
      trace (snd (DescribeSqlserverInstances_loop fuel request limit offset
                    acc w))
      = (trace w ++ roundTrips "DescribeDBInstances" k)%list.
Proof.
  induction fuel as [|fuel IH]; intros request limit offset acc w;
    [exists 0%nat; split; [lia|cbn; now rewrite app_nil_r]|].
  cbn [DescribeSqlserverInstances_loop]. trace_step IH.
Qed.

Lemma DescribeSqlserverBackups_loop_trace (fuel : nat) :
  forall request limit offset acc (w : World),
    exists k, (k <= fuel)%nat /\
      trace (snd (DescribeSqlserverBackups_loop fuel request limit offset
                    acc w))
      = (trace w ++ roundTrips "DescribeBackups" k)%list.
Proof.
  induction fuel as [|fuel IH]; intros request limit offset acc w;
    [exists 0%nat; split; [lia|cbn; now rewrite app_nil_r]|].
  cbn [DescribeSqlserverBackups_loop]. trace_step IH.
Qed.

Lemma DescribeSqlserverAccounts_loop_trace (fuel : nat) :
  forall request limit offset acc (w : World),
    exists k, (k <= fuel)%nat /\
      trace (snd (DescribeSqlserverAccounts_loop fuel request limit offset
                    acc w))
      = (trace w ++ roundTrips "DescribeAccounts" k)%list.
Proof.
  induction fuel as [|fuel IH]; intros request limit offset acc w;
    [exists 0%nat; split; [lia|cbn; now rewrite app_nil_r]|].
  cbn [DescribeSqlserverAccounts_loop]. trace_step IH.
Qed.

(** Whatever the remote answers, the three scans acquire the rate
    limiter right before each request and send at most one request per
    round of the loop: what they add to the trace is a sequence of round
    trips. *)
Theorem sqlserver_scans_are_rate_limited (fuel : nat) (limit offset : Z)
    (w : World) :
  (forall request acc,
     exists k, (k <= fuel)%nat /\
       trace (snd (DescribeSqlserverInstances_loop fuel request limit offset
                     acc w))
       = (trace w ++ roundTrips "DescribeDBInstances" k)%list)
  /\
  (forall request acc,
     exists k, (k <= fuel)%nat /\
       trace (snd (DescribeSqlserverBackups_loop fuel request limit offset
                     acc w))
       = (trace w ++ roundTrips "DescribeBackups" k)%list)
  /\
  (forall request acc,
     exists k, (k <= fuel)%nat /\
       trace (snd (DescribeSqlserverAccounts_loop fuel request limit offset
                     acc w))
       = (trace w ++ roundTrips "DescribeAccounts" k)%list).
Proof.
  split; [|split]; intros request acc.
  - apply DescribeSqlserverInstances_loop_trace.
  - apply DescribeSqlserverBackups_loop_trace.
  - apply DescribeSqlserverAccounts_loop_trace.
Qed.

(** A closure that makes one round trip at each try: [resource.Retry]
    makes at least one and at most one a try. *)
Lemma RetryN_round_trips {V} (a : string)
    (f : V -> M (option RetryError * V)) :
  (forall v w, trace (snd (f v w)) = (trace w ++ roundTrips a 1)%list) ->
  forall n v w,
    exists k, (1 <= k <= S n)%nat /\
      trace (snd (RetryN n f v w)) = (trace w ++ roundTrips a k)%list.
Proof.
  intros Hf. induction n as [|n IH]; intros v w.
  - cbn [RetryN]. unfold bind. pose proof (Hf v w) as T.
    destruct (f v w) as [[[rerr v']| |] w1]; cbn [snd] in *;
      try (exists 1%nat; split; [lia|exact T]).
    destruct rerr as [re|]; [destruct (Retryable re)|];
      unfold ret; cbn [snd]; exists 1%nat; (split; [lia|exact T]).
  - cbn [RetryN]. unfold bind. pose proof (Hf v w) as T.
    destruct (f v w) as [[[rerr v']| |] w1]; cbn [snd] in *;
      try (exists 1%nat; split; [lia|exact T]).
    destruct rerr as [re|]; [destruct (Retryable re)|];
      unfold ret; cbn [snd]; try (exists 1%nat; (split; [lia|exact T])).
    destruct (IH v' w1) as (k & Hk & Htr).
    exists (S k). split; [lia|].
    rewrite Htr, T, <- app_assoc. f_equal.
Qed.

(** One try of the closure of [DescribeDBsOfInstance]. *)
Lemma DescribeDBs_try_trace (request : DescribeDBsRequest)
    (v : option (option DescribeDBsResponse)) (w : World) :
  trace (snd ((_ <- Check "DescribeDBs" ;;
               ' (result, e) <-
                 call "DescribeDBs" sqlserver_DescribeDBs request ;;
               match e with
               | Some e => ret (Some (retryError e), v)
               | None => ret (None, result)
               end) w))
  = (trace w ++ roundTrips "DescribeDBs" 1)%list.
Proof.
  rewrite (bind_Ret _ _ _ _ _ (Check_eq _ _)). unfold bind, call.
  cbn [server trace].
  destruct (sqlserver_DescribeDBs request _) as [[response [e|]] s1];
    unfold ret; cbn [snd trace roundTrips]; now rewrite <- app_assoc.
Qed.

Lemma DescribeDBsOfInstance_loop_trace (fuel : nat) :
  forall request limit offset acc (w : World),
    exists k,
      trace (snd (DescribeDBsOfInstance_loop fuel request limit offset
                    acc w))
      = (trace w ++ roundTrips "DescribeDBs" k)%list.
Proof.
  induction fuel as [|fuel IH]; intros request limit offset acc w;
    [exists 0%nat; cbn; now rewrite app_nil_r|].
  cbn [DescribeDBsOfInstance_loop]. unfold Retry, bind at 1.
  match goal with
  | |- context [RetryN ?n ?f None w] =>
      destruct (RetryN_round_trips "DescribeDBs" f
                  (fun v w0 => DescribeDBs_try_trace (request offset) v w0)
                  n None w) as (k & _ & Htr);
      destruct (RetryN n f None w) as [[[err response]| |] w1]
  end; cbn [snd] in *; try (exists k; exact Htr).
  destruct err as [err|]; [exists k; exact Htr|].
  destruct (payload response) as [l|]; [|exists k; exact Htr].
  destruct (len l =? 0); [exists k; exact Htr|].
  destruct (1 <? len l); [exists k; exact Htr|].
  destruct l as [|first l]; [exists k; exact Htr|].
  cbv zeta.
  destruct (len (first :: l) <? int limit); [exists k; exact Htr|].
  match goal with
  | |- context [DescribeDBsOfInstance_loop fuel ?r ?li ?o ?ac w1] =>
      destruct (IH r li o ac w1) as (k' & Htr')
  end.
  exists (k + k')%nat.
  now rewrite Htr', Htr, <- app_assoc, roundTrips_app.
Qed.

End ScanTraces.

(** ** Scans against full pages *)

Section FullPages.
Import sqlserver SqlserverService.
Context `{Package} `{Cloud}.

(** The loops of the three scans have one way out besides an error and a
    nil response: a page shorter than [limit].  Against a remote whose
    pages are never short, for instance one that ignores [Offset], the
    scan does not return: whatever fuel it is given is used up, one round
    trip a round. *)
Theorem scans_do_not_return_while_pages_are_full (limit : Z) (s0 : Srv) :
  (forall request (pg : Z -> list (option DBInstance)),
     (forall off,
        sqlserver_DescribeDBInstances (request off) s0
        = ((Some (Some (pg off)), None), s0)) ->
     (forall off, int limit <= len (pg off)) ->
     forall fuel offset acc w, server w = s0 ->
       DescribeSqlserverInstances_loop fuel request limit offset acc w
       = (OutOfFuel, scanned w "DescribeDBInstances" fuel))
  /\
  (forall request (pg : Z -> list Backup),
     (forall off,
        sqlserver_DescribeBackups (request off) s0
        = ((Some (Some (pg off)), None), s0)) ->
     (forall off, int limit <= len (pg off)) ->
     forall fuel offset acc w, server w = s0 ->
       DescribeSqlserverBackups_loop fuel request limit offset acc w
       = (OutOfFuel, scanned w "DescribeBackups" fuel))
  /\
  (forall request (pg : Z -> list AccountDetail),
     (forall off,
        sqlserver_DescribeAccounts (request off) s0
        = ((Some (Some (pg off)), None), s0)) ->
     (forall off, int limit <= len (pg off)) ->
     forall fuel offset acc w, server w = s0 ->
       DescribeSqlserverAccounts_loop fuel request limit offset acc w
       = (OutOfFuel, scanned w "DescribeAccounts" fuel)).
Proof.
  split; [|split]; intros request pg Hsrv Hfull;
    induction fuel as [|fuel IH]; intros offset acc w Hw;
    try (unfold outOfFuel; cbn; now rewrite scanned_0).
  - cbn [DescribeSqlserverInstances_loop].
    pose proof (Hsrv offset) as E. rewrite <- Hw in E at 1.
    rewrite (round_trip _ _ _ _ _ _ _ E). cbn [payload]. cbv zeta.
    destruct (Z.ltb_spec (len (pg offset)) (int limit)) as [Hlt|_];
      [specialize (Hfull offset); lia|].
    rewrite IH by reflexivity. rewrite <- Hw. now rewrite scanned_after.
  - cbn [DescribeSqlserverBackups_loop].
    pose proof (Hsrv offset) as E. rewrite <- Hw in E at 1.
    rewrite (round_trip _ _ _ _ _ _ _ E). cbn [payload]. cbv zeta.
    destruct (Z.ltb_spec (len (pg offset)) (int limit)) as [Hlt|_];
      [specialize (Hfull offset); lia|].
    rewrite IH by reflexivity. rewrite <- Hw. now rewrite scanned_after.
  - cbn [DescribeSqlserverAccounts_loop].
    pose proof (Hsrv offset) as E. rewrite <- Hw in E at 1.
    rewrite (round_trip _ _ _ _ _ _ _ E). cbn [payload]. cbv zeta.
    destruct (Z.ltb_spec (len (pg offset)) (int limit)) as [Hlt|_];
      [specialize (Hfull offset); lia|].
    rewrite IH by reflexivity. rewrite <- Hw. now rewrite scanned_after.
Qed.

End FullPages.

Section FullPagesRuns.
Import sqlserver SqlserverService Sample.

(** Twenty backups and a remote that ignores [Offset]: every page is the
    same full page, and seven rounds of fuel are seven round trips. *)
Lemma scans_do_not_return_while_pages_are_full_witness :
  @DescribeSqlserverBackups_loop firstPageOnly 7
    (fun off =>
       {| DescribeBackups_InstanceId := "mssql-1";
          DescribeBackups_StartTime := "2020-01-01 00:00:00";
          DescribeBackups_EndTime := "2020-02-01 00:00:00";
          DescribeBackups_Offset := off;
          DescribeBackups_Limit := 20 |})
    20 0 [] (@Build_World firstPageOnly (backupStore 20) [])
  = (OutOfFuel,
     @scanned firstPageOnly (@Build_World firstPageOnly (backupStore 20) [])
       "DescribeBackups" 7).
Proof.
  exact (proj1 (proj2 (@scans_do_not_return_while_pages_are_full
                         firstPageOnly 20 (backupStore 20)))
           (fun off =>
              {| DescribeBackups_InstanceId := "mssql-1";
                 DescribeBackups_StartTime := "2020-01-01 00:00:00";
                 DescribeBackups_EndTime := "2020-02-01 00:00:00";
                 DescribeBackups_Offset := off;
                 DescribeBackups_Limit := 20 |})
           (fun _ => backups (backupStore 20))
           (fun off => eq_refl)
           (fun off => ltac:(vm_compute; discriminate))
           7%nat 0 [] (@Build_World firstPageOnly (backupStore 20) [])
           eq_refl).
Defined.

End FullPagesRuns.

(** ** CKafka: the result of a write *)

Section OperateStatus.
Import ckafka v20190819 CkafkaService.
Context `{Package} `{Cloud} {more : MoreCloud} {tables : AclTables}.

Ltac operate E :=
  unfold Retry;
  match goal with
  | |- context [RetryN ?n ?f None] =>
      erewrite (bind_Ret (RetryN n f None))
        by (apply RetryN_done; unfold bind;
            rewrite (call_eq _ _ _ _ _ _ E); reflexivity)
  end;
  cbn [payload]; destruct (OperateStatusCheck _); reflexivity.

(** The five writes of [CkafkaService] send their request without
    acquiring the rate limiter, and once the call has succeeded they
    judge the operate result: with the return code "0" the method returns
    nil; with any other code, or no result at all, it panics, because the
    error it means to build reads [err.Error()] of the nil error.  A
    refused operation is therefore never returned as an error. *)
Theorem ckafka_writes_panic_when_refused (w : World)
    (Result : option JgwOperateResponse) (s1 : Srv) :
  let sent action :=
    {| server := s1; trace := trace w ++ [RemoteCall action] |} in
  let outcome : res (option error) :=
    if OperateStatusCheck Result then Ret None else Panic in
  (forall instanceId user password,
     ckafka_CreateUser
       {| CreateUser_InstanceId := instanceId;
          CreateUser_Name := user;
          CreateUser_Password := password |} (server w)
     = ((Some (Some Result), None), s1) ->
     CreateUser instanceId user password w = (outcome, sent "CreateUser"))
  /\
  (forall instanceId user oldPasswd newPasswd,
     ckafka_ModifyPassword
       {| ModifyPassword_InstanceId := instanceId;
          ModifyPassword_Name := user;
          ModifyPassword_Password := oldPasswd;
          ModifyPassword_PasswordNew := newPasswd |} (server w)
     = ((Some (Some Result), None), s1) ->
     ModifyPassword instanceId user oldPasswd newPasswd w
     = (outcome, sent "ModifyPassword"))
  /\
  (forall userId,
     len (Split userId FILED_SP) = 2 ->
     ckafka_DeleteUser
       {| DeleteUser_InstanceId := nth 0 (Split userId FILED_SP) EmptyString;
          DeleteUser_Name := nth 1 (Split userId FILED_SP) EmptyString |}
       (server w)
     = ((Some (Some Result), None), s1) ->
     DeleteUser userId w = (outcome, sent "DeleteUser"))
  /\
  (forall instanceId resourceType resourceName operation permissionType host
          principal,
     ckafka_CreateAcl
       (aclRequest instanceId resourceType resourceName operation
                   permissionType host principal) (server w)
     = ((Some (Some Result), None), s1) ->
     CreateAcl instanceId resourceType resourceName operation permissionType
               host principal w
     = (outcome, sent "CreateAcl"))
  /\
  (forall aclId,
     len (Split aclId FILED_SP) = 7 ->
     (let item n := nth n (Split aclId FILED_SP) EmptyString in
      ckafka_DeleteAcl
        (aclRequest (item 0%nat) (item 5%nat) (item 6%nat) (item 4%nat)
                    (item 1%nat) (item 3%nat) (item 2%nat)) (server w)
      = ((Some (Some Result), None), s1)) ->
     DeleteAcl aclId w = (outcome, sent "DeleteAcl")).
Proof.
  intros sent outcome. subst sent outcome. cbv beta.
  split; [|split; [|split; [|split]]].
  - intros instanceId user password E. unfold CreateUser. operate E.
  - intros instanceId user oldPasswd newPasswd E. unfold ModifyPassword.
    operate E.
  - intros userId L E. unfold DeleteUser. rewrite L.
    change (negb (2 =? 2)) with false. cbv iota. operate E.
  - intros instanceId resourceType resourceName operation permissionType
           host principal E.
    unfold CreateAcl. operate E.
  - intros aclId L E. cbv zeta in E. unfold DeleteAcl. rewrite L.
    change (negb (7 =? 7)) with false. cbv iota. operate E.
Qed.

End OperateStatus.

Section OperateStatusRuns.
Import ckafka v20190819 CkafkaService Sample.

(** A password change for a user that the store does not have. *)
Lemma ckafka_writes_panic_when_refused_witness :
  ModifyPassword "ckafka-1" "ghost" "old" "new" (start emptyStore)
  = (Panic,
     {| server := emptyStore; trace := [] ++ [RemoteCall "ModifyPassword"] |}).
Proof.
  pose proof (ckafka_writes_panic_when_refused (start emptyStore)
                (Some {| ReturnCode := "-1" |}) emptyStore) as T.
  cbv zeta in T.
  exact (proj1 (proj2 T) "ckafka-1" "ghost" "old" "new" eq_refl).
Defined.

End OperateStatusRuns.

(** ** CKafka: what the lookups make of the instance lookup *)

Section InstanceLookup.
Import ckafka CkafkaService.
Context `{Package} `{Cloud}.

Lemma DescribeInstanceById_failed (instanceId : string) (w : World)
    (response : option (option DescribeInstanceAttributesResponse))
    (e : error) (s1 : Srv) :
  ckafka_DescribeInstanceAttributes
    {| DescribeInstanceAttributes_InstanceId := instanceId |} (server w)
  = ((response, Some e), s1) ->
  Retryable (retryError e) = false ->
  DescribeInstanceById instanceId w
  = (Ret (None, false,
          Some (Errorf "[CRITAL]%s api[%s] fail, request body [%s], reason[%s]"
                       [AStr logId; AStr "DescribeInstanceAttributes";
                        AJson "DescribeInstanceAttributes";
                        AErr (Err (retryError e))])),
     looked w s1).
Proof.
  intros E R. unfold DescribeInstanceById, Retry.
  match goal with
  | |- context [RetryN ?n ?f None] =>
      erewrite (bind_Ret (RetryN n f None))
        by (apply RetryN_fatal with (re := retryError e); [|exact R];
            rewrite (round_trip _ _ _ _ _ _ _ E); reflexivity)
  end.
  reflexivity.
Qed.

Lemma DescribeInstanceById_answered (instanceId : string) (w : World)
    (response : option (option DescribeInstanceAttributesResponse))
    (s1 : Srv) :
  ckafka_DescribeInstanceAttributes
    {| DescribeInstanceAttributes_InstanceId := instanceId |} (server w)
  = ((response, None), s1) ->
  DescribeInstanceById instanceId w
  = (Ret match payload response with
         | Some (Some instanceInfo) => (Some instanceInfo, true, None)
         | _ => (None, false, None)
         end,
     looked w s1).
Proof.
  intros E. unfold DescribeInstanceById, Retry.
  match goal with
  | |- context [RetryN ?n ?f None] =>
      erewrite (bind_Ret (RetryN n f None))
        by (apply RetryN_done;
            rewrite (round_trip _ _ _ _ _ _ _ E); reflexivity)
  end.
  cbv iota. now destruct (payload response) as [[i|]|].
Qed.

(** When the lookup of the instance fails with an error that is not
    retried, the lookups built on it drop the error: the user and the ACL
    are reported as missing, and the two filters return an empty list,
    all with a nil error and without any further request. *)
Theorem ckafka_lookups_drop_the_instance_error (fuel : nat) (w : World)
    (instanceId : string)
    (response : option (option DescribeInstanceAttributesResponse))
    (e : error) (s1 : Srv) :
  ckafka_DescribeInstanceAttributes
    {| DescribeInstanceAttributes_InstanceId := instanceId |} (server w)
  = ((response, Some e), s1) ->
  Retryable (retryError e) = false ->
  (forall userId,
     len (Split userId FILED_SP) = 2 ->
     nth 0 (Split userId FILED_SP) EmptyString = instanceId ->
     DescribeUserByUserId userId w = (Ret (None, false, None), looked w s1))
  /\
  (forall params,
     lookup params "instance_id" = Some instanceId ->
     DescribeUserByFilter fuel params w = (Ret ([], None), looked w s1)
     /\
     DescribeAclByFilter fuel params w = (Ret ([], None), looked w s1))
  /\
  (forall aclId,
     len (Split aclId FILED_SP) = 7 ->
     nth 0 (Split aclId FILED_SP) EmptyString = instanceId ->
     DescribeAclByAclId fuel aclId w = (Ret (None, false, None), looked w s1)).
Proof.
  intros E R.
  pose proof (DescribeInstanceById_failed instanceId w response e s1 E R)
    as D.
  assert (F : forall params,
             lookup params "instance_id" = Some instanceId ->
             DescribeAclByFilter fuel params w
             = (Ret ([], None), looked w s1)).
  { intros params L. unfold DescribeAclByFilter. rewrite L.
    now rewrite (bind_Ret _ _ _ _ _ D). }
  split; [|split].
  - intros userId L I. unfold DescribeUserByUserId. rewrite L, I.
    change (negb (2 =? 2)) with false. cbv iota.
    now rewrite (bind_Ret _ _ _ _ _ D).
  - intros params L. split; [|now apply F].
    unfold DescribeUserByFilter. rewrite L.
    now rewrite (bind_Ret _ _ _ _ _ D).
  - intros aclId L I. unfold DescribeAclByAclId. rewrite L.
    change (negb (7 =? 7)) with false. cbv iota zeta.
    match goal with
    | |- context [DescribeAclByFilter fuel ?ps] =>
        rewrite (bind_Ret _ _ _ _ _
                   (F ps ltac:(cbn; now rewrite I)))
    end.
    reflexivity.
Qed.

End InstanceLookup.

Section InstanceLookupRuns.
Import ckafka CkafkaService Sample.

(** The instance lookup fails; the user "app" of "ckafka-1" is reported
    as missing, without an error. *)
Lemma ckafka_lookups_drop_the_instance_error_witness :
  DescribeUserByUserId "ckafka-1#app"
    (start (instanceStore []
              [("DescribeInstanceAttributes",
                Some (OtherError "connection reset"))]))
  = (Ret (None, false, None),
     looked (start (instanceStore []
                      [("DescribeInstanceAttributes",
                        Some (OtherError "connection reset"))]))
            (instanceStore []
               [("DescribeInstanceAttributes",
                 Some (OtherError "connection reset"))])).
Proof.
  exact (proj1 (ckafka_lookups_drop_the_instance_error 5
                  (start (instanceStore []
                            [("DescribeInstanceAttributes",
                              Some (OtherError "connection reset"))]))
                  "ckafka-1" None (OtherError "connection reset")
                  (instanceStore []
                     [("DescribeInstanceAttributes",
                       Some (OtherError "connection reset"))])
                  eq_refl eq_refl)
           "ckafka-1#app" eq_refl eq_refl).
Defined.

End InstanceLookupRuns.

(** ** CKafka: a user that is there and is not *)

Section UserLookup.
Import ckafka CkafkaService.
Context `{Package} `{Cloud}.

(** [has] is a named result that the instance lookup has set to true
    before the user is looked up, and only two of the ways out set it
    again.  For an instance that exists, the method returns no user and
    [has = true] when the answer has no user list, when the list has more
    than one user, and when the request fails; an empty list is the one
    case reported as [has = false].  The request for the user is sent
    without acquiring the rate limiter. *)
Theorem DescribeUserByUserId_has_without_user (userId : string) (w : World)
    (instanceInfo : InstanceAttributesResponse)
    (response : option (option DescribeUserResponse)) (err : option error)
    (s1 s2 : Srv) :
  len (Split userId FILED_SP) = 2 ->
  ckafka_DescribeInstanceAttributes
    {| DescribeInstanceAttributes_InstanceId :=
         nth 0 (Split userId FILED_SP) EmptyString |} (server w)
  = ((Some (Some (Some instanceInfo)), None), s1) ->
  ckafka_DescribeUser
    {| DescribeUser_InstanceId := nth 0 (Split userId FILED_SP) EmptyString;
       DescribeUser_SearchWord :=
         Some (nth 1 (Split userId FILED_SP) EmptyString);
       DescribeUser_Limit := None;
       DescribeUser_Offset := None |} s1
  = ((response, err), s2) ->
  let asked :=
    {| server := s2;
       trace := trace (looked w s1) ++ [RemoteCall "DescribeUser"] |} in
  (forall e, err = Some e -> Retryable (retryError e) = false ->
     DescribeUserByUserId userId w
     = (Ret (None, true,
             Some (Errorf "[CRITAL]%s api[%s] fail, request body [%s], reason[%s]"
                          [AStr logId; AStr "DescribeUser";
                           AJson "DescribeUser";
                           AErr (Err (retryError e))])), asked))
  /\
  (err = None ->
   (forall Users, payload response <> Some (Some {| Users := Some Users |})) ->
   DescribeUserByUserId userId w = (Ret (None, true, None), asked))
  /\
  (forall Users,
     err = None ->
     payload response = Some (Some {| Users := Some Users |}) ->
     DescribeUserByUserId userId w
     = (Ret match Users with
            | [] => (None, false, None)
            | [userInfo] => (Some userInfo, true, None)
            | _ =>
                (None, true,
                 Some (Errorf "[CRITAL]%s dumplicated users found"
                              [AStr logId]))
            end, asked)).
Proof.
  intros L Ei Eu asked.
  pose proof (DescribeInstanceById_answered _ w _ s1 Ei) as D.
  cbn [payload] in D.
  split; [|split].
  - intros e -> R. unfold DescribeUserByUserId. rewrite L.
    change (negb (2 =? 2)) with false. cbv iota zeta.
    rewrite (bind_Ret _ _ _ _ _ D). cbv iota beta. cbn [negb].
    unfold Retry.
    match goal with
    | |- context [RetryN ?n ?f None] =>
        erewrite (bind_Ret (RetryN n f None))
          by (apply RetryN_fatal with (re := retryError e); [|exact R];
              unfold bind;
              rewrite (call_eq _ _ _ (looked w s1) _ _ Eu); reflexivity)
    end.
    reflexivity.
  - intros -> N. unfold DescribeUserByUserId. rewrite L.
    change (negb (2 =? 2)) with false. cbv iota zeta.
    rewrite (bind_Ret _ _ _ _ _ D). cbv iota beta. cbn [negb].
    unfold Retry.
    match goal with
    | |- context [RetryN ?n ?f None] =>
        erewrite (bind_Ret (RetryN n f None))
          by (apply RetryN_done; unfold bind;
              rewrite (call_eq _ _ _ (looked w s1) _ _ Eu); reflexivity)
    end.
    cbv iota.
    destruct (payload response) as [[[[Users|]]|]|]; try reflexivity.
    now destruct (N Users).
  - intros Users -> P. unfold DescribeUserByUserId. rewrite L.
    change (negb (2 =? 2)) with false. cbv iota zeta.
    rewrite (bind_Ret _ _ _ _ _ D). cbv iota beta. cbn [negb].
    unfold Retry.
    match goal with
    | |- context [RetryN ?n ?f None] =>
        erewrite (bind_Ret (RetryN n f None))
          by (apply RetryN_done; unfold bind;
              rewrite (call_eq _ _ _ (looked w s1) _ _ Eu); reflexivity)
    end.
    cbv iota. rewrite P.
    destruct Users as [|u [|u' Users]]; try reflexivity.
    unfold len. cbn [List.length].
    destruct (Z.ltb_spec (Z.of_nat (S (S (List.length Users)))) 1); [lia|].
    destruct (Z.ltb_spec 1 (Z.of_nat (S (S (List.length Users))))); [|lia].
    reflexivity.
Qed.

End UserLookup.

Section UserLookupRuns.
Import ckafka CkafkaService Sample.

(** The user request is answered with neither a response nor an error:
    no user, and [has = true]. *)
Lemma DescribeUserByUserId_has_without_user_witness :
  DescribeUserByUserId "ckafka-1#app"
    (start (instanceStore [] [("DescribeUser", None)]))
  = (Ret (None, true, None),
     {| server := instanceStore [] [("DescribeUser", None)];
        trace :=
          trace (looked (start (instanceStore [] [("DescribeUser", None)]))
                        (instanceStore [] [("DescribeUser", None)]))
          ++ [RemoteCall "DescribeUser"] |}).
Proof.
  pose proof (DescribeUserByUserId_has_without_user "ckafka-1#app"
                (start (instanceStore [] [("DescribeUser", None)]))
                {| InstanceAttributes_InstanceId := "ckafka-1" |}
                None None
                (instanceStore [] [("DescribeUser", None)])
                (instanceStore [] [("DescribeUser", None)])
                eq_refl eq_refl eq_refl) as T.
  cbv zeta in T.
  apply (proj1 (proj2 T)); [reflexivity|].
  intros Users. cbn. discriminate.
Defined.

End UserLookupRuns.

(** ** Submissions and their flows *)

(** The constant at the head of an application. *)
Ltac head_of t :=
  lazymatch t with
  | ?f _ => head_of f
  | _ => t
  end.

Section Submissions.
Import sqlserver v20180328 SqlserverService.
Context `{Package} `{Cloud} {more : MoreCloud}.

Lemma bind_ret_r {A} (c : M A) (w : World) :
  bind c (fun a => ret a) w = c w.
Proof. unfold bind, ret. now destruct (c w) as [[a| |] w']. Qed.

(** The run of a retried closure whose request is answered without an
    error. *)
Ltac answered E :=
  unfold Retry;
  match goal with
  | |- context [RetryN ?n ?f ?v] =>
      erewrite (bind_Ret (RetryN n f v))
        by (apply RetryN_done;
            rewrite (round_trip _ _ _ _ _ _ _ E); reflexivity)
  end.

(** An account, a database and the removal of a database are submitted
    with one request, and the flow named in the answer is then awaited:
    the method ends as [WaitForTaskFinish] does.  The three differ at the
    edges.  An answer without a response is an error for
    [CreateSqlserverAccount] and a success, without a wait, for
    [CreateSqlserverDB] and [DeleteSqlserverDB]; the flow 0 is not
    awaited by [CreateSqlserverDB] and is by the other two. *)
Theorem submissions_await_their_flow (w : World) (s1 : Srv)
    (response : option (option Z)) :
  let sent action :=
    {| server := s1; trace := trace w ++ roundTrips action 1 |} in
  (forall instanceId userName password remark isAdmin,
     sqlserver_CreateAccount
       {| CreateAccount_InstanceId := instanceId;
          CreateAccount_Accounts :=
            [{| AccountCreateInfo_UserName := userName;
                AccountCreateInfo_Password := password;
                AccountCreateInfo_IsAdmin := isAdmin;
                AccountCreateInfo_Remark := remark |}] |} (server w)
     = ((response, None), s1) ->
     CreateSqlserverAccount instanceId userName password remark isAdmin w
     = match payload response with
       | Some FlowId => WaitForTaskFinish FlowId (sent "CreateAccount")
       | None =>
           (Ret (Some (Errorf "TencentCloud SDK return nil response, %s"
                              [AStr "CreateAccount"])),
            sent "CreateAccount")
       end)
  /\
  (forall instanceID dbname charset remark,
     sqlserver_CreateDB
       {| CreateDB_InstanceId := instanceID;
          CreateDB_DBs :=
            [{| DBCreateInfo_DBName := dbname;
                DBCreateInfo_Charset := charset;
                DBCreateInfo_Remark := remark |}] |} (server w)
     = ((response, None), s1) ->
     CreateSqlserverDB instanceID dbname charset remark w
     = match payload response with
       | Some 0 | None => (Ret None, sent "CreateDB")
       | Some FlowId => WaitForTaskFinish FlowId (sent "CreateDB")
       end)
  /\
  (forall instanceId name,
     sqlserver_DeleteDB
       {| DeleteDB_InstanceId := instanceId; DeleteDB_Names := [name] |}
       (server w)
     = ((response, None), s1) ->
     DeleteSqlserverDB instanceId name w
     = match payload response with
       | Some FlowId => WaitForTaskFinish FlowId (sent "DeleteDB")
       | None => (Ret None, sent "DeleteDB")
       end).
Proof.
  intros sent. subst sent. cbv beta. split; [|split].
  - intros instanceId userName password remark isAdmin E.
    unfold CreateSqlserverAccount.
    rewrite (round_trip _ _ _ _ _ _ _ E).
    destruct response as [[FlowId|]|]; cbn [payload]; try reflexivity.
    cbv zeta. apply bind_ret_r.
  - intros instanceID dbname charset remark E.
    unfold CreateSqlserverDB. answered E. cbv iota.
    destruct response as [[FlowId|]|]; cbn [payload]; try reflexivity.
    now destruct FlowId.
  - intros instanceId name E.
    unfold DeleteSqlserverDB. answered E. cbv iota.
    now destruct response as [[FlowId|]|].
Qed.

(** A request made under [resource.Retry] is sent again for as long as
    [retryError] calls its error retryable: against a remote that keeps
    answering with the error [e], the creation, the remark and the
    removal of a database, and the two catalogue reads, send one request
    when the error is not retryable and one more than the timeout has
    retries when it is; in both cases the method returns the error as
    [retryError] wrapped it. *)
Theorem retried_requests_are_sent_again (s0 : Srv) (e : error)
    (w : World) :
  server w = s0 ->
  let times timeout :=
    if Retryable (retryError e) then S (retries timeout) else 1%nat in
  (forall instanceID dbname charset remark response,
     sqlserver_CreateDB
       {| CreateDB_InstanceId := instanceID;
          CreateDB_DBs :=
            [{| DBCreateInfo_DBName := dbname;
                DBCreateInfo_Charset := charset;
                DBCreateInfo_Remark := remark |}] |} s0
     = ((response, Some e), s0) ->
     CreateSqlserverDB instanceID dbname charset remark w
     = (Ret (Some (Err (retryError e))),
        scanned w "CreateDB" (times writeRetryTimeout)))
  /\
  (forall instanceId dbName remark response,
     sqlserver_ModifyDBRemark
       {| ModifyDBRemark_InstanceId := instanceId;
          ModifyDBRemark_Name := dbName;
          ModifyDBRemark_Remark := remark |} s0
     = ((response, Some e), s0) ->
     ModifySqlserverDBRemark instanceId dbName remark w
     = (Ret (Some (Err (retryError e))),
        scanned w "ModifyDBRemark" (times writeRetryTimeout)))
  /\
  (forall instanceId name response,
     sqlserver_DeleteDB
       {| DeleteDB_InstanceId := instanceId; DeleteDB_Names := [name] |} s0
     = ((response, Some e), s0) ->
     DeleteSqlserverDB instanceId name w
     = (Ret (Some (Err (retryError e))),
        scanned w "DeleteDB" (times writeRetryTimeout)))
  /\
  (forall response,
     sqlserver_DescribeZones tt s0 = ((response, Some e), s0) ->
     DescribeZones w
     = (Ret ([], Some (Err (retryError e))),
        scanned w "DescribeZones" (times readRetryTimeout)))
  /\
  (forall zone response,
     sqlserver_DescribeProductConfig {| DescribeProductConfig_Zone := zone |}
       s0
     = ((response, Some e), s0) ->
     DescribeProductConfig zone w
     = (Ret ([], Some (Err (retryError e))),
        scanned w "DescribeProductConfig" (times readRetryTimeout))).
Proof.
  intros Hw times. subst times. cbv beta.
  assert (one : forall (w0 : World), server w0 = s0 ->
            forall {Req P} (rpc : Req -> Srv -> reply P * Srv) (req : Req)
                   r, rpc req s0 = (r, s0) ->
                      rpc req (server w0) = (r, server w0))
    by (intros w0 -> Req P rpc req r E; exact E).
  destruct (Retryable (retryError e)) eqn:R.
  - (* every attempt is answered with [e] *)
    repeat split; intros;
      match goal with
      | E : _ = ((_, Some e), s0) |- ?m = (_, scanned w ?a _) =>
          let h := head_of m in unfold h, Retry;
          match goal with
          | |- context [RetryN ?n ?f ?v] =>
              assert (X : RetryN n f v w
                          = (Ret (Some (Err (retryError e)), v),
                             scanned w a (S n * 1)))
                by (apply (RetryN_stuck f v (retryError e) a 1%nat s0);
                    [|exact R|exact Hw];
                    intros w0 Hw0;
                    now rewrite (round_trip _ _ _ _ _ _ _
                                   (one w0 Hw0 _ _ _ _ _ E)));
              rewrite Nat.mul_1_r in X;
              now rewrite (bind_Ret _ _ _ _ _ X)
          end
      end.
  - repeat split; intros;
      match goal with
      | E : _ = ((_, Some e), s0) |- ?m = (_, scanned w ?a _) =>
          let h := head_of m in unfold h, Retry;
          match goal with
          | |- context [RetryN ?n ?f ?v] =>
              assert (X : RetryN n f v w
                          = (Ret (Some (Err (retryError e)), v),
                             scanned w a 1))
                by (apply RetryN_fatal with (re := retryError e);
                    [|exact R];
                    now rewrite (round_trip _ _ _ _ _ _ _
                                   (one w Hw _ _ _ _ _ E)));
              now rewrite (bind_Ret _ _ _ _ _ X)
          end
      end.
Qed.

End Submissions.

Section SubmissionsRuns.
Import sqlserver v20180328 SqlserverService Sample.

(** The creation of a database is answered with neither a response nor
    an error: the method reports success and waits for nothing. *)
Lemma submissions_await_their_flow_witness :
  CreateSqlserverDB "mssql-1" "db" "Chinese_PRC_CI_AS" "remark"
    (start (instanceStore [] [("CreateDB", None)]))
  = (Ret None,
     {| server := instanceStore [] [("CreateDB", None)];
        trace := [] ++ roundTrips "CreateDB" 1 |}).
Proof.
  pose proof (submissions_await_their_flow
                (start (instanceStore [] [("CreateDB", None)]))
                (instanceStore [] [("CreateDB", None)]) None) as T.
  cbv zeta in T.
  exact (proj1 (proj2 T) "mssql-1" "db" "Chinese_PRC_CI_AS" "remark"
           eq_refl).
Defined.

(** The creation of a database fails with an error that the sample
    [retryError] does not retry: one request, and the error comes back. *)
Lemma retried_requests_are_sent_again_witness :
  CreateSqlserverDB "mssql-1" "db" "Chinese_PRC_CI_AS" "remark"
    (start (instanceStore [] [("CreateDB", Some (OtherError "denied"))]))
  = (Ret (Some (OtherError "denied")),
     scanned
       (start (instanceStore [] [("CreateDB", Some (OtherError "denied"))]))
       "CreateDB" 1).
Proof.
  pose proof (retried_requests_are_sent_again
                (instanceStore [] [("CreateDB", Some (OtherError "denied"))])
                (OtherError "denied")
                (start (instanceStore []
                          [("CreateDB", Some (OtherError "denied"))]))
                eq_refl) as T.
  cbv zeta in T.
  exact (proj1 T "mssql-1" "db" "Chinese_PRC_CI_AS" "remark" None eq_refl).
Defined.

End SubmissionsRuns.

(** ** The call error comes first *)

Section ErrorFirst.
Import sqlserver v20180328 SqlserverService.
Context `{Package} `{Cloud} {more : MoreCloud}.

Ltac failed_call E :=
  match goal with
  | |- ?m = _ => let h := head_of m in unfold h
  end;
  rewrite (round_trip _ _ _ _ _ _ _ E); reflexivity.

Ltac empty_call E P :=
  match goal with
  | |- ?m = _ => let h := head_of m in unfold h
  end;
  rewrite (round_trip _ _ _ _ _ _ _ E);
  match type of P with
  | payload ?r = None => destruct r as [[p|]|]; try discriminate P
  end;
  reflexivity.

(** The two submissions of an instance, the order lookup, the creation
    of an account and the four single-request reads test the error of
    the call before they look at the response: when the request that the
    method builds fails they return that very error, with zero values
    and whatever the response is; a response is only missed, with an
    error of its own, when the call did not fail.  Each of them sends
    the one request, after acquiring the rate limiter for it. *)
Theorem call_error_is_tested_before_the_response (w : World) (s1 : Srv) :
  let sent action :=
    {| server := s1; trace := trace w ++ roundTrips action 1 |} in
  let missing action :=
    Errorf "TencentCloud SDK return nil response, %s" [AStr action] in
  (forall dealId response err,
     sqlserver_DescribeOrders {| DescribeOrders_DealNames := [dealId] |}
       (server w)
     = ((response, err), s1) ->
     (forall e, err = Some e ->
        GetInfoFromDeal dealId w
        = (Ret (EmptyString, Some e), sent "DescribeOrders"))
     /\
     (err = None -> payload response = None ->
      GetInfoFromDeal dealId w
      = (Ret (EmptyString,
              Some (Errorf "TencentCloud SDK returns nil response, %s"
                           [AStr "DescribeOrders"])),
         sent "DescribeOrders")))
  /\
  (forall dbVersion chargeType memory autoRenewFlag projectId subnetId vpcId
          zone storage weekSet startTime timeSpan multiZones haType
          securityGroups response err,
     sqlserver_CreateDBInstances
       (CreateSqlserverInstance_request dbVersion chargeType memory
          autoRenewFlag projectId subnetId vpcId zone storage weekSet
          startTime timeSpan multiZones haType securityGroups) (server w)
     = ((response, err), s1) ->
     (forall e, err = Some e ->
        CreateSqlserverInstance dbVersion chargeType memory autoRenewFlag
          projectId subnetId vpcId zone storage weekSet startTime timeSpan
          multiZones haType securityGroups w
        = (Ret (EmptyString, Some e), sent "CreateDBInstances"))
     /\
     (err = None -> payload response = None ->
      CreateSqlserverInstance dbVersion chargeType memory autoRenewFlag
        projectId subnetId vpcId zone storage weekSet startTime timeSpan
        multiZones haType securityGroups w
      = (Ret (EmptyString, Some (missing "CreateDBInstances")),
         sent "CreateDBInstances")))
  /\
  (forall masterInstanceId subnetId vpcId chargeType memory zone storage
          readonlyGroupType readonlyGroupId forceUpgrade securityGroups
          response err,
     sqlserver_CreateReadOnlyDBInstances
       (CreateSqlserverReadonlyInstance_request masterInstanceId subnetId
          vpcId chargeType memory zone storage readonlyGroupType
          readonlyGroupId forceUpgrade securityGroups) (server w)
     = ((response, err), s1) ->
     (forall e, err = Some e ->
        CreateSqlserverReadonlyInstance masterInstanceId subnetId vpcId
          chargeType memory zone storage readonlyGroupType readonlyGroupId
          forceUpgrade securityGroups w
        = (Ret (EmptyString, Some e), sent "CreateReadOnlyDBInstances"))
     /\
     (err = None -> payload response = None ->
      CreateSqlserverReadonlyInstance masterInstanceId subnetId vpcId
        chargeType memory zone storage readonlyGroupType readonlyGroupId
        forceUpgrade securityGroups w
      = (Ret (EmptyString, Some (missing "CreateReadOnlyDBInstances")),
         sent "CreateReadOnlyDBInstances")))
  /\
  (forall instanceId userName password remark isAdmin response err,
     sqlserver_CreateAccount
       {| CreateAccount_InstanceId := instanceId;
          CreateAccount_Accounts :=
            [{| AccountCreateInfo_UserName := userName;
                AccountCreateInfo_Password := password;
                AccountCreateInfo_IsAdmin := isAdmin;
                AccountCreateInfo_Remark := remark |}] |} (server w)
     = ((response, err), s1) ->
     (forall e, err = Some e ->
        CreateSqlserverAccount instanceId userName password remark isAdmin w
        = (Ret (Some e), sent "CreateAccount"))
     /\
     (err = None -> payload response = None ->
      CreateSqlserverAccount instanceId userName password remark isAdmin w
      = (Ret (Some (missing "CreateAccount")), sent "CreateAccount")))
  /\
  (forall instanceId response err,
     sqlserver_DescribeMaintenanceSpan
       {| DescribeMaintenanceSpan_InstanceId := instanceId |} (server w)
     = ((response, err), s1) ->
     (forall e, err = Some e ->
        DescribeMaintenanceSpan instanceId w
        = (Ret ([], EmptyString, 0, Some e), sent "DescribeMaintenanceSpan"))
     /\
     (err = None -> payload response = None ->
      DescribeMaintenanceSpan instanceId w
      = (Ret ([], EmptyString, 0, Some (missing "DescribeMaintenanceSpan")),
         sent "DescribeMaintenanceSpan")))
  /\
  (forall instanceId response err,
     sqlserver_DescribeDBSecurityGroups
       {| DescribeDBSecurityGroups_InstanceId := instanceId |} (server w)
     = ((response, err), s1) ->
     (forall e, err = Some e ->
        DescribeInstanceSecurityGroups instanceId w
        = (Ret ([], Some e), sent "DescribeDBSecurityGroups"))
     /\
     (err = None -> payload response = None ->
      DescribeInstanceSecurityGroups instanceId w
      = (Ret ([], Some (missing "DescribeDBSecurityGroups")),
         sent "DescribeDBSecurityGroups")))
  /\
  (forall instanceId response err,
     sqlserver_DescribeReadOnlyGroupList
       {| DescribeReadOnlyGroupList_InstanceId := instanceId |} (server w)
     = ((response, err), s1) ->
     (forall e, err = Some e ->
        DescribeReadonlyGroupList instanceId w
        = (Ret ([], Some e), sent "DescribeReadOnlyGroupList"))
     /\
     (err = None -> payload response = None ->
      DescribeReadonlyGroupList instanceId w
      = (Ret ([], Some (missing "DescribeReadOnlyGroupList")),
         sent "DescribeReadOnlyGroupList")))
  /\
  (forall instanceId response err,
     sqlserver_DescribeReadOnlyGroupByReadOnlyInstance
       {| DescribeReadOnlyGroupByReadOnlyInstance_InstanceId := instanceId |}
       (server w)
     = ((response, err), s1) ->
     (forall e, err = Some e ->
        DescribeReadonlyGroupListByReadonlyInstanceId instanceId w
        = (Ret (EmptyString, EmptyString, Some e),
           sent "DescribeReadOnlyGroupByReadOnlyInstance"))
     /\
     (err = None -> payload response = None ->
      DescribeReadonlyGroupListByReadonlyInstanceId instanceId w
      = (Ret (EmptyString, EmptyString,
              Some (missing "DescribeReadOnlyGroupByReadOnlyInstance")),
         sent "DescribeReadOnlyGroupByReadOnlyInstance"))).
Proof.
  intros sent missing. subst sent missing. cbv beta.
  repeat match goal with |- _ /\ _ => split end;
    intros; split;
    match goal with
    | E : _ = ((_, ?err), s1) |- _ =>
        (intros e ->; failed_call E) || (intros -> P; empty_call E P)
    end.
Qed.

End ErrorFirst.

Section ErrorFirstRuns.
Import sqlserver v20180328 SqlserverService Sample.

(** The submission of an instance fails: the error is returned as it is,
    and the order is not looked up. *)
Lemma call_error_is_tested_before_the_response_witness :
  CreateSqlserverInstance "2016SP1" "POSTPAID_BY_HOUR" 2 0 0
    "subnet-1" "vpc-1" "ap-guangzhou-2" 10 [] EmptyString 0 false
    "DUAL" ["sg-1"]
    (start (instanceStore []
              [("CreateDBInstances", Some (OtherError "denied"))]))
  = (Ret (EmptyString, Some (OtherError "denied")),
     {| server :=
          instanceStore [] [("CreateDBInstances", Some (OtherError "denied"))];
        trace := [] ++ roundTrips "CreateDBInstances" 1 |}).
Proof.
  pose proof (call_error_is_tested_before_the_response
                (start (instanceStore []
                          [("CreateDBInstances",
                            Some (OtherError "denied"))]))
                (instanceStore []
                   [("CreateDBInstances", Some (OtherError "denied"))]))
    as T.
  cbv zeta in T.
  exact (proj1 (proj1 (proj2 T) "2016SP1" "POSTPAID_BY_HOUR" 2 0 0
                  "subnet-1" "vpc-1" "ap-guangzhou-2" 10 [] EmptyString 0
                  false "DUAL" ["sg-1"] None (Some (OtherError "denied"))
                  eq_refl)
           (OtherError "denied") eq_refl).
Defined.

End ErrorFirstRuns.

(** ** Attachments of accounts to databases *)

Section Attachments.
Import sqlserver v20180328 SqlserverService.
Context `{Package} `{Cloud} {more : MoreCloud}.

Lemma dbNameSelects_sound (dbName name : string) :
  dbNameSelects dbName name = true -> nonEmpty dbName = true ->
  name = dbName.
Proof.
  unfold dbNameSelects, nonEmpty. intros S N. rewrite N in S.
  apply negb_true_iff in N. rewrite N, orb_false_r in S.
  now apply String.eqb_eq.
Qed.

(** Whatever the remote answers, every attachment that
    [DescribeAccountDBAttachments] returns is a mapping with the entries
    db_name, account_name and privilege that agrees with the filters
    given, and an error comes with no attachment at all;
    [DescribeAccountDBAttachmentById] reports [has] exactly when it
    returns such an attachment. *)
Theorem attachments_agree_with_the_filters (fuel : nat)
    (instanceId accountName dbName : string) (w : World) :
  (forall l err w',
     DescribeAccountDBAttachments fuel instanceId accountName dbName w
     = (Ret (l, err), w') ->
     Forall (matches accountName dbName) l /\ (err <> None -> l = []))
  /\
  (forall attachment has err w',
     DescribeAccountDBAttachmentById fuel instanceId accountName dbName w
     = (Ret (attachment, has, err), w') ->
     (has = true ->
      err = None /\
      exists m, attachment = Some m /\ matches accountName dbName m)
     /\ (has = false -> attachment = None)).
Proof.
  assert (A : forall l err w',
     DescribeAccountDBAttachments fuel instanceId accountName dbName w
     = (Ret (l, err), w') ->
     Forall (matches accountName dbName) l /\ (err <> None -> l = [])).
  { intros l err w'. unfold DescribeAccountDBAttachments.
    destruct (nonEmpty accountName) eqn:N.
    - unfold bind.
      destruct (DescribeSqlserverAccountById _ _ _ w)
        as [[[[accounts has] [e|]]| |] w1]; try discriminate.
      + intros [= <- <- <-]. split; [constructor|reflexivity].
      + destruct has; cbn [negb].
        * destruct accounts as [accounts|]; [|discriminate].
          intros [= <- <- <-]. split; [|congruence].
          apply Forall_forall. intros m Hm.
          apply in_flat_map in Hm as (v & _ & Hm).
          destruct (dbNameSelects dbName (DBPrivilege_DBName v)) eqn:S;
            [|destruct Hm].
          destruct Hm as [<-|[]].
          exists (DBPrivilege_DBName v), accountName,
                 (DBPrivilege_Privilege v).
          split; [reflexivity|]. split; [reflexivity|].
          now apply dbNameSelects_sound.
        * intros [= <- <- <-]. split; [constructor|reflexivity].
    - unfold bind.
      destruct (DescribeDBsOfInstance _ _ w)
        as [[[dbInfos [e|]]| |] w1]; try discriminate.
      + intros [= <- <- <-]. split; [constructor|reflexivity].
      + destruct (len dbInfos =? 0).
        * intros [= <- <- <-]. split; [constructor|reflexivity].
        * intros [= <- <- <-]. split; [|congruence].
          apply Forall_forall. intros m Hm.
          apply in_flat_map in Hm as (v & _ & Hm).
          destruct (dbNameSelects dbName (DBDetail_Name v)) eqn:S;
            [|destruct Hm].
          apply in_map_iff in Hm as (vv & <- & _).
          exists (DBDetail_Name v), (AccountPrivilege_UserName vv),
                 (AccountPrivilege_Privilege vv).
          split; [reflexivity|]. split; [congruence|].
          now apply dbNameSelects_sound. }
  split; [exact A|].
  intros attachment has err w'. unfold DescribeAccountDBAttachmentById.
  unfold bind.
  destruct (DescribeAccountDBAttachments _ _ _ _ w)
    as [[[l [e|]]| |] w1] eqn:D; try discriminate.
  - intros [= <- <- <-]. split; [discriminate|reflexivity].
  - destruct (A _ _ _ eq_refl) as [F _].
    destruct l as [|m l].
    + intros [= <- <- <-]. split; [discriminate|reflexivity].
    + intros [= <- <- <-]. split; [|discriminate].
      intros _. split; [reflexivity|].
      exists m. split; [reflexivity|]. now inversion F.
Qed.

End Attachments.

Section AttachmentsRuns.
Import sqlserver v20180328 SqlserverService Sample.

(** The attachments to the database "db" of an instance with two
    databases of that name. *)
Lemma attachments_agree_with_the_filters_witness :
  Forall (matches EmptyString "db")
         [mapping "db" "user" "A"; mapping "db" "user" "B"].
Proof.
  exact (proj1 (proj1 (attachments_agree_with_the_filters 5 "mssql-1"
                         EmptyString "db"
                         (start (instanceStore (manyDBs 2) [])))
                  [mapping "db" "user" "A"; mapping "db" "user" "B"] None
                  {| server := instanceStore (manyDBs 2) [];
                     trace := roundTrips "DescribeDBs" 1 |}
                  ltac:(vm_compute; reflexivity))).
Defined.

End AttachmentsRuns.

(** ** CKafka: the two filters *)

Section Filters.
Import ckafka CkafkaService.
Context `{Package} `{Cloud}.

Lemma DescribeUserByFilter_loop_scan_at
    (request : Z -> DescribeUserRequest) (items : list User) (s0 : Srv) :
  1 <= CKAFKA_DESCRIBE_LIMIT < 2 ^ 63 -> len items < 2 ^ 63 ->
  (forall off,
     ckafka_DescribeUser (request off) s0
     = ((Some (Some (Some {| Users :=
                               Some (page items off CKAFKA_DESCRIBE_LIMIT) |})),
         None), s0)) ->
  forall (fuel : nat) (off : Z) (acc : list User) (w : World),
    server w = s0 ->
    0 <= off <= len items ->
    (len items - off) / CKAFKA_DESCRIBE_LIMIT < Z.of_nat fuel ->
    DescribeUserByFilter_loop fuel request CKAFKA_DESCRIBE_LIMIT off acc w
    = (Ret ((acc ++ skipn (Z.to_nat off) items)%list, None),
       scanned w "DescribeUser"
         (Z.to_nat ((len items - off) / CKAFKA_DESCRIBE_LIMIT + 1))).
Proof.
  set (p := CKAFKA_DESCRIBE_LIMIT). intros Hp Hn Hsrv.
  induction fuel as [|fuel IH]; intros off acc w Hw Ho Hfuel.
  - pose proof (Z.div_pos (len items - off) p ltac:(lia) ltac:(lia)). lia.
  - cbn [DescribeUserByFilter_loop]. fold p.
    pose proof (Hsrv off) as E. rewrite <- Hw in E at 1.
    unfold Retry.
    match goal with
    | |- context [RetryN ?n ?f (None, acc)] =>
        erewrite (bind_Ret (RetryN n f (None, acc)))
          by (apply RetryN_done;
              rewrite (round_trip _ _ _ _ _ _ _ E); reflexivity)
    end.
    cbv iota. cbn [payload elems Users].
    rewrite len_page by lia.
    destruct (Z.ltb_spec (Z.min p (len items - off)) p) as [Hlt|Hge].
    + rewrite page_last by lia. rewrite Z.div_small by lia.
      unfold ret. now rewrite <- Hw.
    + destruct (pages_left (len items) off p) as [Hq Hq0]; try lia.
      rewrite wrap_int64_small by lia.
      rewrite IH by (cbn [server]; (reflexivity || lia)).
      rewrite <- app_assoc, page_next by lia.
      rewrite <- Hw, scanned_after, Hq. do 2 f_equal. lia.
Qed.

Lemma DescribeAclByFilter_loop_scan_at
    (request : Z -> DescribeACLRequest) (items : list Acl) (s0 : Srv) :
  1 <= CKAFKA_DESCRIBE_LIMIT < 2 ^ 63 -> len items < 2 ^ 63 ->
  (forall off,
     ckafka_DescribeACL (request off) s0
     = ((Some (Some (Some {| AclList :=
                               page items off CKAFKA_DESCRIBE_LIMIT |})),
         None), s0)) ->
  forall (fuel : nat) (off : Z) (acc : list Acl) (w : World),
    server w = s0 ->
    0 <= off <= len items ->
    (len items - off) / CKAFKA_DESCRIBE_LIMIT < Z.of_nat fuel ->
    DescribeAclByFilter_loop fuel request CKAFKA_DESCRIBE_LIMIT off acc w
    = (Ret ((acc ++ skipn (Z.to_nat off) items)%list, None),
       scanned w "DescribeACL"
         (Z.to_nat ((len items - off) / CKAFKA_DESCRIBE_LIMIT + 1))).
Proof.
  set (p := CKAFKA_DESCRIBE_LIMIT). intros Hp Hn Hsrv.
  induction fuel as [|fuel IH]; intros off acc w Hw Ho Hfuel.
  - pose proof (Z.div_pos (len items - off) p ltac:(lia) ltac:(lia)). lia.
  - cbn [DescribeAclByFilter_loop]. fold p.
    pose proof (Hsrv off) as E. rewrite <- Hw in E at 1.
    unfold Retry.
    match goal with
    | |- context [RetryN ?n ?f (None, acc)] =>
        erewrite (bind_Ret (RetryN n f (None, acc)))
          by (apply RetryN_done;
              rewrite (round_trip _ _ _ _ _ _ _ E); reflexivity)
    end.
    cbv iota. cbn [payload AclList].
    rewrite len_page by lia.
    destruct (Z.ltb_spec (Z.min p (len items - off)) p) as [Hlt|Hge].
    + rewrite page_last by lia. rewrite Z.div_small by lia.
      unfold ret. now rewrite <- Hw.
    + destruct (pages_left (len items) off p) as [Hq Hq0]; try lia.
      rewrite wrap_int64_small by lia.
      rewrite IH by (cbn [server]; (reflexivity || lia)).
      rewrite <- app_assoc, page_next by lia.
      rewrite <- Hw, scanned_after, Hq. do 2 f_equal. lia.
Qed.

Lemma DescribeAclByFilter_listed (fuel : nat)
    (params : list (string * string)) (instanceId : string)
    (instanceInfo : InstanceAttributesResponse) (w : World) (s0 : Srv)
    (acls : list Acl) (resourceType resourceName : string) :
  1 <= CKAFKA_DESCRIBE_LIMIT < 2 ^ 63 ->
  lookup params "instance_id" = Some instanceId ->
  ckafka_DescribeInstanceAttributes
    {| DescribeInstanceAttributes_InstanceId := instanceId |} (server w)
  = ((Some (Some (Some instanceInfo)), None), s0) ->
  len acls < 2 ^ 63 ->
  len acls / CKAFKA_DESCRIBE_LIMIT < Z.of_nat fuel ->
  lookup params "resource_type" = Some resourceType ->
  lookup params "resource_name" = Some resourceName ->
  String.eqb resourceType "TOPIC" = false ->
  (forall off,
     ckafka_DescribeACL
       {| DescribeACL_InstanceId := instanceId;
          DescribeACL_ResourceType := CKAFKA_ACL_RESOURCE_TYPE resourceType;
          DescribeACL_ResourceName := resourceName;
          DescribeACL_SearchWord := lookup params "host";
          DescribeACL_Limit := CKAFKA_DESCRIBE_LIMIT;
          DescribeACL_Offset := off |} s0
     = ((Some (Some (Some {| AclList :=
                               page acls off CKAFKA_DESCRIBE_LIMIT |})),
         None), s0)) ->
  DescribeAclByFilter fuel params w
  = (Ret (acls, None),
     scanned (looked w s0) "DescribeACL"
       (Z.to_nat (len acls / CKAFKA_DESCRIBE_LIMIT + 1))).
Proof.
  intros Hp L Ei Hn Hfuel Lt Ln T Hsrv.
  pose proof (DescribeInstanceById_answered _ w _ s0 Ei) as D.
  cbn [payload] in D.
  unfold DescribeAclByFilter. rewrite L.
  rewrite (bind_Ret _ _ _ _ _ D). cbv iota beta. cbn [negb].
  rewrite Lt, Ln, T. unfold bind at 1, ret at 1. cbv iota beta.
  cbn [negb]. cbv zeta.
  rewrite wrap_int64_small by lia.
  rewrite (DescribeAclByFilter_loop_scan_at _ acls s0 Hp Hn Hsrv);
    try reflexivity; rewrite ?Z.sub_0_r; try lia.
  - reflexivity.
  - unfold len. lia.
Qed.

(** For an instance that exists and a remote that serves the users, or
    the ACLs of a resource that is not a topic, a page a request, the
    filter returns all of them, in order and once each.  It asks for
    pages of [CKAFKA_DESCRIBE_LIMIT] items from offset 0 on and stops at
    the first page that is shorter, so that [n] items cost
    [n / CKAFKA_DESCRIBE_LIMIT + 1] requests, each sent after acquiring
    the rate limiter. *)
Theorem ckafka_filters_collect_every_page (fuel : nat)
    (params : list (string * string)) (instanceId : string)
    (instanceInfo : InstanceAttributesResponse) (w : World) (s0 : Srv) :
  1 <= CKAFKA_DESCRIBE_LIMIT < 2 ^ 63 ->
  lookup params "instance_id" = Some instanceId ->
  ckafka_DescribeInstanceAttributes
    {| DescribeInstanceAttributes_InstanceId := instanceId |} (server w)
  = ((Some (Some (Some instanceInfo)), None), s0) ->
  (forall users : list User,
     len users < 2 ^ 63 ->
     len users / CKAFKA_DESCRIBE_LIMIT < Z.of_nat fuel ->
     (forall off,
        ckafka_DescribeUser
          {| DescribeUser_InstanceId := instanceId;
             DescribeUser_SearchWord := lookup params "account_name";
             DescribeUser_Limit := Some CKAFKA_DESCRIBE_LIMIT;
             DescribeUser_Offset := Some off |} s0
        = ((Some (Some (Some {| Users :=
                                  Some (page users off
                                             CKAFKA_DESCRIBE_LIMIT) |})),
            None), s0)) ->
     DescribeUserByFilter fuel params w
     = (Ret (users, None),
        scanned (looked w s0) "DescribeUser"
          (Z.to_nat (len users / CKAFKA_DESCRIBE_LIMIT + 1))))
  /\
  (forall (acls : list Acl) resourceType resourceName,
     len acls < 2 ^ 63 ->
     len acls / CKAFKA_DESCRIBE_LIMIT < Z.of_nat fuel ->
     lookup params "resource_type" = Some resourceType ->
     lookup params "resource_name" = Some resourceName ->
     String.eqb resourceType "TOPIC" = false ->
     (forall off,
        ckafka_DescribeACL
          {| DescribeACL_InstanceId := instanceId;
             DescribeACL_ResourceType :=
               CKAFKA_ACL_RESOURCE_TYPE resourceType;
             DescribeACL_ResourceName := resourceName;
             DescribeACL_SearchWord := lookup params "host";
             DescribeACL_Limit := CKAFKA_DESCRIBE_LIMIT;
             DescribeACL_Offset := off |} s0
        = ((Some (Some (Some {| AclList :=
                                  page acls off CKAFKA_DESCRIBE_LIMIT |})),
            None), s0)) ->
     DescribeAclByFilter fuel params w
     = (Ret (acls, None),
        scanned (looked w s0) "DescribeACL"
          (Z.to_nat (len acls / CKAFKA_DESCRIBE_LIMIT + 1)))).
Proof.
  intros Hp L Ei.
  pose proof (DescribeInstanceById_answered _ w _ s0 Ei) as D.
  cbn [payload] in D.
  split.
  - intros users Hn Hfuel Hsrv. unfold DescribeUserByFilter. rewrite L.
    rewrite (bind_Ret _ _ _ _ _ D). cbv iota beta. cbn [negb]. cbv zeta.
    rewrite wrap_int64_small by lia.
    rewrite (DescribeUserByFilter_loop_scan_at _ users s0 Hp Hn Hsrv);
      try reflexivity; rewrite ?Z.sub_0_r; try lia.
    + reflexivity.
    + unfold len. lia.
  - intros acls resourceType resourceName Hn Hfuel Lt Ln T Hsrv.
    now apply DescribeAclByFilter_listed
      with instanceId instanceInfo resourceType resourceName.
Qed.

(** An ACL is found by its id among the ACLs that the remote serves for
    the instance, the resource and the host of the id: the method
    returns the first of them whose permission type, principal and
    operation are those of the id, and reports [has = false] when there
    is none.  The host of the ACL itself is not compared. *)
Theorem DescribeAclByAclId_first_match (fuel : nat) (aclId : string)
    (instanceInfo : InstanceAttributesResponse) (acls : list Acl)
    (w : World) (s0 : Srv) :
  let item n := nth n (Split aclId FILED_SP) EmptyString in
  let wanted acl :=
    String.eqb (CKAFKA_PERMISSION_TYPE_TO_STRING (PermissionType acl))
               (item 1%nat) &&
    String.eqb (Principal acl) (CKAFKA_ACL_PRINCIPAL_STR ++ item 2%nat) &&
    String.eqb (CKAFKA_ACL_OPERATION_TO_STRING (Operation acl))
               (item 4%nat) in
  1 <= CKAFKA_DESCRIBE_LIMIT < 2 ^ 63 ->
  len (Split aclId FILED_SP) = 7 ->
  String.eqb (item 5%nat) "TOPIC" = false ->
  ckafka_DescribeInstanceAttributes
    {| DescribeInstanceAttributes_InstanceId := item 0%nat |} (server w)
  = ((Some (Some (Some instanceInfo)), None), s0) ->
  len acls < 2 ^ 63 ->
  len acls / CKAFKA_DESCRIBE_LIMIT < Z.of_nat fuel ->
  (forall off,
     ckafka_DescribeACL
       {| DescribeACL_InstanceId := item 0%nat;
          DescribeACL_ResourceType := CKAFKA_ACL_RESOURCE_TYPE (item 5%nat);
          DescribeACL_ResourceName := item 6%nat;
          DescribeACL_SearchWord := Some (item 3%nat);
          DescribeACL_Limit := CKAFKA_DESCRIBE_LIMIT;
          DescribeACL_Offset := off |} s0
     = ((Some (Some (Some {| AclList :=
                               page acls off CKAFKA_DESCRIBE_LIMIT |})),
         None), s0)) ->
  DescribeAclByAclId fuel aclId w
  = (Ret match find wanted acls with
         | Some acl => (Some acl, true, None)
         | None => (None, false, None)
         end,
     scanned (looked w s0) "DescribeACL"
       (Z.to_nat (len acls / CKAFKA_DESCRIBE_LIMIT + 1))).
Proof.
  intros item wanted Hp L T Ei Hn Hfuel Hsrv.
  unfold DescribeAclByAclId. rewrite L.
  change (negb (7 =? 7)) with false. cbv iota zeta.
  match goal with
  | |- context [DescribeAclByFilter fuel ?ps] =>
      rewrite (bind_Ret _ _ _ _ _
                 (DescribeAclByFilter_listed fuel ps (item 0%nat)
                    instanceInfo w s0 acls (item 5%nat) (item 6%nat)
                    Hp eq_refl Ei Hn Hfuel eq_refl eq_refl T Hsrv))
  end.
  cbv iota. subst wanted item. cbv beta.
  match goal with
  | |- context [find ?f acls] => now destruct (find f acls)
  end.
Qed.

End Filters.

Section FiltersRuns.
Import ckafka CkafkaService Sample.

(** 120 users in pages of 50: three requests, and every user. *)
Lemma ckafka_filters_collect_every_page_witness :
  DescribeUserByFilter 5 [("instance_id", "ckafka-1")]
    (start (userStore 120))
  = (Ret (users (userStore 120), None),
     scanned (looked (start (userStore 120)) (userStore 120))
       "DescribeUser" 3).
Proof.
  exact (proj1 (@ckafka_filters_collect_every_page package cloud 5
                  [("instance_id", "ckafka-1")] "ckafka-1"
                  {| InstanceAttributes_InstanceId := "ckafka-1" |}
                  (start (userStore 120)) (userStore 120)
                  ltac:(change (1 <= 50 < 2 ^ 63); lia) eq_refl eq_refl)
           (users (userStore 120))
           ltac:(vm_compute; reflexivity) ltac:(vm_compute; reflexivity)
           (fun off => eq_refl)).
Defined.

End FiltersRuns.

Section AclRuns.
Import ckafka CkafkaService Sample.

(** The id names the host 10.0.0.1; the one ACL served has the host
    "*", and is the ACL found. *)
Lemma DescribeAclByAclId_first_match_witness :
  @DescribeAclByAclId package
    (withAcls [{| PermissionType := 3; Principal := "User:app";
                  Operation := 3; Host := "*" |}])
    5 "ckafka-1#ALLOW#app#10.0.0.1#READ#GROUP#g1"
    (@Build_World (withAcls [{| PermissionType := 3;
                                Principal := "User:app";
                                Operation := 3; Host := "*" |}])
       emptyStore [])
  = (Ret (Some {| PermissionType := 3; Principal := "User:app";
                  Operation := 3; Host := "*" |}, true, None),
     @Build_World (withAcls [{| PermissionType := 3;
                                Principal := "User:app";
                                Operation := 3; Host := "*" |}])
       emptyStore
       (roundTrips "DescribeInstanceAttributes" 1
        ++ roundTrips "DescribeACL" 1)).
Proof.
  pose proof (@DescribeAclByAclId_first_match package
                (withAcls [{| PermissionType := 3; Principal := "User:app";
                              Operation := 3; Host := "*" |}])
                5 "ckafka-1#ALLOW#app#10.0.0.1#READ#GROUP#g1"
                {| InstanceAttributes_InstanceId := "ckafka-1" |}
                [{| PermissionType := 3; Principal := "User:app";
                    Operation := 3; Host := "*" |}]
                (@Build_World (withAcls [{| PermissionType := 3;
                                            Principal := "User:app";
                                            Operation := 3; Host := "*" |}])
                   emptyStore [])
                emptyStore) as T.
  cbv zeta in T.
  exact (T ltac:(change (1 <= 50 < 2 ^ 63); lia) eq_refl eq_refl eq_refl
           ltac:(vm_compute; reflexivity) ltac:(vm_compute; reflexivity)
           (fun off => eq_refl)).
Defined.

End AclRuns.

(** ** The write of [ModifyAccountDBAttachment] *)

Section AttachmentWrite.
Import sqlserver SqlserverService.
Context `{Package} `{Cloud}.

Lemma sends_round_trips (action a : string) (tr : list event) (k : nat) :
  String.eqb action a = false ->
  sends action (tr ++ roundTrips a k) = sends action tr.
Proof.
  intros Ne. unfold sends. rewrite existsb_app.
  replace (existsb _ (roundTrips a k)) with false; [apply orb_false_r|].
  induction k as [|k IH]; [reflexivity|].
  cbn [roundTrips existsb]. now rewrite Ne, <- IH.
Qed.

Lemma DescribeSqlserverAccountById_trace (fuel : nat)
    (instanceId userName : string) (w : World) :
  exists k,
    trace (snd (DescribeSqlserverAccountById fuel instanceId userName w))
    = (trace w ++ roundTrips "DescribeAccounts" k)%list.
Proof.
  unfold DescribeSqlserverAccountById, DescribeSqlserverAccounts, bind.
  match goal with
  | |- context [DescribeSqlserverAccounts_loop fuel ?r ?l ?o ?acc w] =>
      destruct (DescribeSqlserverAccounts_loop_trace fuel r l o acc w)
        as (k & _ & Htr);
      destruct (DescribeSqlserverAccounts_loop fuel r l o acc w)
        as [[[accountList err]| |] w1]
  end; cbn [snd] in *; exists k; try exact Htr.
  destruct err; [exact Htr|].
  destruct (len accountList =? 0); [exact Htr|].
  now destruct (find _ accountList).
Qed.

Lemma DescribeDBDetailsById_trace (fuel : nat) (dbId : string) (w : World) :
  exists k,
    trace (snd (DescribeDBDetailsById fuel dbId w))
    = (trace w ++ roundTrips "DescribeDBs" k)%list.
Proof.
  unfold DescribeDBDetailsById.
  destruct (len (Split dbId FILED_SP) <? 2);
    [exists 0%nat; cbn; now rewrite app_nil_r|].
  cbv zeta. unfold DescribeDBsOfInstance, bind.
  match goal with
  | |- context [DescribeDBsOfInstance_loop fuel ?r ?l ?o ?acc w] =>
      destruct (DescribeDBsOfInstance_loop_trace fuel r l o acc w)
        as (k & Htr);
      destruct (DescribeDBsOfInstance_loop fuel r l o acc w)
        as [[[instanceDBList err]| |] w1]
  end; cbn [snd] in *; exists k; try exact Htr.
  destruct err; [exact Htr|].
  destruct (len instanceDBList =? 0); [exact Htr|].
  now destruct (find _ instanceDBList).
Qed.

(** Whatever the remote answers, [ModifyAccountDBAttachment] sends its
    [ModifyAccountPrivilege] request only after both existence checks
    have passed: the account lookup and then the database lookup each
    returned [has = true] with a nil error.  On every other path, an
    error of a lookup, a missing account, a missing or deleting
    database, a panic, nothing is written. *)
Theorem ModifyAccountDBAttachment_writes_after_both_checks (fuel : nat)
    (instanceId accountName dbName privilege : string) (w : World) :
  sends "ModifyAccountPrivilege" (trace w) = false ->
  sends "ModifyAccountPrivilege"
    (trace (snd (ModifyAccountDBAttachment fuel instanceId accountName
                   dbName privilege w))) = true ->
  exists account w1 db w2,
    DescribeSqlserverAccountById fuel instanceId accountName w
    = (Ret (account, true, None), w1)
    /\ DescribeDBDetailsById fuel (instanceId ++ FILED_SP ++ dbName) w1
       = (Ret (db, true, None), w2).
Proof.
  intros Hw Hs. unfold ModifyAccountDBAttachment in Hs.
  cbv zeta in Hs. unfold bind at 1 in Hs.
  destruct (DescribeSqlserverAccountById_trace fuel instanceId accountName w)
    as (k1 & T1).
  destruct (DescribeSqlserverAccountById fuel instanceId accountName w)
    as [[[[account has] err]| |] w1]; cbn [snd] in *.
  2, 3: now rewrite T1, sends_round_trips, Hw in Hs.
  assert (Hw1 : sends "ModifyAccountPrivilege" (trace w1) = false)
    by now rewrite T1, sends_round_trips.
  destruct err as [err|]; [unfold ret in Hs; cbn in Hs; congruence|].
  destruct has; cbn [negb] in Hs;
    [|unfold ret in Hs; cbn in Hs; congruence].
  unfold bind at 1 in Hs.
  destruct (DescribeDBDetailsById_trace fuel
              (instanceId ++ FILED_SP ++ dbName) w1) as (k2 & T2).
  destruct (DescribeDBDetailsById fuel (instanceId ++ FILED_SP ++ dbName) w1)
    as [[[[db has] err]| |] w2] eqn:ED; cbn [snd] in *.
  2, 3: now rewrite T2, sends_round_trips, Hw1 in Hs.
  assert (Hw2 : sends "ModifyAccountPrivilege" (trace w2) = false)
    by now rewrite T2, sends_round_trips.
  destruct err as [err|]; [unfold ret in Hs; cbn in Hs; congruence|].
  destruct has; cbn [negb] in Hs;
    [|unfold ret in Hs; cbn in Hs; congruence].
  exists account, w1, db, w2. now split.
Qed.

End AttachmentWrite.

Section AttachmentWriteRuns.
Import sqlserver SqlserverService Sample.

(** The account "app" and the running database "db" exist: the
    privilege is written, after both lookups said so. *)
Lemma ModifyAccountDBAttachment_writes_after_both_checks_witness :
  exists account w1 db w2,
    DescribeSqlserverAccountById 5 "mssql-1" "app"
      (start (instanceStore (manyDBs 1) []))
    = (Ret (account, true, None), w1)
    /\ DescribeDBDetailsById 5 ("mssql-1" ++ FILED_SP ++ "db") w1
       = (Ret (db, true, None), w2).
Proof.
  pose proof (@ModifyAccountDBAttachment_writes_after_both_checks
                package cloud 5 "mssql-1" "app" "db" "rw"
                (start (instanceStore (manyDBs 1) []))) as T.
  assert (A : sends "ModifyAccountPrivilege"
                (trace (start (instanceStore (manyDBs 1) []))) = false)
    by reflexivity.
  assert (B : sends "ModifyAccountPrivilege"
                (trace (snd (ModifyAccountDBAttachment 5 "mssql-1" "app"
                               "db" "rw"
                               (start (instanceStore (manyDBs 1) [])))))
              = true)
    by (vm_compute; reflexivity).
  exact (T A B).
Defined.

End AttachmentWriteRuns.

(** ** Instances: orders, lookups and security groups *)

Section Instances.
Import sqlserver SqlserverService.
Context `{Package} `{Cloud}.

(** A deal that names no instance stops the order lookup, and with it
    the two submissions of an instance, with a panic: the first element
    of the empty [InstanceIdSet] is read before the flow of the deal is
    polled even once. *)
Theorem deal_without_instance_panics (w : World) (s1 s2 : Srv)
    (deal : DealInfo) (dealId : string) :
  InstanceIdSet deal = [] ->
  let ordered w0 :=
    {| server := s2; trace := trace w0 ++ roundTrips "DescribeOrders" 1 |} in
  (sqlserver_DescribeOrders {| DescribeOrders_DealNames := [dealId] |}
     (server w)
   = ((Some (Some [deal]), None), s2) ->
   GetInfoFromDeal dealId w = (Panic, ordered w))
  /\
  (sqlserver_DescribeOrders {| DescribeOrders_DealNames := [dealId] |} s1
   = ((Some (Some [deal]), None), s2) ->
   (forall dbVersion chargeType memory autoRenewFlag projectId subnetId
           vpcId zone storage weekSet startTime timeSpan multiZones haType
           securityGroups,
      sqlserver_CreateDBInstances
        (CreateSqlserverInstance_request dbVersion chargeType memory
           autoRenewFlag projectId subnetId vpcId zone storage weekSet
           startTime timeSpan multiZones haType securityGroups) (server w)
      = ((Some (Some [dealId]), None), s1) ->
      CreateSqlserverInstance dbVersion chargeType memory autoRenewFlag
        projectId subnetId vpcId zone storage weekSet startTime timeSpan
        multiZones haType securityGroups w
      = (Panic,
         ordered {| server := s1;
                    trace := trace w ++ roundTrips "CreateDBInstances" 1 |}))
   /\
   (forall masterInstanceId subnetId vpcId chargeType memory zone storage
           readonlyGroupType readonlyGroupId forceUpgrade securityGroups,
      sqlserver_CreateReadOnlyDBInstances
        (CreateSqlserverReadonlyInstance_request masterInstanceId subnetId
           vpcId chargeType memory zone storage readonlyGroupType
           readonlyGroupId forceUpgrade securityGroups) (server w)
      = ((Some (Some [dealId]), None), s1) ->
      CreateSqlserverReadonlyInstance masterInstanceId subnetId vpcId
        chargeType memory zone storage readonlyGroupType readonlyGroupId
        forceUpgrade securityGroups w
      = (Panic,
         ordered {| server := s1;
                    trace :=
                      trace w ++ roundTrips "CreateReadOnlyDBInstances" 1 |}))).
Proof.
  intros Hi ordered. subst ordered. cbv beta.
  assert (G : forall w0,
             sqlserver_DescribeOrders
               {| DescribeOrders_DealNames := [dealId] |} (server w0)
             = ((Some (Some [deal]), None), s2) ->
             GetInfoFromDeal dealId w0
             = (Panic,
                {| server := s2;
                   trace := trace w0 ++ roundTrips "DescribeOrders" 1 |})).
  { intros w0 E. unfold GetInfoFromDeal.
    rewrite (round_trip _ _ _ _ _ _ _ E). cbn [payload].
    change (len [deal] =? 0) with false.
    change (1 <? len [deal]) with false. cbn iota.
    now rewrite Hi. }
  split; [apply G|]. intros E. split.
  - intros dbVersion chargeType memory autoRenewFlag projectId subnetId
           vpcId zone storage weekSet startTime timeSpan multiZones haType
           securityGroups Hc.
    unfold CreateSqlserverInstance.
    rewrite (round_trip _ _ _ _ _ _ _ Hc). cbn [payload].
    change (len [dealId] =? 0) with false.
    change (1 <? len [dealId]) with false. cbn iota.
    now rewrite (bind_Panic _ _ _ _
                   (G {| server := s1;
                         trace := trace w
                                  ++ roundTrips "CreateDBInstances" 1 |} E)).
  - intros masterInstanceId subnetId vpcId chargeType memory zone storage
           readonlyGroupType readonlyGroupId forceUpgrade securityGroups Hc.
    unfold CreateSqlserverReadonlyInstance.
    rewrite (round_trip _ _ _ _ _ _ _ Hc). cbn [payload].
    change (len [dealId] =? 0) with false.
    change (1 <? len [dealId]) with false. cbn iota.
    now rewrite (bind_Panic _ _ _ _
                   (G {| server := s1;
                         trace :=
                           trace w
                           ++ roundTrips "CreateReadOnlyDBInstances" 1 |}
                      E)).
Qed.

(** The loop appends the address of its variable once a round and
    leaves in the cells what it was given, with every element assigned
    to the variable in turn. *)
Lemma rangeAppend_eq (v : Addr) (securityGroups : list string) :
  forall cells pointers,
    rangeAppend v securityGroups cells pointers
    = (fold_left (fun c g => assign c v g) securityGroups cells,
       (pointers ++ repeat v (List.length securityGroups))%list).
Proof.
  induction securityGroups as [|g rest IH]; intros cells pointers.
  - cbn. now rewrite app_nil_r.
  - cbn [rangeAppend fold_left List.length repeat].
    rewrite IH, <- app_assoc. reflexivity.
Qed.

Lemma last_cons_default {A} (x : A) (l : list A) (d : A) :
  last (x :: l) d = last l x.
Proof.
  revert x d. induction l as [|y l IH]; intros x d; [reflexivity|].
  change (last (x :: y :: l) d) with (last (y :: l) d).
  now rewrite !IH.
Qed.

Lemma assigned_last (v : Addr) (securityGroups : list string) :
  forall cells,
    fold_left (fun c g => assign c v g) securityGroups cells v
    = last securityGroups (cells v).
Proof.
  induction securityGroups as [|g rest IH]; intros cells; [reflexivity|].
  cbn [fold_left]. rewrite IH. unfold assign at 1.
  rewrite Nat.eqb_refl. symmetry. apply last_cons_default.
Qed.

Lemma securityGroupPointers_last (securityGroups : list string) :
  securityGroupPointers securityGroups
  = repeat (last securityGroups EmptyString) (List.length securityGroups).
Proof.
  unfold securityGroupPointers. rewrite rangeAppend_eq.
  cbn [app]. rewrite map_repeat. now rewrite assigned_last.
Qed.

(** The security groups of a new instance are appended to the request as
    the address of the variable of the [range] loop, and the module is
    built as go 1.13, where that is one variable for all the rounds.
    Whatever the cells and the pointers before the loop, the loop adds
    the same address once for every group and leaves the last group in
    its cell; so the request of either submission names the last group
    once for every group given, and the groups before the last are never
    sent. *)
Theorem only_the_last_security_group_is_sent
    (securityGroups : list string) :
  (forall v cells pointers,
     snd (rangeAppend v securityGroups cells pointers)
     = (pointers ++ repeat v (List.length securityGroups))%list
     /\
     fst (rangeAppend v securityGroups cells pointers) v
     = last securityGroups (cells v))
  /\
  (forall dbVersion chargeType memory autoRenewFlag projectId subnetId vpcId
          zone storage weekSet startTime timeSpan multiZones haType,
     CreateDBInstances_SecurityGroupList
       (CreateSqlserverInstance_request dbVersion chargeType memory
          autoRenewFlag projectId subnetId vpcId zone storage weekSet
          startTime timeSpan multiZones haType securityGroups)
     = repeat (last securityGroups EmptyString)
              (List.length securityGroups))
  /\
  (forall masterInstanceId subnetId vpcId chargeType memory zone storage
          readonlyGroupType readonlyGroupId forceUpgrade,
     CreateReadOnly_SecurityGroupList
       (CreateSqlserverReadonlyInstance_request masterInstanceId subnetId
          vpcId chargeType memory zone storage readonlyGroupType
          readonlyGroupId forceUpgrade securityGroups)
     = repeat (last securityGroups EmptyString)
              (List.length securityGroups)).
Proof.
  split; [|split].
  - intros v cells pointers. rewrite rangeAppend_eq. cbn [fst snd].
    split; [reflexivity|apply assigned_last].
  - intros. apply securityGroupPointers_last.
  - intros. apply securityGroupPointers_last.
Qed.

(** When the remote lists more than one instance for an id, the lookup
    by id returns its error together with a result: the first instance
    listed and the [has] that the status of that instance gives. *)
Theorem DescribeSqlserverInstanceById_ambiguous (fuel : nat)
    (instanceId : string) (first : option DBInstance)
    (others : list (option DBInstance)) (s0 : Srv) (w : World) :
  others <> [] ->
  len (first :: others) < 2 ^ 63 ->
  len (first :: others) / 20 < Z.of_nat fuel ->
  (forall off,
     sqlserver_DescribeDBInstances
       (DescribeSqlserverInstances_request
          instanceId (-1) EmptyString EmptyString 1 20 off) s0
     = ((Some (Some (page (first :: others) off 20)), None), s0)) ->
  server w = s0 ->
  DescribeSqlserverInstanceById fuel instanceId w
  = (Ret (first,
          match first with
          | Some i =>
              negb (DBInstance_Status i =? 8) &&
              negb (DBInstance_Status i =? 4) &&
              negb (DBInstance_Status i =? 6)
          | None => false
          end,
          Some (Errorf "[DescribeDBInstanceById]SDK returns more than one instance with instanceId %s"
                       [AStr instanceId])),
     scanned w "DescribeDBInstances"
       (Z.to_nat (len (first :: others) / 20 + 1))).
Proof.
  intros Hmore Hn Hfuel Hsrv Hw. unfold DescribeSqlserverInstanceById.
  unfold DescribeSqlserverInstances.
  rewrite (bind_Ret _ _ _ _ _
             (DescribeSqlserverInstances_loop_scan_at _ (first :: others)
                20 s0 ltac:(lia) Hn Hsrv fuel 0 [] w Hw
                ltac:(unfold len; lia)
                ltac:(now rewrite Z.sub_0_r))).
  rewrite Z.sub_0_r. cbn [app skipn Z.to_nat]. cbv iota zeta.
  destruct others as [|second others]; [congruence|].
  destruct (Z.ltb_spec 1 (len (first :: second :: others))) as [_|Hle];
    [reflexivity|].
  unfold len in Hle. cbn [List.length] in Hle. lia.
Qed.

End Instances.

Section InstancesRuns.
Import sqlserver SqlserverService Sample.

(** A deal with no instance id, looked up and as the answer to a
    submission. *)
Lemma deal_without_instance_panics_witness :
  GetInfoFromDeal "deal-1"
    (start (dealStore [{| DealName := "deal-1"; InstanceIdSet := [];
                          FlowId := 7 |}] ["deal-1"] [0]))
  = (Panic,
     {| server :=
          dealStore [{| DealName := "deal-1"; InstanceIdSet := [];
                        FlowId := 7 |}] ["deal-1"] [0];
        trace := [] ++ roundTrips "DescribeOrders" 1 |})
  /\
  CreateSqlserverInstance "2016SP1" "POSTPAID_BY_HOUR" 2 0 0
    "subnet-1" "vpc-1" "ap-guangzhou-2" 10 [] EmptyString 0 false
    "DUAL" ["sg-1"]
    (start (dealStore [{| DealName := "deal-1"; InstanceIdSet := [];
                          FlowId := 7 |}] ["deal-1"] [0]))
  = (Panic,
     {| server :=
          dealStore [{| DealName := "deal-1"; InstanceIdSet := [];
                        FlowId := 7 |}] ["deal-1"] [0];
        trace :=
          ([] ++ roundTrips "CreateDBInstances" 1)
          ++ roundTrips "DescribeOrders" 1 |}).
Proof.
  pose proof (deal_without_instance_panics
                (start (dealStore [{| DealName := "deal-1";
                                      InstanceIdSet := [];
                                      FlowId := 7 |}] ["deal-1"] [0]))
                (dealStore [{| DealName := "deal-1"; InstanceIdSet := [];
                               FlowId := 7 |}] ["deal-1"] [0])
                (dealStore [{| DealName := "deal-1"; InstanceIdSet := [];
                               FlowId := 7 |}] ["deal-1"] [0])
                {| DealName := "deal-1"; InstanceIdSet := []; FlowId := 7 |}
                "deal-1" eq_refl) as T.
  cbv zeta in T. split.
  - exact (proj1 T eq_refl).
  - exact (proj1 (proj2 T eq_refl) "2016SP1" "POSTPAID_BY_HOUR" 2 0 0
             "subnet-1" "vpc-1" "ap-guangzhou-2" 10 [] EmptyString 0 false
             "DUAL" ["sg-1"] eq_refl).
Defined.

(** Three groups given, and the request that is sent. *)
Example last_security_group_thrice :
  CreateDBInstances_SecurityGroupList
    (CreateSqlserverInstance_request "2016SP1" "POSTPAID_BY_HOUR" 2 0 0
       "subnet-1" "vpc-1" "ap-guangzhou-2" 10 [] EmptyString 0 false
       "DUAL" ["sg-1"; "sg-2"; "sg-3"])
  = ["sg-3"; "sg-3"; "sg-3"].
Proof. reflexivity. Qed.

(** Two instances listed for one id: the first, [has], and the error. *)
Lemma DescribeSqlserverInstanceById_ambiguous_witness :
  DescribeSqlserverInstanceById 5 "mssql-1"
    (start {| instances :=
                [Some {| DBInstance_InstanceId := "mssql-1";
                         DBInstance_Status := 2 |};
                 Some {| DBInstance_InstanceId := "mssql-1";
                         DBInstance_Status := 8 |}];
              backups := []; accounts := []; databases := [];
              flowStatuses := []; deals := []; dealNames := [];
              users := []; faults := [] |})
  = (Ret (Some {| DBInstance_InstanceId := "mssql-1";
                  DBInstance_Status := 2 |}, true,
          Some (Errorf "[DescribeDBInstanceById]SDK returns more than one instance with instanceId %s"
                       [AStr "mssql-1"])),
     scanned
       (start {| instances :=
                   [Some {| DBInstance_InstanceId := "mssql-1";
                            DBInstance_Status := 2 |};
                    Some {| DBInstance_InstanceId := "mssql-1";
                            DBInstance_Status := 8 |}];
                 backups := []; accounts := []; databases := [];
                 flowStatuses := []; deals := []; dealNames := [];
                 users := []; faults := [] |})
       "DescribeDBInstances" 1).
Proof.
  exact (@DescribeSqlserverInstanceById_ambiguous package cloud 5 "mssql-1"
           (Some {| DBInstance_InstanceId := "mssql-1";
                    DBInstance_Status := 2 |})
           [Some {| DBInstance_InstanceId := "mssql-1";
                    DBInstance_Status := 8 |}]
           {| instances :=
                [Some {| DBInstance_InstanceId := "mssql-1";
                         DBInstance_Status := 2 |};
                 Some {| DBInstance_InstanceId := "mssql-1";
                         DBInstance_Status := 8 |}];
              backups := []; accounts := []; databases := [];
              flowStatuses := []; deals := []; dealNames := [];
              users := []; faults := [] |}
           (start {| instances :=
                       [Some {| DBInstance_InstanceId := "mssql-1";
                                DBInstance_Status := 2 |};
                        Some {| DBInstance_InstanceId := "mssql-1";
                                DBInstance_Status := 8 |}];
                     backups := []; accounts := []; databases := [];
                     flowStatuses := []; deals := []; dealNames := [];
                     users := []; faults := [] |})
           ltac:(discriminate) ltac:(vm_compute; reflexivity)
           ltac:(vm_compute; reflexivity) (fun off => eq_refl) eq_refl).
Defined.

End InstancesRuns.

(** ** CKafka: ACLs of a topic *)

Section TopicAcls.
Import ckafka CkafkaService.
Context `{Package} `{Cloud}.

Lemma occurrences_app (d : ascii) (s t : string) :
  occurrences d (s ++ t) = (occurrences d s + occurrences d t)%nat.
Proof.
  induction s as [|c s IH]; [reflexivity|].
  cbn [append occurrences]. destruct (ascii_dec d c); now rewrite IH.
Qed.

(** The ACLs of a topic are looked up after the topic itself, whose id
    is the instance id, the delimiter and the topic name.  When the
    instance id or the topic name contains the delimiter, that id has
    too many parts: the error of the topic lookup is dropped, and the
    filter returns no ACL and a nil error without asking for any. *)
Theorem acls_of_a_topic_with_a_delimiter_are_hidden (d : ascii)
    (fuel : nat) (params : list (string * string))
    (instanceId resourceName : string)
    (instanceInfo : InstanceAttributesResponse) (w : World) (s0 : Srv) :
  FILED_SP = String d EmptyString ->
  lookup params "instance_id" = Some instanceId ->
  lookup params "resource_type" = Some "TOPIC" ->
  lookup params "resource_name" = Some resourceName ->
  (occurrences d instanceId + occurrences d resourceName <> 0)%nat ->
  ckafka_DescribeInstanceAttributes
    {| DescribeInstanceAttributes_InstanceId := instanceId |} (server w)
  = ((Some (Some (Some instanceInfo)), None), s0) ->
  DescribeAclByFilter fuel params w = (Ret ([], None), looked w s0).
Proof.
  intros Hd Li Lt Ln Hocc Ei.
  pose proof (DescribeInstanceById_answered _ w _ s0 Ei) as D.
  cbn [payload] in D.
  unfold DescribeAclByFilter. rewrite Li.
  rewrite (bind_Ret _ _ _ _ _ D). cbv iota beta. cbn [negb].
  rewrite Lt, Ln. change (String.eqb "TOPIC" "TOPIC") with true. cbv iota.
  assert (T : DescribeTopicById (instanceId ++ FILED_SP ++ resourceName)
                (looked w s0)
              = (Ret (None, false,
                      Some (Errorf "id of resource.tencentcloud_ckafka_topic is wrong"
                                   [])), looked w s0)).
  { assert (N : (len (Split (instanceId ++ FILED_SP ++ resourceName)
                            FILED_SP) =? 2) = false).
    { apply Z.eqb_neq. rewrite Hd, len_Split, !occurrences_app.
      cbn [occurrences]. destruct (ascii_dec d d) as [_|Ne]; [lia|].
      congruence. }
    unfold DescribeTopicById. cbv zeta. now rewrite N. }
  now rewrite (bind_Ret _ _ _ _ _ T).
Qed.

End TopicAcls.

Section TopicAclsRuns.
Import ckafka CkafkaService Sample.

(** The topic "orders#eu" of the instance "ckafka-1". *)
Lemma acls_of_a_topic_with_a_delimiter_are_hidden_witness :
  DescribeAclByFilter 5
    [("instance_id", "ckafka-1"); ("resource_type", "TOPIC");
     ("resource_name", "orders#eu")] (start emptyStore)
  = (Ret ([], None), looked (start emptyStore) emptyStore).
Proof.
  exact (@acls_of_a_topic_with_a_delimiter_are_hidden package cloud
           "#"%char 5
           [("instance_id", "ckafka-1"); ("resource_type", "TOPIC");
            ("resource_name", "orders#eu")]
           "ckafka-1" "orders#eu"
           {| InstanceAttributes_InstanceId := "ckafka-1" |}
           (start emptyStore) emptyStore
           eq_refl eq_refl eq_refl eq_refl
           ltac:(vm_compute; discriminate) eq_refl).
Defined.

End TopicAclsRuns.
